(** * Chronological waffle munger: binning and dominant-zone engine

    A shallow embedding of [chronological_waffle_munger.py]:
    [calculate_hr_zones], [is_sleeping], [create_time_bins],
    [calculate_dominant_zone_for_bin], [create_chronological_waffle_data]
    and the counts of [print_waffle_summary]; and of the grid, the
    summary counts and the timeline of [view_chronological_waffle.py].

    Conventions of the embedding.
    - Python [int] is [Z].
    - A timezone-aware [datetime] is a number of microseconds ([Z]) on
      one time axis: the wall clock of the zone of the localized
      [base_date], counted from 0001-01-01 00:00:00.  A pytz-localized
      datetime keeps its UTC offset under arithmetic, so on this axis
      adding a [timedelta] is addition, comparison of aware datetimes is
      comparison of instants, and the datetimes of that zone are the
      values from 0 to [datetime_max].  A [timedelta] is a number of
      microseconds.  Arithmetic that leaves the range of [datetime]
      (years 1 to 9999) or of [timedelta] raises [OverflowError]
      ([datetime_add], [timedelta]).
    - Python [float] is IEEE 754 binary64.  A finite float is the rational
      it denotes; arithmetic is the exact result rounded to nearest, ties
      to even ([Binary64.RN]), as IEEE 754 prescribes and as CPython
      implements [int / int].
    - Exceptions are the error monad [result].
    - A [dict] is an association list in insertion order, which is the
      iteration order Python guarantees.
    - The database reads ([get_sleep_periods], [get_heart_rate_data]) are
      inputs of the engine, and so are the rows the viewer fetches. *)

From Stdlib Require Import ZArith QArith Qround Qpower Qabs Lia Lqa List Bool.
From Stdlib Require Import Floats.
Import ListNotations.
Open Scope Z_scope.

(** ** Exceptions *)

Inductive exn : Type :=
| ZeroDivisionError
| OverflowError.

Inductive result (A : Type) : Type :=
| Ok (a : A)
| Raise (e : exn).

Arguments Ok {A} a.
Arguments Raise {A} e.

Definition bind {A B : Type} (c : result A) (k : A -> result B) : result B :=
  match c with
  | Ok a => k a
  | Raise e => Raise e
  end.

Notation "x <- c ;; k" := (bind c (fun x => k))
  (at level 61, c at next level, right associativity).

(** Left-to-right evaluation of a fallible function over a list, as a
    [for] loop that appends each result does. *)
Fixpoint mapM {A B : Type} (f : A -> result B) (l : list A) : result (list B) :=
  match l with
  | [] => Ok []
  | a :: rest =>
      b <- f a ;;
      bs <- mapM f rest ;;
      Ok (b :: bs)
  end.

(** ** binary64 arithmetic *)

Module Binary64.

Definition pow2 (k : Z) : Q := (2 ^ k)%Q.

(** Nearest integer, ties to the even one. *)
Definition round_half_even (x : Q) : Z :=
  let f := Qfloor x in
  match (x - inject_Z f ?= 1 # 2)%Q with
  | Lt => f
  | Gt => f + 1
  | Eq => if Z.even f then f else f + 1
  end.

(** [ilog2 x] is the binade of a positive [x]:
    [2 ^ ilog2 x <= x < 2 ^ (ilog2 x + 1)]. *)
Definition ilog2 (x : Q) : Z :=
  let k := Z.log2 (Qnum x) - Z.log2 (Zpos (Qden x)) in
  if Qle_bool (pow2 k) x then k else k - 1.

(** Exponent of the unit in the last place: 53 significant bits, and
    never below the subnormal grain [2 ^ -1074]. *)
Definition ulp_exp (x : Q) : Z := Z.max (ilog2 x - 52) (-1074).

Definition round_pos (x : Q) : Q :=
  let u := ulp_exp x in
  (inject_Z (round_half_even (x / pow2 u)) * pow2 u)%Q.

(** Round to nearest, ties to even, before the overflow test. *)
Definition RN (x : Q) : Q :=
  match (x ?= 0)%Q with
  | Eq => 0%Q
  | Gt => round_pos x
  | Lt => (- round_pos (- x))%Q
  end.

(** A rounded magnitude of [2 ^ 1024] or more is out of range. *)
Definition overflows (r : Q) : bool := Qle_bool (pow2 1024) (Qabs r).

Inductive float : Type :=
| Finite (q : Q)
| PosInf
| NegInf.

(** [int / int]: the correctly rounded quotient; raises instead of
    returning an infinity. *)
Definition int_true_div (a b : Z) : result Q :=
  if b =? 0 then Raise ZeroDivisionError
  else
    let r := RN (inject_Z a / inject_Z b) in
    if overflows r then Raise OverflowError else Ok r.

(** [x * y] for finite [x] and [y]: overflow gives an infinity. *)
Definition float_mul (x y : Q) : float :=
  let r := RN (x * y) in
  if overflows r then (if Qle_bool 0 r then PosInf else NegInf)
  else Finite r.

(** [p < n] for a float [p] and an int [n]: Python compares the exact
    values. *)
Definition float_lt_int (p : float) (n : Z) : bool :=
  match p with
  | Finite q => negb (Qle_bool (inject_Z n) q)
  | PosInf => false
  | NegInf => true
  end.

Definition float_le (x y : float) : Prop :=
  match x, y with
  | NegInf, _ => True
  | _, PosInf => True
  | Finite a, Finite b => (a <= b)%Q
  | _, _ => False
  end.

(** The value of a float decoded from its IEEE fields, used to compare
    [RN] with the machine's arithmetic on sample inputs. *)
Definition SF2Q (f : SpecFloat.spec_float) : option Q :=
  match f with
  | SpecFloat.S754_zero _ => Some 0%Q
  | SpecFloat.S754_finite s m e =>
      Some ((if s then - inject_Z (Zpos m) else inject_Z (Zpos m)) * pow2 e)%Q
  | _ => None
  end.

Definition same_value (f : PrimFloat.float) (q : Q) : bool :=
  match SF2Q (FloatOps.Prim2SF f) with
  | Some v => Qeq_bool v q
  | None => false
  end.

End Binary64.

Import Binary64.

(** ** Zone classifier *)

Definition calculate_hr_zones (heart_rate max_hr : Z) : result Z :=
  if heart_rate <=? 0 then Ok 0
  else
    q <- int_true_div heart_rate max_hr ;;
    let percentage := float_mul q 100 in
    if float_lt_int percentage 50 then Ok 1
    else if float_lt_int percentage 60 then Ok 2
    else if float_lt_int percentage 70 then Ok 3
    else if float_lt_int percentage 80 then Ok 4
    else if float_lt_int percentage 90 then Ok 5
    else Ok 6.

(** ** Sleep test *)

Fixpoint is_sleeping (timestamp : Z) (sleep_periods : list (Z * Z)) : bool :=
  match sleep_periods with
  | [] => false
  | (sleep_start, sleep_end) :: rest =>
      if (sleep_start <=? timestamp) && (timestamp <=? sleep_end) then true
      else is_sleeping timestamp rest
  end.

(** ** Time bins *)

Definition minutes (n : Z) : Z := n * 60000000.
Definition days (n : Z) : Z := n * 86400000000.

(** [datetime.max], 9999-12-31 23:59:59.999999: the 3652059 days from
    0001-01-01 to 9999-12-31, less one microsecond. *)
Definition datetime_max : Z := 315537897599999999.

(** The range of [timedelta]: from -999999999 days to 999999999 days
    23:59:59.999999. *)
Definition timedelta_min : Z := -86399999913600000000.
Definition timedelta_max : Z := 86399999999999999999.

(** [timedelta(...)] of [us] microseconds in all. *)
Definition timedelta (us : Z) : result Z :=
  if (timedelta_min <=? us) && (us <=? timedelta_max) then Ok us
  else Raise OverflowError.

(** [t + d] for a datetime [t] and a timedelta [d]. *)
Definition datetime_add (t d : Z) : result Z :=
  if (0 <=? t + d) && (t + d <=? datetime_max) then Ok (t + d)
  else Raise OverflowError.

(** The [while current_time < end_of_day] loop.  [None] stands for a run
    that has not finished within [fuel] iterations. *)
Fixpoint bins_loop (fuel : nat) (current_time end_of_day bin_minutes : Z)
  : option (result (list (Z * Z))) :=
  if current_time <? end_of_day then
    match fuel with
    | O => None
    | S fuel' =>
        match (width <- timedelta (minutes bin_minutes) ;;
               datetime_add current_time width) with
        | Raise e => Some (Raise e)
        | Ok bin_end =>
            match bins_loop fuel' bin_end end_of_day bin_minutes with
            | Some (Ok bins) => Some (Ok ((current_time, bin_end) :: bins))
            | Some (Raise e) => Some (Raise e)
            | None => None
            end
        end
    end
  else Some (Ok []).

(** [base_date] is local midnight of the requested date, the value of
    [local_tz.localize(datetime.strptime(date_str, "%Y-%m-%d"))]. *)
Definition create_time_bins (fuel : nat) (base_date bin_minutes : Z)
  : option (result (list (Z * Z))) :=
  let current_time := base_date in
  match (day <- timedelta (days 1) ;; datetime_add base_date day) with
  | Raise e => Some (Raise e)
  | Ok end_of_day => bins_loop fuel current_time end_of_day bin_minutes
  end.

(** ** Bin classifier *)

(** [timedelta / int] rounds to the nearest microsecond, ties to even. *)
Definition divide_and_round (a b : Z) : Z :=
  let q := a / b in
  let r := 2 * (a mod b) in
  let greater_than_half := if 0 <? b then b <? r else r <? b in
  if greater_than_half || ((r =? b) && (q mod 2 =? 1)) then q + 1 else q.

(** [bin_start + (bin_end - bin_start) / 2].  The result lies between the
    two bounds, so for bounds that are datetimes of one zone the
    addition stays in the range of [datetime]. *)
Definition bin_midpoint (bin_start bin_end : Z) : Z :=
  bin_start + divide_and_round (bin_end - bin_start) 2.

Definition dict : Type := list (Z * Z).

Fixpoint dict_get (d : dict) (k default : Z) : Z :=
  match d with
  | [] => default
  | (k', v) :: rest => if k' =? k then v else dict_get rest k default
  end.

(** [d[k] = v]: an existing key keeps its position, a new key goes last. *)
Fixpoint dict_set (d : dict) (k v : Z) : dict :=
  match d with
  | [] => [(k, v)]
  | (k', v') :: rest =>
      if k' =? k then (k', v) :: rest else (k', v') :: dict_set rest k v
  end.

Definition keys (d : dict) : list Z := map fst d.
Definition values (d : dict) : list Z := map snd d.

(** [d[k] = d.get(k, 0) + 1] *)
Definition dict_incr (d : dict) (k : Z) : dict :=
  dict_set d k (dict_get d k 0 + 1).

Definition count_zones (zones : list Z) : dict :=
  fold_left dict_incr zones [].

(** [max(iterable, key=...)] keeps the first item whose key is largest:
    a later item replaces the current one only when strictly greater. *)
Fixpoint max_from (key : Z -> Z) (best : Z) (rest : list Z) : Z :=
  match rest with
  | [] => best
  | k :: rest' =>
      if key best <? key k then max_from key k rest'
      else max_from key best rest'
  end.

Definition py_max_key (key : Z -> Z) (items : list Z) : option Z :=
  match items with
  | [] => None
  | k :: rest => Some (max_from key k rest)
  end.

Definition py_min (l : list Z) : option Z :=
  match l with
  | [] => None
  | x :: rest => Some (fold_left Z.min rest x)
  end.

Definition py_max (l : list Z) : option Z :=
  match l with
  | [] => None
  | x :: rest => Some (fold_left Z.max rest x)
  end.

Definition py_sum (l : list Z) : Z := fold_left Z.add l 0.

Definition len {A : Type} (l : list A) : Z := Z.of_nat (length l).

(** The dict a bin is reported as.  [bin_index], [grid_row] and
    [grid_col] are the keys the engine adds afterwards; [None] there is an
    absent key, elsewhere it is Python's [None]. *)
Record BinData : Type := mkBinData {
  bin_start : Z;
  bin_end : Z;
  is_sleep : bool;
  hr_readings_count : Z;
  avg_hr : option Q;
  min_hr : option Z;
  max_hr : option Z;
  dominant_zone : option Z;
  zone_counts : dict;
  all_zones : list Z;
  bin_index : option Z;
  grid_row : option Z;
  grid_col : option Z
}.

(** The readings whose timestamp lies in [[bin_start, bin_end)]. *)
Definition in_bin (bin_start bin_end : Z) (reading : Z * Z) : bool :=
  (bin_start <=? fst reading) && (fst reading <? bin_end).

Definition readings_in_bin (bin_start bin_end : Z) (hr_data : list (Z * Z))
  : list Z :=
  map snd (filter (in_bin bin_start bin_end) hr_data).

Definition calculate_dominant_zone_for_bin
  (bin_start bin_end : Z) (hr_data : list (Z * Z))
  (sleep_periods : list (Z * Z)) (max_hr : Z) : result BinData :=
  let bin_midpoint := bin_midpoint bin_start bin_end in
  let is_sleep_bin := is_sleeping bin_midpoint sleep_periods in
  let bin_hr_readings := readings_in_bin bin_start bin_end hr_data in
  zones <- mapM (fun hr => calculate_hr_zones hr max_hr) bin_hr_readings ;;
  let zone_counts := count_zones zones in
  let dominant_zone :=
    py_max_key (fun k => dict_get zone_counts k 0) (keys zone_counts) in
  avg <- match bin_hr_readings with
         | [] => Ok None
         | _ :: _ =>
             a <- int_true_div (py_sum bin_hr_readings) (len bin_hr_readings) ;;
             Ok (Some a)
         end ;;
  Ok (mkBinData bin_start bin_end is_sleep_bin (len bin_hr_readings)
        avg (py_min bin_hr_readings) (py_max bin_hr_readings)
        dominant_zone zone_counts zones None None None).

(** ** Engine *)

Definition with_grid (b : BinData) (i row col : Z) : BinData :=
  mkBinData (bin_start b) (bin_end b) (is_sleep b) (hr_readings_count b)
    (avg_hr b) (min_hr b) (max_hr b) (dominant_zone b) (zone_counts b)
    (all_zones b) (Some i) (Some row) (Some col).

Section Engine.

(** [int(n ** 0.5)], the truncated float square root of the bin count;
    it only places bins on the display grid. *)
Variable int_sqrt : Z -> Z.

Definition grid_position (n_bins i : Z) : Z * Z :=
  if n_bins =? 96 then (i / 12, i mod 12)
  else if n_bins <=? 100 then (i / 10, i mod 10)
  else
    let cols := int_sqrt n_bins + 1 in
    (i / cols, i mod cols).

(** The [for i, (bin_start, bin_end) in enumerate(time_bins)] loop. *)
Fixpoint process_bins (n_bins i : Z) (time_bins : list (Z * Z))
  (hr_data sleep_periods : list (Z * Z)) (max_hr : Z)
  : result (list BinData) :=
  match time_bins with
  | [] => Ok []
  | (bin_start, bin_end) :: rest =>
      bin_data <- calculate_dominant_zone_for_bin
                    bin_start bin_end hr_data sleep_periods max_hr ;;
      let (row, col) := grid_position n_bins i in
      waffle_data <- process_bins n_bins (i + 1) rest
                       hr_data sleep_periods max_hr ;;
      Ok (with_grid bin_data i row col :: waffle_data)
  end.

Definition create_chronological_waffle_data
  (fuel : nat) (base_date bin_minutes max_hr : Z)
  (sleep_periods hr_data : list (Z * Z))
  : option (result (list BinData)) :=
  match create_time_bins fuel base_date bin_minutes with
  | None => None
  | Some (Raise e) => Some (Raise e)
  | Some (Ok time_bins) =>
      Some (process_bins (len time_bins) 0 time_bins
              hr_data sleep_periods max_hr)
  end.

End Engine.

(** ** Aggregate report *)

(** The zone distribution of [print_waffle_summary]. *)
Definition summary_step (zone_counts : dict) (bin_data : BinData) : dict :=
  if negb (is_sleep bin_data) then
    match dominant_zone bin_data with
    | Some zone => dict_incr zone_counts zone
    | None => zone_counts
    end
  else zone_counts.

Definition print_waffle_summary (waffle_data : list BinData) : dict :=
  fold_left summary_step waffle_data [].

(** ** Vocabulary of the statements *)

(** The threshold table of [calculate_hr_zones], read off a percentage. *)
Definition zone_of_percentage (percentage : float) : Z :=
  if float_lt_int percentage 50 then 1
  else if float_lt_int percentage 60 then 2
  else if float_lt_int percentage 70 then 3
  else if float_lt_int percentage 80 then 4
  else if float_lt_int percentage 90 then 5
  else 6.

(** [bins[k].end == bins[k+1].start] for all [k]. *)
Definition contiguous (bins : list (Z * Z)) : Prop :=
  forall k a b,
    nth_error bins k = Some a -> nth_error bins (S k) = Some b ->
    snd a = fst b.

(** The bins the loop emits in [n] iterations from [current_time]. *)
Fixpoint bins_from (n : nat) (current_time width : Z) : list (Z * Z) :=
  match n with
  | O => []
  | S n' =>
      (current_time, current_time + width)
        :: bins_from n' (current_time + width) width
  end.

(** The number of bins of a day: the least [n] with
    [n * bin_minutes >= 1440]. *)
Definition bin_count (bin_minutes : Z) : nat :=
  Z.to_nat ((1440 + bin_minutes - 1) / bin_minutes).

(** The days whose bins are all datetimes: local midnight is one, and
    so is the end of the last bin, [bin_count] widths later. *)
Definition day_fits (base_date bin_minutes : Z) : Prop :=
  0 <= base_date /\
  base_date + minutes (Z.of_nat (bin_count bin_minutes) * bin_minutes)
    <= datetime_max.

Definition bounds (b : BinData) : Z * Z := (bin_start b, bin_end b).

(** Number of occurrences of [z] in [zones], as a Python int. *)
Definition occurrences (z : Z) (zones : list Z) : Z :=
  Z.of_nat (count_occ Z.eq_dec zones z).

(** The bins an awake-zone count is about. *)
Definition awake_in_zone (z : Z) (b : BinData) : bool :=
  negb (is_sleep b) &&
  match dominant_zone b with
  | Some z' => z' =? z
  | None => false
  end.

(** ** Counts of the summaries *)

(** [sum(1 for x in l if p x)] *)
Definition count_if {A : Type} (p : A -> bool) (l : list A) : Z :=
  py_sum (map (fun _ => 1) (filter p l)).

Definition total_bins (waffle_data : list BinData) : Z := len waffle_data.

Definition sleep_bins (waffle_data : list BinData) : Z :=
  count_if is_sleep waffle_data.

Definition awake_bins (waffle_data : list BinData) : Z :=
  total_bins waffle_data - sleep_bins waffle_data.

Definition bins_with_hr_data (waffle_data : list BinData) : Z :=
  count_if (fun b => 0 <? hr_readings_count b) waffle_data.

(** ** Viewer *)

(** A row of [chronological_waffle_data] carries the fields of the bin
    dict it was saved from, so the viewer's rows are [BinData] as well. *)

Definition no_data_bins (waffle_data : list BinData) : Z :=
  count_if (fun row => hr_readings_count row =? 0) waffle_data.

Definition awake_with_data (waffle_data : list BinData) : Z :=
  len waffle_data - sleep_bins waffle_data - no_data_bins waffle_data.

(** The squares of the grid display. *)
Inductive symbol : Type :=
| zzz | white | blue | green | yellow | orange | red | purple | black.

Definition zone_symbols : list (Z * symbol) :=
  [(1, blue); (2, green); (3, yellow); (4, orange); (5, red); (6, purple)].

Fixpoint symbols_get (d : list (Z * symbol)) (k : Z) (default : symbol)
  : symbol :=
  match d with
  | [] => default
  | (k', v) :: rest => if k' =? k then v else symbols_get rest k default
  end.

Definition view_symbol (row : BinData) : symbol :=
  if is_sleep row then zzz
  else
    match dominant_zone row with
    | None => white
    | Some zone => symbols_get zone_symbols zone black
    end.

Definition range (n : nat) : list Z := map Z.of_nat (seq 0 n).

(** The 8 x 12 display loop of [view_waffle_data]. *)
Definition view_grid (waffle_data : list BinData) : list (list symbol) :=
  map (fun row =>
         map (fun col =>
                let bin_index := row * 12 + col in
                if bin_index <? len waffle_data then
                  match nth_error waffle_data (Z.to_nat bin_index) with
                  | Some bin_data => view_symbol bin_data
                  | None => white
                  end
                else white)
             (range 12))
      (range 8).

(** [view_waffle_data] draws nothing when there are no rows. *)
Definition view_waffle_data (waffle_data : list BinData)
  : option (list (list symbol)) :=
  match waffle_data with
  | [] => None
  | _ :: _ => Some (view_grid waffle_data)
  end.

(** The states of [view_detailed_timeline]. *)
Inductive state : Type :=
| SLEEP
| NO_DATA
| ZONE (zone : Z).

Definition state_eqb (a b : state) : bool :=
  match a, b with
  | SLEEP, SLEEP => true
  | NO_DATA, NO_DATA => true
  | ZONE x, ZONE y => x =? y
  | _, _ => false
  end.

Definition state_of (row : BinData) : state :=
  if is_sleep row then SLEEP
  else
    match dominant_zone row with
    | None => NO_DATA
    | Some zone => ZONE zone
    end.

(** One turn of the timeline loop: the state carried so far with its
    start, and the lines printed so far, each [(start, end, state)]. *)
Definition timeline_step
  (acc : option (state * Z) * list (Z * Z * state)) (row : BinData)
  : option (state * Z) * list (Z * Z * state) :=
  let st := state_of row in
  match fst acc with
  | None => (Some (st, bin_start row), snd acc)
  | Some (current_state, state_start) =>
      if state_eqb current_state st then acc
      else (Some (st, bin_start row),
            snd acc ++ [(state_start, bin_start row, current_state)])
  end.

Definition view_detailed_timeline (waffle_data : list BinData)
  : list (Z * Z * state) :=
  let acc := fold_left timeline_step waffle_data (None, []) in
  match fst acc with
  | None => snd acc
  | Some (current_state, state_start) =>
      snd acc ++
        [(state_start, last (map bin_end waffle_data) 0, current_state)]
  end.

(** ** Vocabulary of the further statements *)

(** A list of states with adjacent repetitions merged. *)
Fixpoint collapse (states : list state) : list state :=
  match states with
  | [] => []
  | s :: rest =>
      match rest with
      | [] => [s]
      | s' :: _ => if state_eqb s s' then collapse rest else s :: collapse rest
      end
  end.


(** The columns of the grid the engine uses for [n_bins] bins. *)
Definition grid_cols (int_sqrt : Z -> Z) (n_bins : Z) : Z :=
  if n_bins =? 96 then 12
  else if n_bins <=? 100 then 10
  else int_sqrt n_bins + 1.

(** The lines of the timeline from a state carried since [state_start]
    over the remaining rows, the last line closing at [final_end]. *)
Fixpoint timeline_from (current_state : state) (state_start final_end : Z)
  (rows : list BinData) : list (Z * Z * state) :=
  match rows with
  | [] => [(state_start, final_end, current_state)]
  | row :: rest =>
      if state_eqb current_state (state_of row)
      then timeline_from current_state state_start final_end rest
      else (state_start, bin_start row, current_state)
             :: timeline_from (state_of row) (bin_start row) final_end rest
  end.

(** * Rounding to binary64 is monotone *)

Ltac qcmp H :=
  first [ apply Qeq_alt in H | apply Qlt_alt in H | apply Qgt_alt in H ].

Lemma pow2_pos k : (0 < pow2 k)%Q.
Proof. apply Qpower_0_lt. reflexivity. Qed.

Lemma pow2_add a b : (pow2 (a + b) == pow2 a * pow2 b)%Q.
Proof. apply Qpower_plus. discriminate. Qed.

Lemma pow2_sub a b : (pow2 (a - b) == pow2 a / pow2 b)%Q.
Proof. apply Qpower_minus. discriminate. Qed.

Lemma pow2_le a b : a <= b -> (pow2 a <= pow2 b)%Q.
Proof. intros. apply Qpower_le_compat_l; [assumption | discriminate]. Qed.

Lemma pow2_lt a b : a < b -> (pow2 a < pow2 b)%Q.
Proof. intros. apply Qpower_lt_compat_l; [assumption | reflexivity]. Qed.

Lemma pow2_Z k : 0 <= k -> (pow2 k == inject_Z (2 ^ k))%Q.
Proof. intros. unfold pow2. symmetry. apply (Zpower_Qpower 2 k). assumption. Qed.

Lemma inject_Z_le' a b : a <= b -> (inject_Z a <= inject_Z b)%Q.
Proof. rewrite <- Zle_Qle. trivial. Qed.

Lemma floor_frac x : (0 <= x - inject_Z (Qfloor x) < 1)%Q.
Proof.
  pose proof (Qfloor_le x). pose proof (Qlt_floor x).
  rewrite inject_Z_plus in H0. change (inject_Z 1) with 1%Q in H0. split; lra.
Qed.

Lemma round_half_even_bounds x :
  Qfloor x <= round_half_even x <= Qfloor x + 1.
Proof.
  unfold round_half_even.
  destruct (x - inject_Z (Qfloor x) ?= 1 # 2)%Q; try destruct (Z.even _); lia.
Qed.

Lemma round_half_even_Z n : round_half_even (inject_Z n) = n.
Proof.
  unfold round_half_even. rewrite Qfloor_Z.
  assert (E : (inject_Z n - inject_Z n ?= 1 # 2)%Q = Lt).
  { rewrite <- Qlt_alt. lra. }
  rewrite E. reflexivity.
Qed.

Lemma round_half_even_mono x y :
  (x <= y)%Q -> round_half_even x <= round_half_even y.
Proof.
  intros Hxy.
  pose proof (Qfloor_resp_le _ _ Hxy) as Hf.
  pose proof (round_half_even_bounds x) as Bx.
  pose proof (round_half_even_bounds y) as By.
  destruct (Z.eq_dec (Qfloor x) (Qfloor y)) as [E|NE]; [|lia].
  unfold round_half_even in *. rewrite <- E in *.
  destruct (x - inject_Z (Qfloor x) ?= 1 # 2)%Q eqn:Cx;
  destruct (y - inject_Z (Qfloor x) ?= 1 # 2)%Q eqn:Cy;
    try destruct (Z.even (Qfloor x)); try lia;
    qcmp Cx; qcmp Cy; exfalso; lra.
Qed.

Lemma round_half_even_ge n x : (inject_Z n <= x)%Q -> n <= round_half_even x.
Proof. intros H. apply round_half_even_mono in H. now rewrite round_half_even_Z in H. Qed.

Lemma round_half_even_le n x : (x <= inject_Z n)%Q -> round_half_even x <= n.
Proof. intros H. apply round_half_even_mono in H. now rewrite round_half_even_Z in H. Qed.

Lemma round_half_even_err x :
  (Qabs (inject_Z (round_half_even x) - x) <= 1 # 2)%Q.
Proof.
  pose proof (floor_frac x) as [F1 F2].
  apply Qabs_Qle_condition.
  unfold round_half_even.
  destruct (x - inject_Z (Qfloor x) ?= 1 # 2)%Q eqn:C;
    qcmp C;
    try destruct (Z.even (Qfloor x)); rewrite ?inject_Z_plus;
    change (inject_Z 1) with 1%Q; split; lra.
Qed.

Lemma pow2_succ k : (pow2 (k + 1) == 2 * pow2 k)%Q.
Proof. rewrite pow2_add. change (pow2 1) with 2%Q. ring. Qed.

Lemma pow2_pred k : (pow2 (k - 1) == pow2 k / 2)%Q.
Proof. rewrite pow2_sub. change (pow2 1) with 2%Q. reflexivity. Qed.

Lemma pow2_log2 n :
  0 < n -> (pow2 (Z.log2 n) <= inject_Z n < 2 * pow2 (Z.log2 n))%Q.
Proof.
  intros Hn. destruct (Z.log2_spec n Hn) as [L U].
  pose proof (Z.log2_nonneg n) as Hl.
  rewrite <- pow2_succ, !pow2_Z by lia. split.
  - now apply inject_Z_le'.
  - rewrite <- Zlt_Qlt. exact U.
Qed.

Lemma ilog2_spec x :
  (0 < x)%Q -> (pow2 (ilog2 x) <= x < pow2 (ilog2 x + 1))%Q.
Proof.
  intros Hx. unfold ilog2.
  destruct x as [n d]. cbn [Qnum Qden].
  assert (Hn : 0 < n) by (unfold Qlt in Hx; cbn in Hx; lia).
  pose proof (pow2_log2 n Hn) as [A1 A2].
  pose proof (pow2_log2 (Zpos d) eq_refl) as [B1 B2].
  set (a := Z.log2 n) in *. set (b := Z.log2 (Zpos d)) in *.
  pose proof (pow2_sub a b) as Hk.
  pose proof (pow2_pos a) as Pa. pose proof (pow2_pos b) as Pb.
  pose proof (pow2_pos (a - b)) as Pk.
  assert (Hk' : (pow2 (a - b) * pow2 b == pow2 a)%Q).
  { rewrite Hk. field. lra. }
  assert (Hd : (0 < inject_Z (Zpos d))%Q) by (rewrite <- (Zlt_Qlt 0); lia).
  assert (Hxd : ((n # d) * inject_Z (Zpos d) == inject_Z n)%Q).
  { rewrite (Qmake_Qdiv n d). field. lra. }
  destruct (Qle_bool (pow2 (a - b)) (n # d)) eqn:C.
  - apply Qle_bool_iff in C. split; [exact C|].
    rewrite pow2_succ. nra.
  - assert (C' : (n # d < pow2 (a - b))%Q).
    { apply Qnot_le_lt. intro H. apply Qle_bool_iff in H. congruence. }
    replace (a - b - 1 + 1) with (a - b) by lia. split; [|exact C'].
    rewrite pow2_pred. apply Qle_shift_div_r; [reflexivity|]. nra.
Qed.

Lemma ilog2_mono x y : (0 < x)%Q -> (x <= y)%Q -> ilog2 x <= ilog2 y.
Proof.
  intros Hx Hxy.
  destruct (ilog2_spec x Hx) as [Lx _].
  destruct (ilog2_spec y) as [_ Uy]; [lra|].
  assert (H : (pow2 (ilog2 x) < pow2 (ilog2 y + 1))%Q) by lra.
  apply Qpower_lt_compat_l_inv in H; [lia | reflexivity].
Qed.

Lemma ulp_exp_mono x y : (0 < x)%Q -> (x <= y)%Q -> ulp_exp x <= ulp_exp y.
Proof. intros Hx Hxy. pose proof (ilog2_mono x y Hx Hxy). unfold ulp_exp. lia. Qed.

(** A power of two at or above the rounding grain is a fixed point of the
    scaled rounding: it bounds the rounded value from either side. *)
Lemma round_pos_le_pow2 x k :
  ulp_exp x <= k -> (x <= pow2 k)%Q -> (round_pos x <= pow2 k)%Q.
Proof.
  intros Hk Hx. unfold round_pos. set (u := ulp_exp x) in *.
  pose proof (pow2_pos u) as Pu.
  assert (E : (pow2 k == inject_Z (2 ^ (k - u)) * pow2 u)%Q).
  { rewrite <- pow2_Z by lia. rewrite <- pow2_add. now replace (k - u + u) with k by lia. }
  rewrite E. apply Qmult_le_compat_r; [|lra].
  apply inject_Z_le'. apply round_half_even_le.
  apply Qle_shift_div_r; [exact Pu|]. now rewrite <- E.
Qed.

Lemma round_pos_ge_pow2 x k :
  ulp_exp x <= k -> (pow2 k <= x)%Q -> (pow2 k <= round_pos x)%Q.
Proof.
  intros Hk Hx. unfold round_pos. set (u := ulp_exp x) in *.
  pose proof (pow2_pos u) as Pu.
  assert (E : (pow2 k == inject_Z (2 ^ (k - u)) * pow2 u)%Q).
  { rewrite <- pow2_Z by lia. rewrite <- pow2_add. now replace (k - u + u) with k by lia. }
  rewrite E. apply Qmult_le_compat_r; [|lra].
  apply inject_Z_le'. apply round_half_even_ge.
  apply Qle_shift_div_l; [exact Pu|]. now rewrite <- E.
Qed.

Lemma round_pos_nonneg x : (0 <= x)%Q -> (0 <= round_pos x)%Q.
Proof.
  intros Hx. unfold round_pos. pose proof (pow2_pos (ulp_exp x)) as Pu.
  apply Qmult_le_0_compat; [|lra].
  apply (inject_Z_le' 0). apply round_half_even_ge.
  apply Qle_shift_div_l; [exact Pu|]. change (inject_Z 0) with 0%Q. lra.
Qed.

Lemma round_pos_mono x y :
  (0 < x)%Q -> (x <= y)%Q -> (round_pos x <= round_pos y)%Q.
Proof.
  intros Hx Hxy.
  pose proof (ulp_exp_mono x y Hx Hxy) as Hu.
  destruct (Z.eq_dec (ulp_exp x) (ulp_exp y)) as [E|NE].
  - unfold round_pos. rewrite E. pose proof (pow2_pos (ulp_exp y)) as Pu.
    apply Qmult_le_compat_r; [|lra].
    apply inject_Z_le', round_half_even_mono.
    apply Qmult_le_compat_r; [exact Hxy|].
    apply Qlt_le_weak, Qinv_lt_0_compat, Pu.
  - assert (Hy : (0 < y)%Q) by lra.
    destruct (ilog2_spec x Hx) as [_ Ux].
    destruct (ilog2_spec y Hy) as [Ly _].
    assert (Hlt : ilog2 x + 1 <= ilog2 y) by (unfold ulp_exp in *; lia).
    apply Qle_trans with (pow2 (ilog2 y)).
    + apply round_pos_le_pow2; [unfold ulp_exp in *; lia|].
      apply Qle_trans with (pow2 (ilog2 x + 1)); [lra | now apply pow2_le].
    + apply round_pos_ge_pow2; [unfold ulp_exp in *; lia | exact Ly].
Qed.

Lemma RN_mono x y : (x <= y)%Q -> (RN x <= RN y)%Q.
Proof.
  intros Hxy. unfold RN.
  pose proof (round_pos_nonneg x) as Nx.
  pose proof (round_pos_nonneg y) as Ny.
  pose proof (round_pos_nonneg (- x)) as Nx'.
  pose proof (round_pos_nonneg (- y)) as Ny'.
  pose proof (round_pos_mono x y) as M.
  pose proof (round_pos_mono (- y) (- x)) as M'.
  destruct (x ?= 0)%Q eqn:Cx; destruct (y ?= 0)%Q eqn:Cy; qcmp Cx; qcmp Cy;
    lra.
Qed.

Lemma RN_comp x y : (x == y)%Q -> (RN x == RN y)%Q.
Proof. intros E. apply Qle_antisym; apply RN_mono; lra. Qed.

Lemma RN_zero : RN 0 = 0%Q.
Proof. reflexivity. Qed.

Lemma RN_nonneg x : (0 <= x)%Q -> (0 <= RN x)%Q.
Proof. intros H. apply RN_mono in H. now rewrite RN_zero in H. Qed.

Lemma RN_nonpos x : (x <= 0)%Q -> (RN x <= 0)%Q.
Proof. intros H. apply RN_mono in H. now rewrite RN_zero in H. Qed.

Lemma pow2_fixed k : -1074 <= k -> (RN (pow2 k) == pow2 k)%Q.
Proof.
  intros Hk. pose proof (pow2_pos k) as P.
  assert (E : RN (pow2 k) = round_pos (pow2 k)).
  { unfold RN. destruct (pow2 k ?= 0)%Q eqn:C; qcmp C; try reflexivity; lra. }
  rewrite E.
  assert (Hu : ulp_exp (pow2 k) <= k).
  { destruct (ilog2_spec (pow2 k) P) as [L _].
    apply Qpower_le_compat_l_inv in L; [|reflexivity].
    unfold ulp_exp. lia. }
  apply Qle_antisym.
  - apply round_pos_le_pow2; [exact Hu | lra].
  - apply round_pos_ge_pow2; [exact Hu | lra].
Qed.

Lemma overflows_false r : overflows r = false <-> (Qabs r < pow2 1024)%Q.
Proof.
  unfold overflows. split; intros H.
  - apply Qnot_le_lt. intros C. apply Qle_bool_iff in C. congruence.
  - destruct (Qle_bool (pow2 1024) (Qabs r)) eqn:C; [|reflexivity].
    apply Qle_bool_iff in C. lra.
Qed.

Lemma overflows_true r : overflows r = true <-> (pow2 1024 <= Qabs r)%Q.
Proof. unfold overflows. apply Qle_bool_iff. Qed.

Lemma Qabs_nonneg_eq r : (0 <= r)%Q -> (Qabs r == r)%Q.
Proof. apply Qabs_pos. Qed.

(** A quotient below [2 ^ 1023] in magnitude rounds within range. *)
Lemma RN_in_range x :
  (Qabs x <= pow2 1023)%Q -> overflows (RN x) = false.
Proof.
  intros H. apply overflows_false.
  assert (P : (pow2 1023 < pow2 1024)%Q) by (apply pow2_lt; lia).
  pose proof (pow2_fixed 1023 ltac:(lia)) as F.
  apply Qabs_Qle_condition in H. destruct H as [H1 H2].
  apply Qle_lt_trans with (pow2 1023); [|exact P].
  apply Qabs_Qle_condition. split.
  - assert (M : (RN (- pow2 1023) <= RN x)%Q) by now apply RN_mono.
    assert (E : (RN (- pow2 1023) == - pow2 1023)%Q) by (vm_compute; reflexivity).
    lra.
  - assert (M : (RN x <= RN (pow2 1023))%Q) by now apply RN_mono.
    lra.
Qed.

Lemma Qdiv_nonneg a b : 0 <= a -> 0 < b -> (0 <= inject_Z a / inject_Z b)%Q.
Proof.
  intros Ha Hb. apply Qle_shift_div_l.
  - rewrite <- (Zlt_Qlt 0). exact Hb.
  - rewrite Qmult_0_l. rewrite <- (Zle_Qle 0). exact Ha.
Qed.

Lemma Qdiv_le_num a a' b :
  a <= a' -> 0 < b -> (inject_Z a / inject_Z b <= inject_Z a' / inject_Z b)%Q.
Proof.
  intros Ha Hb. apply Qmult_le_compat_r.
  - now apply inject_Z_le'.
  - apply Qlt_le_weak, Qinv_lt_0_compat. rewrite <- (Zlt_Qlt 0). exact Hb.
Qed.

Lemma int_true_div_mono a a' m q' :
  0 < m -> 0 <= a <= a' -> int_true_div a' m = Ok q' ->
  exists q, int_true_div a m = Ok q /\ (0 <= q <= q')%Q.
Proof.
  unfold int_true_div. intros Hm [H0 Ha] H.
  destruct (Z.eqb_spec m 0) as [|_]; [lia|].
  destruct (overflows (RN (inject_Z a' / inject_Z m))) eqn:O'; [discriminate|].
  injection H as <-.
  pose proof (RN_mono _ _ (Qdiv_le_num a a' m Ha Hm)) as M.
  pose proof (RN_nonneg _ (Qdiv_nonneg a m H0 Hm)) as N.
  assert (O : overflows (RN (inject_Z a / inject_Z m)) = false).
  { apply overflows_false. apply overflows_false in O'.
    rewrite Qabs_nonneg_eq in * by lra. lra. }
  rewrite O. eexists. split; [reflexivity|]. split; assumption.
Qed.

Lemma float_mul_mono q q' :
  (0 <= q <= q')%Q -> float_le (float_mul q 100) (float_mul q' 100).
Proof.
  intros [H0 H]. unfold float_mul.
  assert (M : (RN (q * 100) <= RN (q' * 100))%Q) by (apply RN_mono; lra).
  assert (N : (0 <= RN (q * 100))%Q) by (apply RN_nonneg; lra).
  assert (B : Qle_bool 0 (RN (q * 100)) = true) by now apply Qle_bool_iff.
  assert (B' : Qle_bool 0 (RN (q' * 100)) = true) by (apply Qle_bool_iff; lra).
  rewrite B, B'.
  destruct (overflows (RN (q * 100))) eqn:O;
    destruct (overflows (RN (q' * 100))) eqn:O'; cbn; trivial.
  apply overflows_true in O. apply overflows_false in O'.
  rewrite Qabs_nonneg_eq in * by lra. lra.
Qed.

Lemma float_lt_int_anti p p' n :
  float_le p p' -> float_lt_int p' n = true -> float_lt_int p n = true.
Proof.
  destruct p, p'; cbn; try easy.
  intros H. rewrite !negb_true_iff. intros C.
  destruct (Qle_bool (inject_Z n) q) eqn:D; [|reflexivity].
  apply Qle_bool_iff in D.
  assert (D' : Qle_bool (inject_Z n) q0 = true) by (apply Qle_bool_iff; lra).
  congruence.
Qed.

Lemma zone_of_percentage_range p : 1 <= zone_of_percentage p <= 6.
Proof.
  unfold zone_of_percentage.
  repeat match goal with |- context [if ?c then _ else _] => destruct c end; lia.
Qed.

Lemma zone_of_percentage_mono p p' :
  float_le p p' -> zone_of_percentage p <= zone_of_percentage p'.
Proof.
  intros H. unfold zone_of_percentage.
  pose proof (float_lt_int_anti p p' 50 H).
  pose proof (float_lt_int_anti p p' 60 H).
  pose proof (float_lt_int_anti p p' 70 H).
  pose proof (float_lt_int_anti p p' 80 H).
  pose proof (float_lt_int_anti p p' 90 H).
  destruct (float_lt_int p' 50), (float_lt_int p' 60), (float_lt_int p' 70),
    (float_lt_int p' 80), (float_lt_int p' 90);
    repeat match goal with
           | H : true = true -> _ |- _ => rewrite (H eq_refl); clear H
           end; try lia;
    repeat match goal with |- context [if ?c then _ else _] => destruct c end; lia.
Qed.

(** The classifier on a positive reading: divide, scale, read the table. *)
Lemma calculate_hr_zones_pos heart_rate max_hr :
  0 < heart_rate ->
  calculate_hr_zones heart_rate max_hr =
    (q <- int_true_div heart_rate max_hr ;;
     Ok (zone_of_percentage (float_mul q 100))).
Proof.
  intros H. unfold calculate_hr_zones, zone_of_percentage.
  destruct (Z.leb_spec heart_rate 0); [lia|].
  destruct (int_true_div heart_rate max_hr); cbn; [|reflexivity].
  repeat match goal with |- context [if ?c then _ else _] => destruct c end;
    reflexivity.
Qed.

Lemma calculate_hr_zones_nonpos heart_rate max_hr :
  heart_rate <= 0 -> calculate_hr_zones heart_rate max_hr = Ok 0.
Proof.
  intros H. unfold calculate_hr_zones.
  destruct (Z.leb_spec heart_rate 0); [reflexivity | lia].
Qed.

Lemma Qabs_inject_Z a : Qabs (inject_Z a) = inject_Z (Z.abs a).
Proof. reflexivity. Qed.

Lemma int_true_div_in_range a m :
  m <> 0 -> Z.abs a <= 2 ^ 1023 * Z.abs m ->
  exists q, int_true_div a m = Ok q.
Proof.
  intros Hm H. unfold int_true_div.
  destruct (Z.eqb_spec m 0); [contradiction|].
  rewrite RN_in_range; [eexists; reflexivity|].
  assert (Hq : (inject_Z a / inject_Z m == inject_Z a * / inject_Z m)%Q) by reflexivity.
  rewrite Hq, Qabs_Qmult, Qabs_Qinv, !Qabs_inject_Z.
  assert (Pm : (0 < inject_Z (Z.abs m))%Q) by (rewrite <- (Zlt_Qlt 0); lia).
  apply Qle_shift_div_r; [exact Pm|].
  rewrite pow2_Z by lia. rewrite <- inject_Z_mult, <- Zle_Qle. exact H.
Qed.

(** Within the range of binary64 the classifier returns a zone. *)
Lemma calculate_hr_zones_total heart_rate max_hr :
  max_hr <> 0 -> heart_rate <= 2 ^ 1023 * Z.abs max_hr ->
  exists z, calculate_hr_zones heart_rate max_hr = Ok z /\ 0 <= z <= 6.
Proof.
  intros Hm H.
  destruct (Z.le_gt_cases heart_rate 0) as [N|P].
  - exists 0. split; [now apply calculate_hr_zones_nonpos | lia].
  - rewrite calculate_hr_zones_pos by assumption.
    destruct (int_true_div_in_range heart_rate max_hr Hm) as [q Hq]; [lia|].
    rewrite Hq. cbn. eexists. split; [reflexivity|].
    pose proof (zone_of_percentage_range (float_mul q 100)). lia.
Qed.

Lemma float_lt_int_Finite p n :
  float_lt_int (Finite p) n = true <-> (p < inject_Z n)%Q.
Proof.
  cbn. rewrite negb_true_iff. split; intros H.
  - apply Qnot_le_lt. intros C. apply Qle_bool_iff in C. congruence.
  - destruct (Qle_bool (inject_Z n) p) eqn:C; [|reflexivity].
    apply Qle_bool_iff in C. lra.
Qed.

Lemma float_lt_int_Finite_false p n :
  float_lt_int (Finite p) n = false <-> (inject_Z n <= p)%Q.
Proof.
  cbn. rewrite negb_false_iff. apply Qle_bool_iff.
Qed.

(** The zone of a finite percentage, by its position among the
    thresholds. *)
Lemma zone_of_percentage_Finite p :
  zone_of_percentage (Finite p) =
    if Qle_bool 90 p then 6 else if Qle_bool 80 p then 5
    else if Qle_bool 70 p then 4 else if Qle_bool 60 p then 3
    else if Qle_bool 50 p then 2 else 1.
Proof.
  unfold zone_of_percentage.
  destruct (float_lt_int (Finite p) 50) eqn:C50;
  destruct (float_lt_int (Finite p) 60) eqn:C60;
  destruct (float_lt_int (Finite p) 70) eqn:C70;
  destruct (float_lt_int (Finite p) 80) eqn:C80;
  destruct (float_lt_int (Finite p) 90) eqn:C90;
  rewrite ?float_lt_int_Finite, ?float_lt_int_Finite_false in *;
  change (inject_Z 50) with 50%Q in *; change (inject_Z 60) with 60%Q in *;
  change (inject_Z 70) with 70%Q in *; change (inject_Z 80) with 80%Q in *;
  change (inject_Z 90) with 90%Q in *;
  destruct (Qle_bool 90 p) eqn:D90; destruct (Qle_bool 80 p) eqn:D80;
  destruct (Qle_bool 70 p) eqn:D70; destruct (Qle_bool 60 p) eqn:D60;
  destruct (Qle_bool 50 p) eqn:D50; try reflexivity; exfalso;
  rewrite ?Qle_bool_iff in *;
  repeat match goal with
         | H : Qle_bool ?a ?b = false |- _ =>
             assert (b < a)%Q by
               (apply Qnot_le_lt; intros X; apply Qle_bool_iff in X; congruence);
             clear H
         end; lra.
Qed.

(** A reading at exactly [t] percent of [max_hr], for a threshold [t] of
    the table, has the float percentage [t]: neither the division nor the
    scaling by 100 moves it off the boundary. *)
Lemma percentage_on_threshold bpm max_hr t :
  0 < max_hr -> 100 * bpm = t * max_hr -> In t [50; 60; 70; 80; 90] ->
  exists q p,
    int_true_div bpm max_hr = Ok q /\
    float_mul q 100 = Finite p /\ (p == inject_Z t)%Q.
Proof.
  intros Hm E Ht.
  assert (Pm : (0 < inject_Z max_hr)%Q) by (rewrite <- (Zlt_Qlt 0); lia).
  assert (X : (inject_Z bpm / inject_Z max_hr == inject_Z t / 100)%Q).
  { apply Qmult_inj_r with (inject_Z max_hr * 100)%Q; [lra|].
    transitivity (100 * inject_Z bpm)%Q; [field; lra|].
    transitivity (inject_Z t * inject_Z max_hr)%Q; [|field; lra].
    change 100%Q with (inject_Z 100). rewrite <- !inject_Z_mult.
    now rewrite E. }
  pose proof (RN_comp _ _ X) as R.
  set (q := RN (inject_Z bpm / inject_Z max_hr)) in *.
  assert (Y : (RN (q * 100) == inject_Z t)%Q).
  { transitivity (RN (RN (inject_Z t / 100) * 100)).
    - apply RN_comp. rewrite R. reflexivity.
    - cbn in Ht. decompose [or] Ht; try contradiction; subst t;
        vm_compute; reflexivity. }
  assert (Bt : 50 <= t <= 90) by (cbn in Ht; lia).
  assert (Bq : (0 <= q <= 1)%Q).
  { split.
    - apply RN_nonneg. rewrite X. apply Qle_shift_div_l; [reflexivity|].
      rewrite Qmult_0_l. rewrite <- (Zle_Qle 0). lia.
    - assert (F : (RN 1 == 1)%Q) by (vm_compute; reflexivity).
      rewrite <- F. apply RN_mono. rewrite X.
      apply Qle_shift_div_r; [reflexivity|]. rewrite Qmult_1_l.
      change 100%Q with (inject_Z 100). rewrite <- Zle_Qle. lia. }
  assert (P1024 : (1 < pow2 1024)%Q) by (apply (pow2_lt 0 1024); lia).
  assert (P100 : (100 < pow2 1024)%Q).
  { apply Qlt_le_trans with (pow2 7); [reflexivity | apply pow2_le; lia]. }
  exists q, (RN (q * 100)). repeat split.
  - unfold int_true_div. destruct (Z.eqb_spec max_hr 0); [lia|].
    fold q. replace (overflows q) with false; [reflexivity|].
    symmetry. apply overflows_false. rewrite Qabs_nonneg_eq; lra.
  - unfold float_mul. replace (overflows (RN (q * 100))) with false; [reflexivity|].
    symmetry. apply overflows_false. rewrite Y.
    rewrite Qabs_nonneg_eq; [|rewrite <- (Zle_Qle 0); lia].
    apply Qle_lt_trans with 100%Q; [|exact P100].
    change 100%Q with (inject_Z 100). rewrite <- Zle_Qle. lia.
  - exact Y.
Qed.

(** * The float percentage against the exact one *)

(** In the normal range rounding moves a positive number by at most one
    part in [2 ^ 53]. *)
Lemma RN_relative_error x :
  (pow2 (-1022) <= x)%Q ->
  (Qabs (RN x - x) <= x * (1 # 9007199254740992))%Q.
Proof.
  intros Hx.
  pose proof (pow2_pos (-1022)) as P0.
  assert (Px : (0 < x)%Q) by lra.
  assert (E : RN x = round_pos x).
  { unfold RN. destruct (x ?= 0)%Q eqn:C; qcmp C; try reflexivity; lra. }
  rewrite E. unfold round_pos.
  destruct (ilog2_spec x Px) as [L U].
  assert (He : -1022 <= ilog2 x).
  { assert (H : (pow2 (-1022) < pow2 (ilog2 x + 1))%Q) by lra.
    apply Qpower_lt_compat_l_inv in H; [lia | reflexivity]. }
  assert (Hu : ulp_exp x = ilog2 x - 52) by (unfold ulp_exp; lia).
  rewrite Hu. set (u := ilog2 x - 52).
  pose proof (pow2_pos u) as Pu.
  pose proof (round_half_even_err (x / pow2 u)) as R.
  set (k := inject_Z (round_half_even (x / pow2 u))) in *.
  assert (S : (pow2 (ilog2 x) == pow2 u * 4503599627370496)%Q).
  { replace (ilog2 x) with (u + 52) by (unfold u; lia).
    rewrite pow2_add. apply Qmult_comp; [reflexivity|].
    vm_compute. reflexivity. }
  assert (D : (k * pow2 u - x == (k - x / pow2 u) * pow2 u)%Q) by (field; lra).
  rewrite D, Qabs_Qmult, (Qabs_pos (pow2 u)) by lra.
  apply Qle_trans with ((1 # 2) * pow2 u)%Q.
  - apply Qmult_le_compat_r; [exact R | lra].
  - rewrite S in L. lra.
Qed.

(** For readings and maxima below [2 ^ 32] the float test
    [percentage < t] at a threshold of the table decides the exact
    inequality [100 * bpm < t * max_hr]. *)
Lemma percentage_lt_exact bpm max_hr t :
  0 < bpm < 2 ^ 32 -> 0 < max_hr < 2 ^ 32 ->
  In t [50; 60; 70; 80; 90] ->
  exists q,
    int_true_div bpm max_hr = Ok q /\
    float_lt_int (float_mul q 100) t = (100 * bpm <? t * max_hr).
Proof.
  intros Hb Hm Ht.
  destruct (Z.eq_dec (100 * bpm) (t * max_hr)) as [E|NE].
  { destruct (percentage_on_threshold bpm max_hr t ltac:(lia) E Ht)
      as (q & p & Hq & Hp & Y).
    exists q. split; [exact Hq|]. rewrite Hp.
    destruct (Z.ltb_spec (100 * bpm) (t * max_hr)); [lia|].
    apply float_lt_int_Finite_false. rewrite Y. apply Qle_refl. }
  assert (Bt : 50 <= t <= 90) by (cbn in Ht; lia).
  assert (Ft : (RN (inject_Z t) == inject_Z t)%Q).
  { cbn in Ht. decompose [or] Ht; try contradiction; subst t;
      vm_compute; reflexivity. }
  set (B := inject_Z bpm). set (M := inject_Z max_hr). set (T := inject_Z t).
  assert (PB : (1 <= B)%Q) by (apply (inject_Z_le' 1); lia).
  assert (PM : (1 <= M)%Q) by (apply (inject_Z_le' 1); lia).
  assert (UB : (B <= 4294967296)%Q) by (apply (inject_Z_le' bpm 4294967296); lia).
  assert (UM : (M <= 4294967296)%Q)
    by (apply (inject_Z_le' max_hr 4294967296); lia).
  assert (BT : (50 <= T <= 90)%Q).
  { split; [apply (inject_Z_le' 50) | apply (inject_Z_le' t 90)]; lia. }
  set (r := (/ M)%Q).
  assert (Pr : (1 # 4294967296 <= r)%Q).
  { unfold r. apply Qle_shift_inv_l; [lra|]. lra. }
  assert (Ur : (r <= 1)%Q).
  { unfold r. apply Qle_shift_inv_r; lra. }
  set (x := (B / M)%Q).
  assert (Ex : (x == B * r)%Q) by reflexivity.
  assert (Lx : (1 # 4294967296 <= x)%Q).
  { rewrite Ex. apply Qle_trans with (1 * r)%Q; [lra|].
    apply Qmult_le_compat_r; lra. }
  assert (Ux : (x <= 4294967296)%Q).
  { rewrite Ex. apply Qle_trans with (B * 1)%Q; [|lra].
    rewrite !(Qmult_comm B). apply Qmult_le_compat_r; lra. }
  assert (Small : (pow2 (-1022) <= 1 # 429496729600)%Q)
    by (vm_compute; discriminate).
  assert (Big : (429496729600000 < pow2 1024)%Q)
    by (vm_compute; reflexivity).
  pose proof (RN_relative_error x ltac:(lra)) as R1.
  apply Qabs_Qle_condition in R1.
  set (q := RN x) in *.
  pose proof (RN_relative_error (q * 100) ltac:(lra)) as R2.
  apply Qabs_Qle_condition in R2.
  set (p := RN (q * 100)) in *.
  assert (Hq : int_true_div bpm max_hr = Ok q).
  { unfold int_true_div. destruct (Z.eqb_spec max_hr 0); [lia|].
    fold B M x q. replace (overflows q) with false; [reflexivity|].
    symmetry. apply overflows_false. rewrite Qabs_pos; lra. }
  assert (Hp : float_mul q 100 = Finite p).
  { unfold float_mul. fold p. replace (overflows p) with false; [reflexivity|].
    symmetry. apply overflows_false. rewrite Qabs_pos; lra. }
  exists q. split; [exact Hq|]. rewrite Hp. fold T.
  assert (Gap : forall d : Z, 1 <= d -> (1 # 4294967296 <= inject_Z d * r)%Q).
  { intros d Hd. apply Qle_trans with (1 * r)%Q; [lra|].
    apply Qmult_le_compat_r; [apply (inject_Z_le' 1); exact Hd | lra]. }
  assert (Mr : (M * r == 1)%Q) by (unfold r; field; lra).
  destruct (Z.ltb_spec (100 * bpm) (t * max_hr)) as [Lt|Ge].
  - apply float_lt_int_Finite.
    pose proof (Gap (t * max_hr - 100 * bpm) ltac:(lia)) as G.
    assert (EG : (inject_Z (t * max_hr - 100 * bpm) * r == T - 100 * x)%Q).
    { unfold Zminus. rewrite inject_Z_plus, inject_Z_opp, !inject_Z_mult.
      fold T M B. change (inject_Z 100) with 100%Q. rewrite Ex.
      transitivity (T * (M * r) - 100 * (B * r))%Q; [ring|].
      rewrite Mr. ring. }
    rewrite EG in G. fold T. clearbody p q x T. clear - R1 R2 G BT Lx. lra.
  - apply float_lt_int_Finite_false.
    pose proof (Gap (100 * bpm - t * max_hr) ltac:(lia)) as G.
    assert (EG : (inject_Z (100 * bpm - t * max_hr) * r == 100 * x - T)%Q).
    { unfold Zminus. rewrite inject_Z_plus, inject_Z_opp, !inject_Z_mult.
      fold T M B. change (inject_Z 100) with 100%Q. rewrite Ex.
      transitivity (100 * (B * r) - T * (M * r))%Q; [ring|].
      rewrite Mr. ring. }
    rewrite EG in G.
    assert (Y : (T <= q * 100)%Q).
    { clearbody p q x T. clear - R1 G BT Lx. lra. }
    apply RN_mono in Y. fold p in Y. unfold T in *. rewrite Ft in Y. exact Y.
Qed.

(** On that range the classifier is the table read on the exact
    percentage [100 * bpm / max_hr]. *)
Lemma calculate_hr_zones_exact bpm max_hr :
  0 < bpm < 2 ^ 32 -> 0 < max_hr < 2 ^ 32 ->
  calculate_hr_zones bpm max_hr =
    Ok (if 100 * bpm <? 50 * max_hr then 1
        else if 100 * bpm <? 60 * max_hr then 2
        else if 100 * bpm <? 70 * max_hr then 3
        else if 100 * bpm <? 80 * max_hr then 4
        else if 100 * bpm <? 90 * max_hr then 5
        else 6).
Proof.
  intros Hb Hm.
  destruct (percentage_lt_exact bpm max_hr 50 Hb Hm) as (q & Hq & H50);
    [cbn; tauto|].
  destruct (percentage_lt_exact bpm max_hr 60 Hb Hm) as (q6 & Hq6 & H60);
    [cbn; tauto|].
  destruct (percentage_lt_exact bpm max_hr 70 Hb Hm) as (q7 & Hq7 & H70);
    [cbn; tauto|].
  destruct (percentage_lt_exact bpm max_hr 80 Hb Hm) as (q8 & Hq8 & H80);
    [cbn; tauto|].
  destruct (percentage_lt_exact bpm max_hr 90 Hb Hm) as (q9 & Hq9 & H90);
    [cbn; tauto|].
  rewrite Hq in Hq6, Hq7, Hq8, Hq9.
  injection Hq6 as <-. injection Hq7 as <-.
  injection Hq8 as <-. injection Hq9 as <-.
  rewrite calculate_hr_zones_pos, Hq by lia. cbn [bind].
  unfold zone_of_percentage. now rewrite H50, H60, H70, H80, H90.
Qed.

(** Beyond the range of binary64 the division itself fails. *)
Lemma calculate_hr_zones_overflow bpm max_hr :
  0 < max_hr -> 2 ^ 1024 * max_hr <= bpm ->
  calculate_hr_zones bpm max_hr = Raise OverflowError.
Proof.
  intros Hm H.
  assert (P : 0 < 2 ^ 1024) by (apply Z.pow_pos_nonneg; lia).
  rewrite calculate_hr_zones_pos by nia.
  unfold int_true_div. destruct (Z.eqb_spec max_hr 0); [lia|].
  set (x := (inject_Z bpm / inject_Z max_hr)%Q).
  assert (Hx : (pow2 1024 <= x)%Q).
  { unfold x. apply Qle_shift_div_l; [rewrite <- (Zlt_Qlt 0); lia|].
    rewrite pow2_Z by lia. rewrite <- inject_Z_mult, <- Zle_Qle. exact H. }
  pose proof (RN_mono _ _ Hx) as M.
  rewrite (pow2_fixed 1024) in M by lia.
  pose proof (pow2_pos 1024) as P'.
  replace (overflows (RN x)) with true; [reflexivity|].
  symmetry. apply overflows_true. rewrite Qabs_nonneg_eq; lra.
Qed.

(** C2, as the code has it.  The percentage is a float, not the exact
    ratio: a reading that lies below 60 percent of [max_hr] by one part
    in [6 * 10 ^ 16] has the float percentage 60.0 and is put in zone 3,
    and a reading whose quotient no float can hold gets no zone at all. *)
Lemma calculate_hr_zones_float_percentage :
  100 * 59999999999999999 < 60 * 10 ^ 17 /\
  calculate_hr_zones 59999999999999999 (10 ^ 17) = Ok 3 /\
  calculate_hr_zones (2 ^ 1025) 2 = Raise OverflowError.
Proof. repeat split; vm_compute; reflexivity. Qed.

(** C2, amended.  For [max_hr > 0]: a reading [bpm <= 0] is zone 0;
    otherwise, with [percentage = bpm / max_hr * 100] as the classifier
    computes it in floats, the zone is 1 below 50, 2 below 60, 3 below
    70, 4 below 80, 5 below 90 and 6 from 90 on.  The upper bounds are
    exclusive: a reading at exactly 50, 60, 70, 80 or 90 percent of
    [max_hr] falls in the zone above, so exactly 60 percent is zone 3.
    For readings and maxima below [2 ^ 32] the float percentage decides
    as the exact one: the zone is the table read on [100 * bpm] against
    [50 * max_hr], ..., [90 * max_hr].  The division returns for every
    [bpm <= 2 ^ 1023 * max_hr], and from [2 ^ 1024 * max_hr] on it raises
    [OverflowError]. *)
Theorem calculate_hr_zones_table (bpm max_hr : Z) :
  0 < max_hr ->
  (bpm <= 0 -> calculate_hr_zones bpm max_hr = Ok 0) /\
  (0 < bpm ->
   forall q, int_true_div bpm max_hr = Ok q ->
   let percentage := float_mul q 100 in
   (float_lt_int percentage 50 = true ->
      calculate_hr_zones bpm max_hr = Ok 1) /\
   (float_lt_int percentage 50 = false -> float_lt_int percentage 60 = true ->
      calculate_hr_zones bpm max_hr = Ok 2) /\
   (float_lt_int percentage 60 = false -> float_lt_int percentage 70 = true ->
      calculate_hr_zones bpm max_hr = Ok 3) /\
   (float_lt_int percentage 70 = false -> float_lt_int percentage 80 = true ->
      calculate_hr_zones bpm max_hr = Ok 4) /\
   (float_lt_int percentage 80 = false -> float_lt_int percentage 90 = true ->
      calculate_hr_zones bpm max_hr = Ok 5) /\
   (float_lt_int percentage 90 = false ->
      calculate_hr_zones bpm max_hr = Ok 6)) /\
  (0 < bpm ->
   (100 * bpm = 50 * max_hr -> calculate_hr_zones bpm max_hr = Ok 2) /\
   (100 * bpm = 60 * max_hr -> calculate_hr_zones bpm max_hr = Ok 3) /\
   (100 * bpm = 70 * max_hr -> calculate_hr_zones bpm max_hr = Ok 4) /\
   (100 * bpm = 80 * max_hr -> calculate_hr_zones bpm max_hr = Ok 5) /\
   (100 * bpm = 90 * max_hr -> calculate_hr_zones bpm max_hr = Ok 6)) /\
  (0 < bpm < 2 ^ 32 -> max_hr < 2 ^ 32 ->
   calculate_hr_zones bpm max_hr =
     Ok (if 100 * bpm <? 50 * max_hr then 1
         else if 100 * bpm <? 60 * max_hr then 2
         else if 100 * bpm <? 70 * max_hr then 3
         else if 100 * bpm <? 80 * max_hr then 4
         else if 100 * bpm <? 90 * max_hr then 5
         else 6)) /\
  (0 < bpm <= 2 ^ 1023 * max_hr ->
   exists q, int_true_div bpm max_hr = Ok q) /\
  (2 ^ 1024 * max_hr <= bpm ->
   calculate_hr_zones bpm max_hr = Raise OverflowError).
Proof.
  intros Hm. split; [apply calculate_hr_zones_nonpos|].
  split; [|split; [|split; [|split]]].
  - intros Hb q Hq percentage.
    rewrite calculate_hr_zones_pos, Hq by assumption. cbn.
    fold percentage. unfold zone_of_percentage.
    assert (M : forall a b, a <= b -> float_lt_int percentage a = true ->
                  float_lt_int percentage b = true).
    { intros a b Hab. destruct percentage; cbn; trivial.
      rewrite !negb_true_iff. intros C.
      destruct (Qle_bool (inject_Z b) q0) eqn:D; [|reflexivity].
      apply Qle_bool_iff in D.
      assert (Qle_bool (inject_Z a) q0 = true); [|congruence].
      apply Qle_bool_iff. apply Qle_trans with (inject_Z b); [|exact D].
      now apply inject_Z_le'. }
    pose proof (M 50 60 ltac:(lia)). pose proof (M 60 70 ltac:(lia)).
    pose proof (M 70 80 ltac:(lia)). pose proof (M 80 90 ltac:(lia)).
    destruct (float_lt_int percentage 50), (float_lt_int percentage 60),
      (float_lt_int percentage 70), (float_lt_int percentage 80),
      (float_lt_int percentage 90);
      repeat split; intros; try reflexivity; try discriminate;
      repeat match goal with
             | H : true = true -> false = true |- _ => specialize (H eq_refl)
             end; discriminate.
  - intros Hb.
    assert (K : forall t, In t [50; 60; 70; 80; 90] -> 100 * bpm = t * max_hr ->
                calculate_hr_zones bpm max_hr = Ok (t / 10 - 3)).
    { intros t Ht E.
      destruct (percentage_on_threshold bpm max_hr t Hm E Ht) as (q & p & Hq & Hp & Y).
      rewrite calculate_hr_zones_pos, Hq by assumption. cbn.
      rewrite Hp, zone_of_percentage_Finite. f_equal.
      assert (B : forall n, Qle_bool (inject_Z n) p = (n <=? t)).
      { intros n. destruct (Z.leb_spec n t) as [L|L].
        - apply Qle_bool_iff. rewrite Y. now apply inject_Z_le'.
        - destruct (Qle_bool (inject_Z n) p) eqn:C; [|reflexivity].
          apply Qle_bool_iff in C. rewrite Y in C.
          rewrite <- Zle_Qle in C. lia. }
      change 90%Q with (inject_Z 90). change 80%Q with (inject_Z 80).
      change 70%Q with (inject_Z 70). change 60%Q with (inject_Z 60).
      change 50%Q with (inject_Z 50). rewrite !B.
      cbn in Ht. decompose [or] Ht; try contradiction; subst t; reflexivity. }
    repeat split; intros E;
      [ apply (K 50) | apply (K 60) | apply (K 70) | apply (K 80) | apply (K 90) ];
      solve [exact E | cbn; tauto].
  - intros Hb Hu. apply calculate_hr_zones_exact; lia.
  - intros Hb. apply int_true_div_in_range; lia.
  - now apply calculate_hr_zones_overflow.
Qed.

Lemma calculate_hr_zones_table_witness :
  0 < 173 /\
  calculate_hr_zones 0 173 = Ok 0 /\
  calculate_hr_zones 104 173 = Ok 3 /\
  calculate_hr_zones 60 100 = Ok 3.
Proof.
  split; [lia|]. split; [|split].
  - apply (calculate_hr_zones_table 0 173); lia.
  - destruct (calculate_hr_zones_table 104 173) as (_ & T & _); [lia|].
    refine (proj1 (proj2 (proj2 (T _ (RN (104 # 173)) _))) _ _);
      [lia | vm_compute; reflexivity | vm_compute; reflexivity
       | vm_compute; reflexivity].
  - destruct (calculate_hr_zones_table 60 100) as (_ & _ & B & _); [lia|].
    apply B; lia.
Defined.

(** C9, as the code has it.  At the edge of binary64 the classifier
    returns zone 6 for a reading and raises for the next one: the
    quotient of the first rounds to the largest float, that of the second
    to [2 ^ 1024]. *)
Lemma calculate_hr_zones_last_reading :
  calculate_hr_zones (2 ^ 1024 - 2 ^ 970 - 1) 1 = Ok 6 /\
  calculate_hr_zones (2 ^ 1024 - 2 ^ 970 - 1 + 1) 1 = Raise OverflowError.
Proof. split; vm_compute; reflexivity. Qed.

(** C9, amended.  For [max_hr > 0] the classifier is monotone in the
    reading wherever it returns: whenever it returns a zone for
    [bpm + 1] it returns one for [bpm], and that zone is no larger.  It
    returns for both as long as [bpm < 2 ^ 1023 * max_hr], the quotients
    binary64 can hold. *)
Theorem calculate_hr_zones_monotone (bpm max_hr : Z) :
  0 < max_hr ->
  (forall z2, calculate_hr_zones (bpm + 1) max_hr = Ok z2 ->
     exists z1, calculate_hr_zones bpm max_hr = Ok z1 /\ z1 <= z2) /\
  (bpm < 2 ^ 1023 * max_hr ->
     exists z1 z2,
       calculate_hr_zones bpm max_hr = Ok z1 /\
       calculate_hr_zones (bpm + 1) max_hr = Ok z2 /\ z1 <= z2).
Proof.
  intros Hm.
  assert (Mono : forall z2, calculate_hr_zones (bpm + 1) max_hr = Ok z2 ->
                   exists z1, calculate_hr_zones bpm max_hr = Ok z1 /\ z1 <= z2).
  { intros z2 H2.
    destruct (Z.le_gt_cases bpm 0) as [N|P].
    - exists 0. split; [now apply calculate_hr_zones_nonpos|].
      destruct (Z.le_gt_cases (bpm + 1) 0) as [N'|P'].
      + rewrite calculate_hr_zones_nonpos in H2 by assumption.
        injection H2 as <-. lia.
      + rewrite calculate_hr_zones_pos in H2 by assumption.
        destruct (int_true_div (bpm + 1) max_hr) as [q'|]; [|discriminate].
        injection H2 as <-.
        pose proof (zone_of_percentage_range (float_mul q' 100)). lia.
    - rewrite calculate_hr_zones_pos in H2 by lia.
      destruct (int_true_div (bpm + 1) max_hr) as [q'|] eqn:D'; [|discriminate].
      injection H2 as <-.
      destruct (int_true_div_mono bpm (bpm + 1) max_hr q' Hm ltac:(lia) D')
        as (q & D & B).
      rewrite calculate_hr_zones_pos, D by assumption. cbn.
      eexists. split; [reflexivity|].
      apply zone_of_percentage_mono, float_mul_mono, B. }
  split; [exact Mono|]. intros Hr.
  destruct (calculate_hr_zones_total (bpm + 1) max_hr) as (z2 & H2 & _);
    [lia | lia |].
  destruct (Mono z2 H2) as (z1 & H1 & Hle).
  exists z1, z2. auto.
Qed.

Lemma calculate_hr_zones_monotone_witness :
  0 < 173 /\
  exists z1 z2,
    calculate_hr_zones 103 173 = Ok z1 /\
    calculate_hr_zones (103 + 1) 173 = Ok z2 /\ z1 <= z2.
Proof.
  split; [lia|].
  apply (calculate_hr_zones_monotone 103 173); [lia | vm_compute; reflexivity].
Defined.

(** C7, as the code has it.  The classifier validates nothing: a
    non-positive [max_hr] gives a zone or a division error, never a
    configuration error; and with [max_hr > 0] a reading beyond the range
    of binary64 makes the division raise. *)
Lemma calculate_hr_zones_nonpositive_max_hr :
  calculate_hr_zones 70 (-5) = Ok 1 /\
  calculate_hr_zones 0 0 = Ok 0 /\
  calculate_hr_zones 70 0 = Raise ZeroDivisionError /\
  calculate_hr_zones (2 ^ 1024) 1 = Raise OverflowError.
Proof. repeat split; vm_compute; reflexivity. Qed.

Lemma calculate_hr_zones_negative_max_hr bpm max_hr :
  0 < bpm -> max_hr < 0 -> bpm <= 2 ^ 1023 * - max_hr ->
  calculate_hr_zones bpm max_hr = Ok 1.
Proof.
  intros Hb Hm H.
  rewrite calculate_hr_zones_pos by assumption.
  unfold int_true_div. destruct (Z.eqb_spec max_hr 0); [lia|].
  set (x := (inject_Z bpm / inject_Z max_hr)%Q).
  assert (Hx : (x <= 0)%Q).
  { unfold x.
    assert (E : (inject_Z bpm / inject_Z max_hr ==
                 - (inject_Z bpm / inject_Z (- max_hr)))%Q).
    { assert (M : (inject_Z max_hr < 0)%Q) by (change (inject_Z max_hr < inject_Z 0)%Q; rewrite <- Zlt_Qlt; exact Hm).
      rewrite inject_Z_opp. field. lra. }
    rewrite E. pose proof (Qdiv_nonneg bpm (- max_hr) ltac:(lia) ltac:(lia)). lra. }
  rewrite RN_in_range.
  2:{ destruct (int_true_div_in_range bpm max_hr n) as [q Hq]; [lia|].
      unfold int_true_div in Hq. destruct (Z.eqb_spec max_hr 0); [lia|].
      fold x in Hq. destruct (overflows (RN x)) eqn:O; [discriminate|].
      apply overflows_false in O.
      assert (Qabs x <= pow2 1023)%Q; [|assumption].
      unfold x.
      assert (Hq' : (inject_Z bpm / inject_Z max_hr ==
                     inject_Z bpm * / inject_Z max_hr)%Q) by reflexivity.
      rewrite Hq', Qabs_Qmult, Qabs_Qinv, !Qabs_inject_Z.
      apply Qle_shift_div_r; [rewrite <- (Zlt_Qlt 0); lia|].
      rewrite pow2_Z by lia. rewrite <- inject_Z_mult, <- Zle_Qle. lia. }
  cbn. f_equal. unfold zone_of_percentage, float_mul.
  pose proof (RN_nonpos x Hx) as Q0.
  assert (R0 : (RN (RN x * 100) <= 0)%Q) by (apply RN_nonpos; lra).
  set (r := RN (RN x * 100)) in *.
  assert (L : float_lt_int
                (if overflows r then if Qle_bool 0 r then PosInf else NegInf
                 else Finite r) 50 = true).
  { destruct (overflows r) eqn:O.
    - apply overflows_true in O.
      assert (P : (0 < pow2 1024)%Q) by apply pow2_pos.
      destruct (Qle_bool 0 r) eqn:C; [|reflexivity].
      apply Qle_bool_iff in C. rewrite Qabs_nonneg_eq in O by assumption. lra.
    - apply float_lt_int_Finite. change (inject_Z 50) with 50%Q. lra. }
  rewrite L. reflexivity.
Qed.

(** C7, amended.  [bpm <= 0] is zone 0 whatever [max_hr] is.  For
    [bpm > 0]: [max_hr = 0] raises [ZeroDivisionError]; [max_hr < 0] gives
    zone 1; [max_hr > 0] gives a zone from 1 to 6.  The last two hold for
    [bpm <= 2 ^ 1023 * |max_hr|], the quotients binary64 can hold. *)
Theorem calculate_hr_zones_no_validation (bpm max_hr : Z) :
  (bpm <= 0 -> calculate_hr_zones bpm max_hr = Ok 0) /\
  (0 < bpm -> max_hr = 0 ->
     calculate_hr_zones bpm max_hr = Raise ZeroDivisionError) /\
  (0 < bpm -> max_hr < 0 -> bpm <= 2 ^ 1023 * - max_hr ->
     calculate_hr_zones bpm max_hr = Ok 1) /\
  (0 < bpm -> 0 < max_hr -> bpm <= 2 ^ 1023 * max_hr ->
     exists z, calculate_hr_zones bpm max_hr = Ok z /\ 1 <= z <= 6).
Proof.
  split; [apply calculate_hr_zones_nonpos|]. split; [|split].
  - intros Hb ->. rewrite calculate_hr_zones_pos by assumption. reflexivity.
  - apply calculate_hr_zones_negative_max_hr.
  - intros Hb Hm H.
    rewrite calculate_hr_zones_pos by assumption.
    destruct (int_true_div_in_range bpm max_hr) as [q Hq]; [lia | lia |].
    rewrite Hq. cbn. eexists. split; [reflexivity|].
    apply zone_of_percentage_range.
Qed.

Lemma calculate_hr_zones_no_validation_witness :
  calculate_hr_zones (-3) 173 = Ok 0 /\
  calculate_hr_zones 70 0 = Raise ZeroDivisionError /\
  calculate_hr_zones 70 (-5) = Ok 1 /\
  exists z, calculate_hr_zones 125 173 = Ok z /\ 1 <= z <= 6.
Proof.
  split; [|split; [|split]].
  - apply (calculate_hr_zones_no_validation (-3) 173). lia.
  - apply (calculate_hr_zones_no_validation 70 0); [lia | reflexivity].
  - apply (calculate_hr_zones_no_validation 70 (-5)); [lia | lia |].
    vm_compute. discriminate.
  - apply (calculate_hr_zones_no_validation 125 173); [lia | lia |].
    vm_compute. discriminate.
Defined.


(** * The bin generator *)

Lemma datetime_range_in_days :
  datetime_max = days 3652059 - 1 /\
  timedelta_min = days (-999999999) /\
  timedelta_max = days 1000000000 - 1.
Proof. repeat split. Qed.

Lemma timedelta_ok us :
  timedelta_min <= us <= timedelta_max -> timedelta us = Ok us.
Proof.
  intros H. unfold timedelta.
  destruct (Z.leb_spec timedelta_min us), (Z.leb_spec us timedelta_max);
    cbn [andb]; (reflexivity || lia).
Qed.

Lemma datetime_add_ok t d :
  0 <= t + d <= datetime_max -> datetime_add t d = Ok (t + d).
Proof.
  intros H. unfold datetime_add.
  destruct (Z.leb_spec 0 (t + d)), (Z.leb_spec (t + d) datetime_max);
    cbn [andb]; (reflexivity || lia).
Qed.

Lemma datetime_add_raises t d :
  t + d < 0 \/ datetime_max < t + d ->
  datetime_add t d = Raise OverflowError.
Proof.
  intros H. unfold datetime_add.
  destruct (Z.leb_spec 0 (t + d)), (Z.leb_spec (t + d) datetime_max);
    cbn [andb]; (reflexivity || lia).
Qed.

(** One turn of the loop computes [current_time + timedelta(minutes=...)]:
    what it returns, and that it raises nothing but [OverflowError]. *)
Lemma bin_end_inv current_time bin_minutes :
  (exists bin_end,
     (width <- timedelta (minutes bin_minutes) ;;
      datetime_add current_time width) = Ok bin_end /\
     bin_end = current_time + minutes bin_minutes /\
     0 <= bin_end <= datetime_max) \/
  (width <- timedelta (minutes bin_minutes) ;;
   datetime_add current_time width) = Raise OverflowError.
Proof.
  unfold timedelta, datetime_add.
  destruct ((timedelta_min <=? minutes bin_minutes) &&
            (minutes bin_minutes <=? timedelta_max)); cbn [bind];
    [|right; reflexivity].
  destruct (Z.leb_spec 0 (current_time + minutes bin_minutes)),
           (Z.leb_spec (current_time + minutes bin_minutes) datetime_max);
    cbn [andb]; try (right; reflexivity).
  left. eexists. split; [reflexivity|]. split; [reflexivity | lia].
Qed.

Lemma bin_end_ok current_time bin_minutes :
  0 < bin_minutes -> 0 <= current_time ->
  current_time + minutes bin_minutes <= datetime_max ->
  (width <- timedelta (minutes bin_minutes) ;;
   datetime_add current_time width) = Ok (current_time + minutes bin_minutes).
Proof.
  intros Hb Hc Hm.
  assert (0 < minutes bin_minutes) by (unfold minutes; lia).
  rewrite timedelta_ok.
  - cbn [bind]. apply datetime_add_ok. lia.
  - unfold timedelta_min, timedelta_max, datetime_max in *. lia.
Qed.

Lemma bins_loop_eq fuel current_time end_of_day bin_minutes :
  bins_loop fuel current_time end_of_day bin_minutes =
    if current_time <? end_of_day then
      match fuel with
      | O => None
      | S fuel' =>
          match (width <- timedelta (minutes bin_minutes) ;;
                 datetime_add current_time width) with
          | Raise e => Some (Raise e)
          | Ok bin_end =>
              match bins_loop fuel' bin_end end_of_day bin_minutes with
              | Some (Ok bins) => Some (Ok ((current_time, bin_end) :: bins))
              | Some (Raise e) => Some (Raise e)
              | None => None
              end
          end
      end
    else Some (Ok []).
Proof. destruct fuel; reflexivity. Qed.

(** [n] iterations are what the loop runs when the [n]-th bin is the
    first to reach [end_of_day], provided its end is still a datetime. *)
Lemma bins_loop_closed bin_minutes end_of_day :
  0 < bin_minutes ->
  forall n fuel current_time,
    (n <= fuel)%nat ->
    0 <= current_time ->
    current_time + Z.of_nat n * minutes bin_minutes <= datetime_max ->
    end_of_day <= current_time + Z.of_nat n * minutes bin_minutes ->
    (n = O \/
     current_time + (Z.of_nat n - 1) * minutes bin_minutes < end_of_day) ->
    bins_loop fuel current_time end_of_day bin_minutes =
      Some (Ok (bins_from n current_time (minutes bin_minutes))).
Proof.
  intros Hb.
  assert (Hw : 0 < minutes bin_minutes) by (unfold minutes; lia).
  induction n as [|n IH]; intros fuel cur Hf Hc Hmax Hend Hlast;
    rewrite bins_loop_eq.
  - destruct (Z.ltb_spec cur end_of_day); [lia | reflexivity].
  - destruct Hlast as [|Hlast]; [discriminate|].
    rewrite Nat2Z.inj_succ in Hend, Hlast, Hmax.
    assert (0 <= Z.of_nat n * minutes bin_minutes) by nia.
    destruct (Z.ltb_spec cur end_of_day); [|lia].
    destruct fuel as [|fuel]; [lia|].
    rewrite bin_end_ok by lia.
    rewrite (IH fuel (cur + minutes bin_minutes)); [reflexivity | lia..|].
    destruct n; [left; reflexivity | right; lia].
Qed.

(** Conversely, a list the loop returns is the list of [bins_from], as
    long as the number of its turns, each bin starting before
    [end_of_day] and the last one reaching it. *)
Lemma bins_loop_inv bin_minutes end_of_day :
  forall fuel current_time bins,
    bins_loop fuel current_time end_of_day bin_minutes = Some (Ok bins) ->
    let n := length bins in
    bins = bins_from n current_time (minutes bin_minutes) /\
    end_of_day <= current_time + Z.of_nat n * minutes bin_minutes /\
    (n = O \/
     current_time + (Z.of_nat n - 1) * minutes bin_minutes < end_of_day) /\
    (n = O \/
     0 <= current_time + Z.of_nat n * minutes bin_minutes <= datetime_max).
Proof.
  induction fuel as [|fuel IH]; intros cur bins H; rewrite bins_loop_eq in H;
    destruct (Z.ltb_spec cur end_of_day) as [L|G]; try discriminate.
  - injection H as <-. cbn. repeat split; try lia; now left.
  - destruct (bin_end_inv cur bin_minutes) as [(e & E' & -> & R) | E'];
      rewrite E' in H; [|discriminate].
    destruct (bins_loop fuel (cur + minutes bin_minutes) end_of_day bin_minutes)
      as [[rest|e]|] eqn:E; try discriminate.
    injection H as <-.
    destruct (IH _ _ E) as (B & Hend & Hlast & Hmax). cbn zeta in *.
    cbn [length bins_from]. rewrite <- B, Nat2Z.inj_succ.
    split; [reflexivity|]. split; [lia|]. split; right.
    + destruct Hlast as [Z|Hlast];
        [rewrite Z; change (Z.of_nat 0) with 0; lia | lia].
    + destruct Hmax as [Z|Hmax];
        [rewrite Z; change (Z.of_nat 0) with 0; lia | lia].
  - injection H as <-. cbn. repeat split; try lia; now left.
Qed.

(** With a width of zero [current_time] stays where it is: no amount of
    fuel finishes the loop. *)
Lemma bins_loop_zero end_of_day :
  forall fuel current_time,
    0 <= current_time <= datetime_max -> current_time < end_of_day ->
    bins_loop fuel current_time end_of_day 0 = None.
Proof.
  induction fuel as [|fuel IH]; intros cur Hr Hc;
    rewrite bins_loop_eq; destruct (Z.ltb_spec cur end_of_day); try lia.
  - reflexivity.
  - change (timedelta (minutes 0)) with (Ok (A := Z) 0). cbn [bind].
    rewrite datetime_add_ok by lia.
    replace (cur + 0) with cur by lia. now rewrite IH.
Qed.

(** With a negative width [current_time] walks back until it leaves the
    range of [datetime]: the loop ends in [OverflowError]. *)
Lemma bins_loop_negative bin_minutes end_of_day :
  bin_minutes < 0 ->
  forall n fuel current_time,
    (n < fuel)%nat ->
    current_time < end_of_day ->
    current_time + (Z.of_nat n + 1) * minutes bin_minutes < 0 ->
    bins_loop fuel current_time end_of_day bin_minutes =
      Some (Raise OverflowError).
Proof.
  intros Hb.
  assert (Hw : minutes bin_minutes < 0) by (unfold minutes; lia).
  induction n as [|n IH]; intros fuel cur Hf Hc Hn;
    rewrite bins_loop_eq; (destruct (Z.ltb_spec cur end_of_day); [|lia]);
    (destruct fuel as [|fuel]; [lia|]);
    destruct (bin_end_inv cur bin_minutes) as [(e & -> & -> & R) | -> ];
    try reflexivity.
  - change (Z.of_nat 0) with 0 in Hn. lia.
  - rewrite (IH fuel (cur + minutes bin_minutes)); [reflexivity | lia..|].
    rewrite Nat2Z.inj_succ in Hn. lia.
Qed.

(** Whatever the fuel, a width of zero or less yields no list. *)
Lemma bins_loop_no_list bin_minutes end_of_day :
  bin_minutes <= 0 ->
  forall fuel current_time bins,
    current_time < end_of_day ->
    bins_loop fuel current_time end_of_day bin_minutes <> Some (Ok bins).
Proof.
  intros Hb.
  assert (Hw : minutes bin_minutes <= 0) by (unfold minutes; lia).
  induction fuel as [|fuel IH]; intros cur bins Hc;
    rewrite bins_loop_eq; (destruct (Z.ltb_spec cur end_of_day); [|lia]);
    [discriminate|].
  destruct (bin_end_inv cur bin_minutes) as [(e & -> & -> & R) | -> ];
    [|discriminate].
  destruct (bins_loop fuel (cur + minutes bin_minutes) end_of_day bin_minutes)
    as [[rest|e]|] eqn:E; try discriminate.
  exfalso. apply (IH (cur + minutes bin_minutes) rest); [lia | exact E].
Qed.

Lemma bins_from_length n cur w : length (bins_from n cur w) = n.
Proof. revert cur. induction n; intros; cbn; [|rewrite IHn]; reflexivity. Qed.

Lemma bins_from_nth n cur w k :
  (k < n)%nat ->
  nth_error (bins_from n cur w) k =
    Some (cur + Z.of_nat k * w, cur + (Z.of_nat k + 1) * w).
Proof.
  revert cur k. induction n as [|n IH]; intros cur k Hk; [lia|].
  destruct k as [|k]; cbn [bins_from nth_error].
  - f_equal. f_equal; lia.
  - rewrite IH by lia. f_equal. f_equal; lia.
Qed.

Lemma bins_from_contiguous n cur w : contiguous (bins_from n cur w).
Proof.
  intros k a b Ha Hb.
  assert (Hk : (S k < n)%nat).
  { rewrite <- (bins_from_length n cur w). apply nth_error_Some. congruence. }
  rewrite bins_from_nth in Ha, Hb by lia.
  assert (Ea : a = (cur + Z.of_nat k * w, cur + (Z.of_nat k + 1) * w))
    by congruence.
  assert (Eb : b = (cur + Z.of_nat (S k) * w, cur + (Z.of_nat (S k) + 1) * w))
    by congruence.
  subst a b. cbn [fst snd]. rewrite Nat2Z.inj_succ. lia.
Qed.

Lemma bins_from_width n cur w a b :
  In (a, b) (bins_from n cur w) -> b = a + w.
Proof.
  revert cur. induction n as [|n IH]; intros cur; cbn; [easy|].
  intros [E|H]; [injection E as <- <-; reflexivity | eauto].
Qed.

Lemma bins_from_covers n cur w t :
  0 < w -> cur <= t < cur + Z.of_nat n * w ->
  exists a b, In (a, b) (bins_from n cur w) /\ a <= t < b.
Proof.
  intros Hw. revert cur. induction n as [|n IH]; intros cur Ht; [lia|].
  destruct (Z.lt_ge_cases t (cur + w)) as [L|G].
  - exists cur, (cur + w). split; [left; reflexivity | lia].
  - destruct (IH (cur + w)) as (a & b & Hin & Hab); [lia|].
    exists a, b. split; [right; exact Hin | exact Hab].
Qed.

Lemma bin_count_spec bin_minutes :
  0 < bin_minutes ->
  let n := Z.of_nat (bin_count bin_minutes) in
  1 <= n <= 1440 /\
  1440 <= n * bin_minutes < 1440 + bin_minutes.
Proof.
  intros Hb. unfold bin_count.
  pose proof (Z.div_mod (1440 + bin_minutes - 1) bin_minutes ltac:(lia)) as E.
  pose proof (Z.mod_pos_bound (1440 + bin_minutes - 1) bin_minutes Hb) as B.
  set (q := (1440 + bin_minutes - 1) / bin_minutes) in *.
  assert (Hq : 1 <= q) by nia.
  cbn zeta. rewrite Z2Nat.id by lia. nia.
Qed.

Lemma end_of_day_ok base_date :
  0 <= base_date + days 1 <= datetime_max ->
  (day <- timedelta (days 1) ;; datetime_add base_date day) =
    Ok (base_date + days 1).
Proof.
  intros H. change (timedelta (days 1)) with (Ok (A := Z) (days 1)).
  cbn [bind]. now apply datetime_add_ok.
Qed.

Lemma end_of_day_inv base_date :
  (exists end_of_day,
     (day <- timedelta (days 1) ;; datetime_add base_date day) = Ok end_of_day /\
     end_of_day = base_date + days 1 /\ 0 <= end_of_day <= datetime_max) \/
  (day <- timedelta (days 1) ;; datetime_add base_date day) =
    Raise OverflowError.
Proof.
  change (timedelta (days 1)) with (Ok (A := Z) (days 1)). cbn [bind].
  unfold datetime_add.
  destruct (Z.leb_spec 0 (base_date + days 1)),
           (Z.leb_spec (base_date + days 1) datetime_max);
    cbn [andb]; try (right; reflexivity).
  left. eexists. split; [reflexivity|]. split; [reflexivity | lia].
Qed.

(** On a day whose bins are all datetimes the generator returns, with
    any fuel that allows one iteration per minute of the day, the bins
    [bins_from] lists. *)
Lemma create_time_bins_closed base_date bin_minutes fuel :
  0 < bin_minutes -> day_fits base_date bin_minutes -> (1440 <= fuel)%nat ->
  create_time_bins fuel base_date bin_minutes =
    Some (Ok (bins_from (bin_count bin_minutes) base_date (minutes bin_minutes))).
Proof.
  intros Hb [H0 Hmax] Hf. unfold create_time_bins.
  pose proof (bin_count_spec bin_minutes Hb) as [Hn Hc]. cbn zeta in *.
  rewrite end_of_day_ok by (unfold minutes, days in *; lia).
  apply bins_loop_closed; unfold minutes, days in *; lia.
Qed.

(** Whenever the generator returns a list for a positive width, it is
    that list, and the day is one whose bins are datetimes. *)
Lemma create_time_bins_inv base_date bin_minutes fuel bins :
  0 < bin_minutes ->
  create_time_bins fuel base_date bin_minutes = Some (Ok bins) ->
  bins = bins_from (bin_count bin_minutes) base_date (minutes bin_minutes) /\
  base_date + minutes (Z.of_nat (bin_count bin_minutes) * bin_minutes)
    <= datetime_max.
Proof.
  intros Hb H. unfold create_time_bins in H.
  destruct (end_of_day_inv base_date) as [(e & E & -> & R)|E];
    rewrite E in H; [|discriminate].
  destruct (bins_loop_inv _ _ _ _ _ H) as (B & Hend & Hlast & Hmax).
  cbn zeta in *.
  pose proof (bin_count_spec bin_minutes Hb) as [Hn Hc]. cbn zeta in *.
  assert (N : length bins = bin_count bin_minutes).
  { apply Nat2Z.inj. unfold minutes, days in *.
    destruct Hlast as [Z|Hlast]; [rewrite Z in Hend; cbn in Hend; lia|].
    nia. }
  rewrite N in *. split; [exact B|].
  destruct Hmax as [Z|Hmax]; [lia|]. unfold minutes in *. lia.
Qed.

Lemma create_time_bins_no_list base_date bin_minutes fuel bins :
  bin_minutes <= 0 ->
  create_time_bins fuel base_date bin_minutes <> Some (Ok bins).
Proof.
  intros Hb. unfold create_time_bins.
  destruct (end_of_day_inv base_date) as [(e & -> & -> & R) | -> ];
    [|discriminate].
  apply bins_loop_no_list; [exact Hb | unfold days; lia].
Qed.

(** For a positive width the loop ends within the turns that reach
    [end_of_day], with a list or with [OverflowError]. *)
Lemma bins_loop_ends bin_minutes end_of_day :
  0 < bin_minutes ->
  forall n fuel current_time,
    (n <= fuel)%nat ->
    end_of_day <= current_time + Z.of_nat n * minutes bin_minutes ->
    (exists bins,
       bins_loop fuel current_time end_of_day bin_minutes = Some (Ok bins)) \/
    bins_loop fuel current_time end_of_day bin_minutes =
      Some (Raise OverflowError).
Proof.
  intros Hb.
  assert (Hw : 0 < minutes bin_minutes) by (unfold minutes; lia).
  induction n as [|n IH]; intros fuel cur Hf Hend; rewrite bins_loop_eq;
    destruct (Z.ltb_spec cur end_of_day) as [L|G]; try (left; eauto; fail).
  - change (Z.of_nat 0) with 0 in Hend. lia.
  - destruct fuel as [|fuel]; [lia|].
    destruct (bin_end_inv cur bin_minutes) as [(e & -> & -> & R) | -> ];
      [|now right].
    rewrite Nat2Z.inj_succ in Hend.
    destruct (IH fuel (cur + minutes bin_minutes)) as [[bins ->] | ->];
      [lia | lia | left; eauto | now right].
Qed.

(** On a day with a bin that is no datetime the generator raises. *)
Lemma create_time_bins_overflow base_date bin_minutes fuel :
  0 < bin_minutes -> 0 <= base_date -> ~ day_fits base_date bin_minutes ->
  (1440 <= fuel)%nat ->
  create_time_bins fuel base_date bin_minutes = Some (Raise OverflowError).
Proof.
  intros Hb H0 Hn Hf.
  destruct (create_time_bins fuel base_date bin_minutes) as [[bins|e]|] eqn:C.
  - destruct (create_time_bins_inv _ _ _ _ Hb C) as [_ M].
    exfalso. apply Hn. split; assumption.
  - unfold create_time_bins in C.
    destruct (end_of_day_inv base_date) as [(d & E & -> & R) | E];
      rewrite E in C; [|congruence].
    pose proof (bin_count_spec bin_minutes Hb) as [Hc1 Hc2]. cbn zeta in *.
    destruct (bins_loop_ends bin_minutes (base_date + days 1) Hb
                (bin_count bin_minutes) fuel base_date) as [[bins B] | B];
      [lia | unfold minutes, days; lia | congruence | congruence].
  - exfalso. unfold create_time_bins in C.
    destruct (end_of_day_inv base_date) as [(d & E & -> & R) | E];
      rewrite E in C; [|discriminate].
    pose proof (bin_count_spec bin_minutes Hb) as [Hc1 Hc2]. cbn zeta in *.
    destruct (bins_loop_ends bin_minutes (base_date + days 1) Hb
                (bin_count bin_minutes) fuel base_date) as [[bins B] | B];
      [lia | unfold minutes, days; lia | congruence | congruence].
Qed.

(** What the generated bins do satisfy: they start at local midnight,
    each starts where the previous one ends, each is [bin_minutes] wide,
    and every instant of the day lies in one of them.  The last bin ends
    at the following midnight exactly when [bin_minutes] divides 1440. *)
Lemma bins_from_partition base_date bin_minutes :
  0 < bin_minutes ->
  let bins :=
    bins_from (bin_count bin_minutes) base_date (minutes bin_minutes) in
  length bins = bin_count bin_minutes /\
  (exists e, hd_error bins = Some (base_date, e)) /\
  contiguous bins /\
  (forall a b, In (a, b) bins -> b = a + minutes bin_minutes /\ a < b) /\
  (forall t, base_date <= t < base_date + days 1 ->
     exists a b, In (a, b) bins /\ a <= t < b) /\
  (snd (last bins (0, 0)) =
     base_date + minutes (Z.of_nat (bin_count bin_minutes) * bin_minutes)) /\
  (snd (last bins (0, 0)) = base_date + days 1 <-> 1440 mod bin_minutes = 0).
Proof.
  intros Hb.
  pose proof (bin_count_spec bin_minutes Hb) as [Hn Hc]. cbn zeta in *.
  set (n := bin_count bin_minutes) in *.
  set (w := minutes bin_minutes).
  assert (Hw : 0 < w) by (unfold w, minutes; lia).
  assert (Hlast : snd (last (bins_from n base_date w) (0, 0)) =
                  base_date + minutes (Z.of_nat n * bin_minutes)).
  { destruct n as [|m] eqn:En; [lia|].
    assert (L : length (bins_from (S m) base_date w) = S m)
      by apply bins_from_length.
    pose proof (bins_from_nth (S m) base_date w m ltac:(lia)) as N.
    destruct (@exists_last _ (bins_from (S m) base_date w)) as (l' & x & E).
    { intros C. rewrite C in L. discriminate. }
    rewrite E in *. rewrite last_last.
    rewrite length_app in L. cbn in L.
    rewrite nth_error_app2 in N by lia.
    replace (m - length l')%nat with O in N by lia.
    cbn [nth_error] in N.
    assert (Ex : x = (base_date + Z.of_nat m * w, base_date + (Z.of_nat m + 1) * w))
      by congruence.
    subst x. cbn [snd]. rewrite Nat2Z.inj_succ. unfold w, minutes. lia. }
  repeat split.
  - apply bins_from_length.
  - destruct n; [lia|]. cbn. eauto.
  - apply bins_from_contiguous.
  - eapply bins_from_width; eassumption.
  - apply bins_from_width in H. lia.
  - intros t Ht. apply bins_from_covers; [exact Hw|].
    unfold w, minutes, days in *. nia.
  - exact Hlast.
  - rewrite Hlast. unfold minutes, days. intros E.
    assert (E' : 1440 = bin_minutes * Z.of_nat n) by lia.
    rewrite E'. rewrite Z.mul_comm. apply Z.mod_mul. lia.
  - rewrite Hlast. unfold minutes, days. intros E.
    apply Z.mod_divide in E; [|lia]. destruct E as [c Ec].
    assert (c = Z.of_nat n) by nia. subst c. lia.
Qed.

Lemma create_time_bins_partition base_date bin_minutes :
  0 < bin_minutes -> day_fits base_date bin_minutes ->
  exists bins,
    (forall fuel, (1440 <= fuel)%nat ->
       create_time_bins fuel base_date bin_minutes = Some (Ok bins)) /\
    length bins = bin_count bin_minutes /\
    (exists e, hd_error bins = Some (base_date, e)) /\
    contiguous bins /\
    (forall a b, In (a, b) bins -> b = a + minutes bin_minutes /\ a < b) /\
    (forall t, base_date <= t < base_date + days 1 ->
       exists a b, In (a, b) bins /\ a <= t < b) /\
    (snd (last bins (0, 0)) =
       base_date + minutes (Z.of_nat (bin_count bin_minutes) * bin_minutes)) /\
    (snd (last bins (0, 0)) = base_date + days 1 <-> 1440 mod bin_minutes = 0).
Proof.
  intros Hb Hd.
  exists (bins_from (bin_count bin_minutes) base_date (minutes bin_minutes)).
  split; [intros fuel Hf; now apply create_time_bins_closed|].
  now apply bins_from_partition.
Qed.

(** C1, at a width that does not divide the day.  On every day whose
    bins are datetimes (local midnight not before 0001-01-01, and 24:10
    of the day not after 9999-12-31) the generator emits, with 25-minute
    bins, 58 full bins: the last one is [23:45, 24:10), as wide as the
    others, and ends ten minutes after the following midnight. *)
Theorem create_time_bins_overshoots (base_date : Z) :
  0 <= base_date -> base_date + minutes 1450 <= datetime_max ->
  exists bins,
    create_time_bins 1440 base_date 25 = Some (Ok bins) /\
    length bins = 58%nat /\
    last bins (0, 0) = (base_date + minutes 1425, base_date + minutes 1450) /\
    base_date + days 1 < snd (last bins (0, 0)).
Proof.
  intros H0 Hmax.
  exists (bins_from 58 base_date (minutes 25)).
  split.
  { apply (create_time_bins_closed base_date 25 1440); [lia | | lia].
    split; [exact H0 | exact Hmax]. }
  split; [apply bins_from_length|].
  assert (L : last (bins_from 58 base_date (minutes 25)) (0, 0) =
              (base_date + minutes 1425, base_date + minutes 1450)).
  { cbn -[Z.add Z.mul minutes]. unfold minutes. f_equal; lia. }
  rewrite L. split; [reflexivity|]. cbn [snd]. unfold minutes, days. lia.
Qed.

(** 2025-07-29 is the day of ordinal 739461. *)
Lemma create_time_bins_overshoots_witness :
  exists bins,
    create_time_bins 1440 (days 739460) 25 = Some (Ok bins) /\
    length bins = 58%nat /\
    last bins (0, 0) = (days 739460 + minutes 1425, days 739460 + minutes 1450) /\
    days 739460 + days 1 < snd (last bins (0, 0)).
Proof.
  apply (create_time_bins_overshoots (days 739460)); vm_compute; discriminate.
Defined.

(** * Dicts in insertion order *)

Lemma dict_get_set_same d k v default :
  dict_get (dict_set d k v) k default = v.
Proof.
  induction d as [|[k' v'] d IH]; cbn.
  - now rewrite Z.eqb_refl.
  - destruct (Z.eqb_spec k' k) as [->|N]; cbn.
    + now rewrite Z.eqb_refl.
    + destruct (Z.eqb_spec k' k); [contradiction | exact IH].
Qed.

Lemma dict_get_set_other d k v k0 default :
  k <> k0 -> dict_get (dict_set d k v) k0 default = dict_get d k0 default.
Proof.
  intros N. induction d as [|[k' v'] d IH]; cbn.
  - destruct (Z.eqb_spec k k0); [contradiction | reflexivity].
  - destruct (Z.eqb_spec k' k) as [->|N']; cbn.
    + destruct (Z.eqb_spec k k0); [contradiction | reflexivity].
    + now rewrite IH.
Qed.

Lemma keys_dict_set_old d k v :
  In k (keys d) -> keys (dict_set d k v) = keys d.
Proof.
  unfold keys. induction d as [|[k' v'] d IH]; cbn; [easy|].
  intros H. destruct (Z.eqb_spec k' k) as [->|N]; cbn; [reflexivity|].
  destruct H as [H|H]; [contradiction|]. now rewrite (IH H).
Qed.

Lemma keys_dict_set_new d k v :
  ~ In k (keys d) -> keys (dict_set d k v) = keys d ++ [k].
Proof.
  unfold keys. induction d as [|[k' v'] d IH]; cbn; [reflexivity|].
  intros H. destruct (Z.eqb_spec k' k) as [->|N]; cbn; [tauto|].
  rewrite IH; tauto.
Qed.

Lemma fold_left_add l a : fold_left Z.add l a = a + py_sum l.
Proof.
  unfold py_sum. revert a. induction l as [|x l IH]; intros a; cbn; [lia|].
  rewrite IH, (IH x). lia.
Qed.

Lemma py_sum_cons x l : py_sum (x :: l) = x + py_sum l.
Proof. unfold py_sum at 1. cbn. apply fold_left_add. Qed.

Lemma py_sum_dict_set d k v :
  py_sum (values (dict_set d k v)) = py_sum (values d) - dict_get d k 0 + v.
Proof.
  unfold values. induction d as [|[k' v'] d IH]; cbn [dict_set dict_get map snd].
  - rewrite py_sum_cons. change (py_sum []) with 0. lia.
  - destruct (Z.eqb_spec k' k); cbn [map snd]; rewrite !py_sum_cons;
      [lia | rewrite IH; lia].
Qed.

(** One more occurrence of a key adds one to the total of the counts. *)
Lemma py_sum_dict_incr d k :
  py_sum (values (dict_incr d k)) = py_sum (values d) + 1.
Proof. unfold dict_incr. rewrite py_sum_dict_set. lia. Qed.

Lemma count_zones_snoc zones z :
  count_zones (zones ++ [z]) = dict_incr (count_zones zones) z.
Proof. unfold count_zones. now rewrite fold_left_app. Qed.

Lemma occurrences_snoc k zones z :
  occurrences k (zones ++ [z]) =
    occurrences k zones + (if z =? k then 1 else 0).
Proof.
  unfold occurrences. rewrite count_occ_app. cbn.
  destruct (Z.eq_dec z k), (Z.eqb_spec z k); try contradiction; lia.
Qed.

(** The dict of counts holds, for each zone, its number of occurrences. *)
Lemma count_zones_get zones k :
  dict_get (count_zones zones) k 0 = occurrences k zones.
Proof.
  induction zones as [|z zones IH] using rev_ind; [reflexivity|].
  rewrite count_zones_snoc, occurrences_snoc. unfold dict_incr.
  destruct (Z.eqb_spec z k) as [->|N].
  - rewrite dict_get_set_same. lia.
  - rewrite dict_get_set_other by assumption. lia.
Qed.

Lemma count_zones_total zones :
  py_sum (values (count_zones zones)) = len zones.
Proof.
  induction zones as [|z zones IH] using rev_ind; [reflexivity|].
  rewrite count_zones_snoc, py_sum_dict_incr, IH.
  unfold len. rewrite length_app. cbn. lia.
Qed.

Lemma count_zones_keys zones x :
  In x (keys (count_zones zones)) <-> In x zones.
Proof.
  induction zones as [|z zones IH] using rev_ind; [reflexivity|].
  rewrite count_zones_snoc, in_app_iff. unfold dict_incr. cbn.
  destruct (in_dec Z.eq_dec z (keys (count_zones zones))) as [I|I].
  - rewrite keys_dict_set_old by assumption. rewrite IH in *.
    intuition (subst; tauto).
  - rewrite keys_dict_set_new, in_app_iff by assumption. cbn.
    rewrite IH. tauto.
Qed.

(** * The bin classifier *)

Lemma mapM_Forall2 {A B} (f : A -> result B) l l' :
  mapM f l = Ok l' <-> Forall2 (fun a b => f a = Ok b) l l'.
Proof.
  revert l'. induction l as [|a l IH]; intros l'; cbn.
  - split; intros H; [injection H as <-; constructor | inversion H; reflexivity].
  - split.
    + destruct (f a) as [b|] eqn:Fa; cbn; [|discriminate].
      destruct (mapM f l) as [bs|]; cbn; [|discriminate].
      intros H. injection H as <-. constructor; [exact Fa | now apply IH].
    + intros H. inversion H as [|? b ? bs Fa Hl]; subst.
      rewrite Fa. cbn. apply IH in Hl. rewrite Hl. reflexivity.
Qed.

Lemma mapM_length {A B} (f : A -> result B) l l' :
  mapM f l = Ok l' -> length l' = length l.
Proof.
  intros H. apply mapM_Forall2 in H. symmetry. eapply Forall2_length, H.
Qed.

(** What a returned bin dict holds, field by field. *)
Lemma calculate_dominant_zone_for_bin_inv bs be hr_data sleep_periods m b :
  calculate_dominant_zone_for_bin bs be hr_data sleep_periods m = Ok b ->
  let readings := readings_in_bin bs be hr_data in
  exists zones,
    mapM (fun hr => calculate_hr_zones hr m) readings = Ok zones /\
    bin_start b = bs /\ bin_end b = be /\
    is_sleep b = is_sleeping (bin_midpoint bs be) sleep_periods /\
    hr_readings_count b = len readings /\
    min_hr b = py_min readings /\ max_hr b = py_max readings /\
    zone_counts b = count_zones zones /\ all_zones b = zones /\
    dominant_zone b =
      py_max_key (fun k => dict_get (count_zones zones) k 0)
        (keys (count_zones zones)) /\
    bin_index b = None /\
    match readings with
    | [] => avg_hr b = None
    | _ :: _ =>
        exists a, avg_hr b = Some a /\
          int_true_div (py_sum readings) (len readings) = Ok a
    end.
Proof.
  intros H readings. unfold calculate_dominant_zone_for_bin in H.
  fold readings in H.
  destruct (mapM (fun hr => calculate_hr_zones hr m) readings) as [zones|];
    [|discriminate].
  exists zones. cbn [bind] in H.
  destruct readings as [|r rs].
  - cbn [bind] in H. injection H as <-. cbn. repeat split.
  - destruct (int_true_div (py_sum (r :: rs)) (len (r :: rs))) as [a|];
      [|discriminate].
    cbn [bind] in H. injection H as <-. cbn. repeat split. eauto.
Qed.

Lemma is_sleeping_iff timestamp sleep_periods :
  is_sleeping timestamp sleep_periods = true <->
  exists s e, In (s, e) sleep_periods /\ s <= timestamp <= e.
Proof.
  induction sleep_periods as [|[s e] rest IH]; cbn.
  - split; [discriminate | intros (? & ? & [] & _)].
  - destruct (Z.leb_spec s timestamp), (Z.leb_spec timestamp e); cbn;
      try (split; [intros _; exists s, e; split; [now left | lia] | reflexivity]);
      rewrite IH; split; intros (s' & e' & Hin & Hb);
      try (exists s', e'; split; [now right | exact Hb]);
      (destruct Hin as [E|Hin]; [injection E as <- <-; lia |]);
      exists s', e'; split; assumption.
Qed.

(** Halving a [timedelta]: exact for an even number of microseconds, off
    by half a microsecond otherwise. *)
Lemma divide_and_round_half a :
  -1 <= 2 * divide_and_round a 2 - a <= 1 /\
  (Z.even a = true -> 2 * divide_and_round a 2 = a).
Proof.
  unfold divide_and_round. cbn [Z.ltb Z.compare].
  pose proof (Z.div_mod a 2 ltac:(lia)) as E.
  pose proof (Z.mod_pos_bound a 2 ltac:(lia)) as B.
  rewrite Zeven_mod.
  destruct (Z.ltb_spec 2 (2 * (a mod 2))); [lia|].
  destruct (Z.eqb_spec (2 * (a mod 2)) 2); cbn [orb andb].
  - destruct (Z.eqb_spec (a / 2 mod 2) 1); split; try lia;
      destruct (Z.eqb_spec (a mod 2) 0); try discriminate; lia.
  - split; [lia|]. destruct (Z.eqb_spec (a mod 2) 0); [lia | discriminate].
Qed.

(** C5.  A returned bin is flagged asleep exactly when its midpoint,
    [bin_start] plus half the width, lies in the closed range of some
    sleep period.  The flag is the same whatever the heart-rate readings
    are. *)
Theorem is_sleep_midpoint bs be hr_data sleep_periods m b :
  calculate_dominant_zone_for_bin bs be hr_data sleep_periods m = Ok b ->
  let midpoint := bin_midpoint bs be in
  (is_sleep b = true <->
     exists s e, In (s, e) sleep_periods /\ s <= midpoint <= e) /\
  -1 <= 2 * (midpoint - bs) - (be - bs) <= 1 /\
  (Z.even (be - bs) = true -> 2 * (midpoint - bs) = be - bs) /\
  (forall hr_data' m' b',
     calculate_dominant_zone_for_bin bs be hr_data' sleep_periods m' = Ok b' ->
     is_sleep b' = is_sleep b).
Proof.
  intros H midpoint.
  destruct (calculate_dominant_zone_for_bin_inv _ _ _ _ _ _ H)
    as (_ & _ & _ & _ & Hs & _).
  pose proof (divide_and_round_half (be - bs)) as [D1 D2].
  unfold midpoint, bin_midpoint in *.
  split; [rewrite Hs; apply is_sleeping_iff|].
  split; [lia|]. split; [intros Ev; specialize (D2 Ev); lia|].
  intros hr' m' b' H'.
  destruct (calculate_dominant_zone_for_bin_inv _ _ _ _ _ _ H')
    as (_ & _ & _ & _ & Hs' & _).
  now rewrite Hs, Hs'.
Qed.

Lemma is_sleep_midpoint_witness :
  exists b,
    calculate_dominant_zone_for_bin 0 900 [(10, 65)] [(400, 460)] 173 = Ok b /\
    (is_sleep b = true <->
       exists s e, In (s, e) [(400, 460)] /\ s <= bin_midpoint 0 900 <= e).
Proof.
  destruct (calculate_dominant_zone_for_bin 0 900 [(10, 65)] [(400, 460)] 173)
    as [b|e] eqn:E.
  - exists b. split; [reflexivity|].
    exact (proj1 (is_sleep_midpoint _ _ _ _ _ _ E)).
  - vm_compute in E. discriminate.
Defined.

(** * Minimum, maximum, and the first largest key *)

Lemma fold_left_min l x :
  let lo := fold_left Z.min l x in
  In lo (x :: l) /\ forall y, In y (x :: l) -> lo <= y.
Proof.
  revert x. induction l as [|a l IH]; intros x; cbn.
  - split; [now left | intros y [<-|[]]; lia].
  - destruct (IH (Z.min x a)) as [I L]. split.
    + destruct I as [I|I]; [|now right; right].
      destruct (Z.min_spec x a) as [[_ E]|[_ E]]; rewrite E in *; auto.
    + intros y Hy.
      assert (fold_left Z.min l (Z.min x a) <= Z.min x a) by (apply L; now left).
      destruct Hy as [<-|[<-|Hy]]; [lia | lia | apply L; now right].
Qed.

Lemma fold_left_max l x :
  let hi := fold_left Z.max l x in
  In hi (x :: l) /\ forall y, In y (x :: l) -> y <= hi.
Proof.
  revert x. induction l as [|a l IH]; intros x; cbn.
  - split; [now left | intros y [<-|[]]; lia].
  - destruct (IH (Z.max x a)) as [I L]. split.
    + destruct I as [I|I]; [|now right; right].
      destruct (Z.max_spec x a) as [[_ E]|[_ E]]; rewrite E in *; auto.
    + intros y Hy.
      assert (Z.max x a <= fold_left Z.max l (Z.max x a)) by (apply L; now left).
      destruct Hy as [<-|[<-|Hy]]; [lia | lia | apply L; now right].
Qed.

(** [max_from] returns the first item with the largest key: items before
    it have a strictly smaller key, items after it none larger. *)
Lemma max_from_spec key rest :
  forall pre best mid,
    (forall x, In x pre -> key x < key best) ->
    (forall x, In x mid -> key x <= key best) ->
    exists k1 k2,
      pre ++ best :: mid ++ rest = k1 ++ max_from key best rest :: k2 /\
      (forall x, In x k1 -> key x < key (max_from key best rest)) /\
      (forall x, In x k2 -> key x <= key (max_from key best rest)).
Proof.
  induction rest as [|k rest IH]; intros pre best mid Hpre Hmid; cbn [max_from].
  - exists pre, mid. rewrite app_nil_r. auto.
  - destruct (Z.ltb_spec (key best) (key k)) as [L|G].
    + destruct (IH (pre ++ best :: mid) k []) as (k1 & k2 & E & H1 & H2).
      * intros x Hx. apply in_app_iff in Hx.
        destruct Hx as [Hx|[<-|Hx]]; [apply Hpre in Hx | | apply Hmid in Hx]; lia.
      * intros x [].
      * exists k1, k2. split; [|auto].
        rewrite <- E. rewrite <- app_assoc. reflexivity.
    + destruct (IH pre best (mid ++ [k])) as (k1 & k2 & E & H1 & H2).
      * exact Hpre.
      * intros x Hx. apply in_app_iff in Hx.
        destruct Hx as [Hx|[<-|[]]]; [now apply Hmid | lia].
      * exists k1, k2. split; [|auto].
        rewrite <- E. rewrite <- app_assoc. reflexivity.
Qed.

Lemma py_max_key_spec key items :
  items <> [] ->
  exists z k1 k2,
    py_max_key key items = Some z /\ items = k1 ++ z :: k2 /\
    (forall x, In x k1 -> key x < key z) /\
    (forall x, In x k2 -> key x <= key z).
Proof.
  destruct items as [|k rest]; [congruence|]. intros _.
  destruct (max_from_spec key rest [] k []) as (k1 & k2 & E & H1 & H2);
    [intros x [] | intros x [] |].
  exists (max_from key k rest), k1, k2. cbn in E. auto.
Qed.

Lemma snoc_split {A} (l : list A) y k1 z k2 :
  l ++ [y] = k1 ++ z :: k2 ->
  (k2 = [] /\ z = y /\ l = k1) \/
  (exists k2', k2 = k2' ++ [y] /\ l = k1 ++ z :: k2').
Proof.
  intros E. destruct k2 as [|a k2] using rev_ind.
  - left. apply app_inj_tail in E. destruct E as [-> ->]. auto.
  - right. exists k2. clear IHk2.
    change (k1 ++ z :: k2 ++ [a]) with (k1 ++ (z :: k2) ++ [a]) in E.
    rewrite app_assoc in E. apply app_inj_tail in E.
    destruct E as [-> ->]. auto.
Qed.

(** The keys of the dict of counts are in order of first occurrence:
    whatever occurs before the first [z] of [zones] is a key before
    [z]. *)
Lemma count_zones_order zones :
  forall k1 z k2,
    keys (count_zones zones) = k1 ++ z :: k2 ->
    exists l1 l2,
      zones = l1 ++ z :: l2 /\ (forall x, In x l1 -> In x k1).
Proof.
  induction zones as [|y zones IH] using rev_ind; intros k1 z k2 E.
  - destruct k1; discriminate.
  - rewrite count_zones_snoc in E. unfold dict_incr in E.
    destruct (in_dec Z.eq_dec y (keys (count_zones zones))) as [I|I].
    + rewrite keys_dict_set_old in E by assumption.
      destruct (IH _ _ _ E) as (l1 & l2 & -> & H).
      exists l1, (l2 ++ [y]). split; [|exact H].
      rewrite <- app_assoc. reflexivity.
    + rewrite keys_dict_set_new in E by assumption.
      apply snoc_split in E. destruct E as [(-> & -> & El)|(k2' & -> & El)].
      * exists zones, []. split; [reflexivity|].
        intros x Hx. rewrite <- El. now apply count_zones_keys.
      * destruct (IH _ _ _ El) as (l1 & l2 & -> & H).
        exists l1, (l2 ++ [y]). split; [|exact H].
        rewrite <- app_assoc. reflexivity.
Qed.

(** The dominant zone of a non-empty list of zones: the most frequent
    one, and among the most frequent ones the one seen first. *)
Lemma dominant_first_seen zones :
  zones <> [] ->
  exists z l1 l2,
    py_max_key (fun k => dict_get (count_zones zones) k 0)
      (keys (count_zones zones)) = Some z /\
    zones = l1 ++ z :: l2 /\
    (forall x, In x l1 -> occurrences x zones < occurrences z zones) /\
    (forall x, occurrences x zones <= occurrences z zones).
Proof.
  intros NE.
  assert (KNE : keys (count_zones zones) <> []).
  { destruct zones as [|z0 zs]; [congruence|].
    intros C. assert (I : In z0 (keys (count_zones (z0 :: zs))))
      by (apply count_zones_keys; now left).
    rewrite C in I. destruct I. }
  destruct (py_max_key_spec (fun k => dict_get (count_zones zones) k 0) _ KNE)
    as (z & k1 & k2 & Hm & Ek & H1 & H2).
  destruct (count_zones_order zones _ _ _ Ek) as (l1 & l2 & El & Hl).
  exists z, l1, l2. split; [exact Hm|]. split; [exact El|].
  setoid_rewrite count_zones_get in H1. setoid_rewrite count_zones_get in H2.
  split.
  - intros x Hx. apply H1, Hl, Hx.
  - intros x.
    destruct (in_dec Z.eq_dec x zones) as [I|I].
    + apply count_zones_keys in I. rewrite Ek in I. apply in_app_iff in I.
      destruct I as [I|[<-|I]]; [apply H1 in I; lia | lia | now apply H2].
    + assert (occurrences x zones = 0).
      { unfold occurrences. apply (count_occ_not_In Z.eq_dec) in I. lia. }
      assert (0 <= occurrences z zones) by (unfold occurrences; lia). lia.
Qed.

Lemma calculate_hr_zones_range heart_rate m z :
  calculate_hr_zones heart_rate m = Ok z ->
  0 <= z <= 6 /\ (z = 0 <-> heart_rate <= 0).
Proof.
  intros H. destruct (Z.le_gt_cases heart_rate 0) as [N|P].
  - rewrite calculate_hr_zones_nonpos in H by assumption.
    injection H as <-. lia.
  - rewrite calculate_hr_zones_pos in H by assumption.
    destruct (int_true_div heart_rate m) as [q|]; [|discriminate].
    injection H as <-.
    pose proof (zone_of_percentage_range (float_mul q 100)). lia.
Qed.

Lemma zones_range readings m zones :
  Forall2 (fun hr z => calculate_hr_zones hr m = Ok z) readings zones ->
  (forall z, In z zones -> 0 <= z <= 6) /\
  occurrences 0 zones =
    Z.of_nat (length (filter (fun hr => hr <=? 0) readings)).
Proof.
  induction 1 as [|hr z readings zones Hz _ [IH1 IH2]].
  - split; [intros z [] | reflexivity].
  - apply calculate_hr_zones_range in Hz. destruct Hz as [R Z0]. split.
    + intros z' [<-|I]; [exact R | now apply IH1].
    + unfold occurrences in *. cbn [count_occ filter].
      destruct (Z.eq_dec z 0), (Z.leb_spec hr 0); cbn [length]; lia.
Qed.

(** C3, as the code has it.  Two readings in zone 4 and two in zone 2,
    the first of them in zone 4: the tie goes to zone 4, not to the
    smaller zone 2. *)
Lemma dominant_zone_tie_not_smallest :
  exists b,
    calculate_dominant_zone_for_bin 0 900
      [(10, 125); (20, 90); (30, 125); (40, 90)] [] 173 = Ok b /\
    all_zones b = [4; 2; 4; 2] /\
    zone_counts b = [(4, 2); (2, 2)] /\
    dominant_zone b = Some 4.
Proof. eexists. split; [vm_compute; reflexivity|]. repeat split. Qed.

(** C3, amended.  In a returned bin with at least one reading the
    dominant zone is a zone of highest tally, and among the zones tied for
    the highest tally it is the one whose first reading comes first in
    [hr_data]: every zone seen before it has a strictly smaller tally. *)
Theorem dominant_zone_first_seen bs be hr_data sleep_periods m b :
  calculate_dominant_zone_for_bin bs be hr_data sleep_periods m = Ok b ->
  readings_in_bin bs be hr_data <> [] ->
  Forall2 (fun hr z => calculate_hr_zones hr m = Ok z)
    (readings_in_bin bs be hr_data) (all_zones b) /\
  exists z l1 l2,
    dominant_zone b = Some z /\
    all_zones b = l1 ++ z :: l2 /\
    (forall x, In x l1 ->
       occurrences x (all_zones b) < occurrences z (all_zones b)) /\
    (forall x, occurrences x (all_zones b) <= occurrences z (all_zones b)).
Proof.
  intros H NE.
  destruct (calculate_dominant_zone_for_bin_inv _ _ _ _ _ _ H)
    as (zones & Hz & _ & _ & _ & _ & _ & _ & _ & Ha & Hd & _).
  rewrite Ha, Hd. split; [now apply mapM_Forall2|].
  apply dominant_first_seen.
  intros C. apply mapM_length in Hz. rewrite C in Hz.
  destruct (readings_in_bin bs be hr_data); [congruence | discriminate].
Qed.

Lemma dominant_zone_first_seen_witness :
  exists b,
    calculate_dominant_zone_for_bin 0 900
      [(10, 90); (20, 125); (30, 125); (40, 90)] [] 173 = Ok b /\
    all_zones b = [2; 4; 4; 2] /\
    dominant_zone b = Some 2 /\
    exists z l1 l2,
      dominant_zone b = Some z /\
      all_zones b = l1 ++ z :: l2 /\
      (forall x, In x l1 ->
         occurrences x (all_zones b) < occurrences z (all_zones b)) /\
      (forall x, occurrences x (all_zones b) <= occurrences z (all_zones b)).
Proof.
  destruct (calculate_dominant_zone_for_bin 0 900
              [(10, 90); (20, 125); (30, 125); (40, 90)] [] 173)
    as [b|e] eqn:E.
  - exists b. split; [reflexivity|].
    pose proof (dominant_zone_first_seen _ _ _ _ _ _ E) as T.
    vm_compute in E. injection E as <-.
    split; [reflexivity|]. split; [reflexivity|].
    apply T. vm_compute. discriminate.
  - vm_compute in E. discriminate.
Defined.

(** C4, as the code has it.  A reading with [bpm <= 0] is tallied under
    zone 0 like any other, and zone 0 can be the dominant zone. *)
Lemma zone_zero_is_tallied :
  exists b,
    calculate_dominant_zone_for_bin 0 900 [(10, 0); (20, 65); (30, 0)] [] 173
      = Ok b /\
    hr_readings_count b = 3 /\
    zone_counts b = [(0, 2); (1, 1)] /\
    dominant_zone b = Some 0.
Proof. eexists. split; [vm_compute; reflexivity|]. repeat split. Qed.

(** C4, amended.  [hr_readings_count] is the number of readings with
    [bin_start <= timestamp < bin_end], valid or not; the average, minimum
    and maximum are those of the raw values of exactly these readings;
    every one of them is tallied under its zone, zone 0 for [bpm <= 0]
    included; so the dominant zone, when there is one, is in 0..6. *)
Theorem bin_statistics bs be hr_data sleep_periods m b :
  calculate_dominant_zone_for_bin bs be hr_data sleep_periods m = Ok b ->
  let readings :=
    map snd
      (filter (fun r => (bs <=? fst r) && (fst r <? be)) hr_data) in
  hr_readings_count b = len readings /\
  match readings with
  | [] => avg_hr b = None /\ min_hr b = None /\ max_hr b = None /\
          dominant_zone b = None
  | _ :: _ =>
      exists lo hi,
        avg_hr b =
          Some (RN (inject_Z (py_sum readings) / inject_Z (len readings))) /\
        min_hr b = Some lo /\ In lo readings /\
        (forall x, In x readings -> lo <= x) /\
        max_hr b = Some hi /\ In hi readings /\
        (forall x, In x readings -> x <= hi)
  end /\
  Forall2 (fun hr z => calculate_hr_zones hr m = Ok z) readings (all_zones b) /\
  (forall z, dict_get (zone_counts b) z 0 = occurrences z (all_zones b)) /\
  dict_get (zone_counts b) 0 0 =
    Z.of_nat (length (filter (fun hr => hr <=? 0) readings)) /\
  (forall z, dominant_zone b = Some z -> 0 <= z <= 6).
Proof.
  intros H readings.
  destruct (calculate_dominant_zone_for_bin_inv _ _ _ _ _ _ H)
    as (zones & Hz & _ & _ & _ & Hc & Hlo & Hhi & Hzc & Ha & Hd & _ & Havg).
  change (readings_in_bin bs be hr_data) with readings in *.
  apply mapM_Forall2 in Hz.
  destruct (zones_range _ _ _ Hz) as [R Z0].
  rewrite Hzc, Ha, Hc.
  split; [reflexivity|]. split; [|split; [exact Hz|split; [|split]]].
  - destruct readings as [|r rs] eqn:ER.
    + assert (EZ : zones = []) by (inversion Hz; reflexivity).
      rewrite Hd, Hlo, Hhi, EZ. cbn. auto.
    + destruct Havg as (a & Ea & Da).
      exists (fold_left Z.min rs r), (fold_left Z.max rs r).
      destruct (fold_left_min rs r) as [I1 L1].
      destruct (fold_left_max rs r) as [I2 L2].
      rewrite Ea, Hlo, Hhi. cbn [py_min py_max].
      repeat split; try assumption.
      unfold int_true_div in Da.
      destruct (len (r :: rs) =? 0); [discriminate|].
      destruct (overflows _); [discriminate|]. now injection Da as <-.
  - intros z. apply count_zones_get.
  - rewrite count_zones_get. exact Z0.
  - intros z Ez. rewrite Ez in Hd. apply R.
    apply count_zones_keys.
    destruct (keys (count_zones zones)) as [|k ks] eqn:EK; [discriminate|].
    injection Hd as ->.
    destruct (max_from_spec (fun k => dict_get (count_zones zones) k 0)
                ks [] k []) as (k1 & k2 & E & _); [intros ? [] | intros ? [] |].
    cbn in E. rewrite E. apply in_app_iff. right. now left.
Qed.

Lemma bin_statistics_witness :
  exists b,
    calculate_dominant_zone_for_bin 0 900
      [(10, 65); (20, 0); (30, 125); (900, 80)] [] 173 = Ok b /\
    hr_readings_count b = 3 /\
    dict_get (zone_counts b) 0 0 = 1 /\
    forall z, dominant_zone b = Some z -> 0 <= z <= 6.
Proof.
  destruct (calculate_dominant_zone_for_bin 0 900
              [(10, 65); (20, 0); (30, 125); (900, 80)] [] 173)
    as [b|e] eqn:E.
  - exists b. split; [reflexivity|].
    destruct (bin_statistics _ _ _ _ _ _ E) as (C & _ & _ & _ & Z0 & D).
    split; [exact C|]. split; [exact Z0 | exact D].
  - vm_compute in E. discriminate.
Defined.

(** C10.  In every bin the classifier returns, [hr_readings_count] is
    the number of readings with [bin_start <= timestamp < bin_end], and
    the counts of [zone_counts] add up to it: [all_zones] holds the zone
    of each of these readings, in order, the count of a zone is the
    number of its occurrences there, and the count of zone 0 is the
    number of these readings with [bpm <= 0]. *)
Theorem zone_counts_sum bs be hr_data sleep_periods m b :
  calculate_dominant_zone_for_bin bs be hr_data sleep_periods m = Ok b ->
  let readings :=
    map snd
      (filter (fun r => (bs <=? fst r) && (fst r <? be)) hr_data) in
  hr_readings_count b = len readings /\
  py_sum (values (zone_counts b)) = hr_readings_count b /\
  Forall2 (fun hr z => calculate_hr_zones hr m = Ok z) readings (all_zones b) /\
  (forall z, dict_get (zone_counts b) z 0 = occurrences z (all_zones b)) /\
  dict_get (zone_counts b) 0 0 =
    Z.of_nat (length (filter (fun hr => hr <=? 0) readings)).
Proof.
  intros H readings.
  destruct (calculate_dominant_zone_for_bin_inv _ _ _ _ _ _ H)
    as (zones & Hz & _ & _ & _ & Hc & _ & _ & Hzc & Ha & _).
  change (readings_in_bin bs be hr_data) with readings in *.
  pose proof (mapM_length _ _ _ Hz) as L.
  apply mapM_Forall2 in Hz.
  destruct (zones_range _ _ _ Hz) as [_ Z0].
  rewrite Hzc, Ha, Hc.
  split; [reflexivity|]. split; [|split; [exact Hz|split]].
  - rewrite count_zones_total. unfold len. now rewrite L.
  - intros z. apply count_zones_get.
  - rewrite count_zones_get. exact Z0.
Qed.

Lemma zone_counts_sum_witness :
  exists b,
    calculate_dominant_zone_for_bin 0 900
      [(10, 65); (20, 0); (30, 125); (40, 130); (900, 80)] [] 173 = Ok b /\
    hr_readings_count b = 4 /\
    py_sum (values (zone_counts b)) = hr_readings_count b.
Proof.
  destruct (calculate_dominant_zone_for_bin 0 900
              [(10, 65); (20, 0); (30, 125); (40, 130); (900, 80)] [] 173)
    as [b|e] eqn:E.
  - exists b. split; [reflexivity|].
    destruct (zone_counts_sum _ _ _ _ _ _ E) as (_ & S & _).
    split; [|exact S].
    vm_compute in E. injection E as <-. reflexivity.
  - vm_compute in E. discriminate.
Defined.

(** * The engine on a day without data *)

Lemma calculate_dominant_zone_for_bin_no_data bs be m :
  calculate_dominant_zone_for_bin bs be [] [] m =
    Ok (mkBinData bs be false 0 None None None None [] [] None None None).
Proof. reflexivity. Qed.

Lemma process_bins_no_data int_sqrt m time_bins :
  forall n i,
  exists cells,
    process_bins int_sqrt n i time_bins [] [] m = Ok cells /\
    map bounds cells = time_bins /\
    (forall k b, nth_error cells k = Some b ->
       bin_index b = Some (i + Z.of_nat k)) /\
    (forall b, In b cells ->
       is_sleep b = false /\ dominant_zone b = None /\
       hr_readings_count b = 0).
Proof.
  induction time_bins as [|[s e] rest IH]; intros n i.
  - exists []. repeat split; try easy. intros [|k] b; discriminate.
  - destruct (IH n (i + 1)) as (cells & P & B & I & F).
    cbn [process_bins]. rewrite calculate_dominant_zone_for_bin_no_data.
    cbn [bind]. destruct (grid_position int_sqrt n i) as [row col].
    rewrite P. cbn [bind]. eexists. split; [reflexivity|]. repeat split.
    + cbn [map]. rewrite B. reflexivity.
    + intros [|k] b Hb; cbn [nth_error] in Hb.
      * injection Hb as <-. cbn. f_equal. lia.
      * rewrite (I k b Hb). f_equal. lia.
    + destruct H as [<-|H]; [reflexivity | now apply F].
    + destruct H as [<-|H]; [reflexivity | now apply F].
    + destruct H as [<-|H]; [reflexivity | now apply F].
Qed.

(** C6, as the code has it.  On 9999-12-31, the day of ordinal 3652059,
    the following midnight is no [datetime]: the engine raises
    [OverflowError] before it makes a bin, empty inputs or not.  So it
    does for a width that carries a bin past the year 9999. *)
Lemma empty_day_raises :
  create_chronological_waffle_data Z.sqrt 1440 (days 3652058) 15 173 [] []
    = Some (Raise OverflowError) /\
  create_chronological_waffle_data Z.sqrt 1440 (days 739460) 5000000000 173
    [] [] = Some (Raise OverflowError).
Proof. split; vm_compute; reflexivity. Qed.

(** C6, amended.  On a day whose bins are all datetimes (local midnight
    not before 0001-01-01, the end of the last bin not after 9999-12-31)
    the engine, with no sleep periods and no readings, for any positive
    bin width and any [max_hr], returns a bin sequence: it starts at
    local midnight, each bin starts where the previous one ends, every
    instant of the day lies in a bin, the indices run from 0 without a
    gap, and every bin is awake with no dominant zone. *)
Theorem empty_day_is_no_data (int_sqrt : Z -> Z) (base_date bin_minutes m : Z) :
  0 < bin_minutes -> day_fits base_date bin_minutes ->
  exists cells,
    (forall fuel, (1440 <= fuel)%nat ->
       create_chronological_waffle_data int_sqrt fuel base_date bin_minutes m
         [] [] = Some (Ok cells)) /\
    length cells = bin_count bin_minutes /\
    (exists first, hd_error cells = Some first /\ bin_start first = base_date) /\
    contiguous (map bounds cells) /\
    (forall t, base_date <= t < base_date + days 1 ->
       exists b, In b cells /\ bin_start b <= t < bin_end b) /\
    (forall k b, nth_error cells k = Some b -> bin_index b = Some (Z.of_nat k)) /\
    (forall b, In b cells ->
       bin_start b < bin_end b /\ is_sleep b = false /\ dominant_zone b = None).
Proof.
  intros Hb Hd.
  destruct (create_time_bins_partition base_date bin_minutes Hb Hd)
    as (bins & Hrun & Hlen & (e & Hhd) & Hcont & Hw & Hcov & _).
  destruct (process_bins_no_data int_sqrt m bins (len bins) 0)
    as (cells & P & B & I & F).
  exists cells. split; [|split; [|split; [|split; [|split; [|split]]]]].
  - intros fuel Hf. unfold create_chronological_waffle_data.
    rewrite (Hrun fuel Hf), P. reflexivity.
  - rewrite <- Hlen, <- B. now rewrite length_map.
  - destruct cells as [|c cells]; [rewrite <- B in Hhd; discriminate|].
    exists c. split; [reflexivity|].
    rewrite <- B in Hhd. cbn in Hhd. now injection Hhd.
  - rewrite B. exact Hcont.
  - intros t Ht. destruct (Hcov t Ht) as (a & b' & Hin & Hab).
    rewrite <- B in Hin. apply in_map_iff in Hin.
    destruct Hin as (c & Ec & Hc). exists c. split; [exact Hc|].
    unfold bounds in Ec. injection Ec as -> ->. exact Hab.
  - intros k b Hk. rewrite (I k b Hk). f_equal.
  - intros b Hin. destruct (F b Hin) as (S & D & _).
    split; [|split; assumption].
    apply (Hw (bin_start b) (bin_end b)). rewrite <- B.
    apply in_map_iff. exists b. split; [reflexivity | exact Hin].
Qed.

(** 2025-07-29 is the day of ordinal 739461. *)
Lemma empty_day_is_no_data_witness :
  exists cells,
    (forall fuel, (1440 <= fuel)%nat ->
       create_chronological_waffle_data Z.sqrt fuel (days 739460) 15 173 [] []
         = Some (Ok cells)) /\
    length cells = 96%nat /\
    (forall b, In b cells ->
       bin_start b < bin_end b /\ is_sleep b = false /\ dominant_zone b = None).
Proof.
  destruct (empty_day_is_no_data Z.sqrt (days 739460) 15 173)
    as (cells & R & L & _ & _ & _ & _ & F);
    [lia | split; vm_compute; discriminate |].
  exists cells. split; [exact R|]. split; [exact L | exact F].
Defined.

(** * The zone distribution of the summary *)

Lemma dict_get_incr d k z :
  dict_get (dict_incr d k) z 0 = dict_get d z 0 + (if k =? z then 1 else 0).
Proof.
  unfold dict_incr. destruct (Z.eqb_spec k z) as [->|N].
  - rewrite dict_get_set_same. lia.
  - rewrite dict_get_set_other by assumption. lia.
Qed.

Lemma summary_fold_get waffle_data z :
  forall d,
    dict_get (fold_left summary_step waffle_data d) z 0 =
      dict_get d z 0 + Z.of_nat (length (filter (awake_in_zone z) waffle_data)).
Proof.
  induction waffle_data as [|b rest IH]; intros d; cbn [fold_left filter length].
  - lia.
  - rewrite IH. unfold summary_step, awake_in_zone.
    destruct (is_sleep b); cbn [negb andb]; [lia|].
    destruct (dominant_zone b) as [zone|]; [|lia].
    rewrite dict_get_incr.
    destruct (Z.eqb_spec zone z); cbn [length]; lia.
Qed.

Lemma summary_step_sleep d b : is_sleep b = true -> summary_step d b = d.
Proof. intros H. unfold summary_step. now rewrite H. Qed.

(** C8.  The zone distribution counts, for each zone, the bins that are
    awake and have that dominant zone.  A bin whose midpoint lies in a
    sleep period is flagged asleep whatever readings fall in it, and
    leaving it out of the sequence changes no count. *)
Theorem zone_distribution_awake_only :
  (forall waffle_data z,
     dict_get (print_waffle_summary waffle_data) z 0 =
       Z.of_nat (length (filter (awake_in_zone z) waffle_data))) /\
  (forall bs be hr_data sleep_periods m b,
     calculate_dominant_zone_for_bin bs be hr_data sleep_periods m = Ok b ->
     (exists s e, In (s, e) sleep_periods /\ s <= bin_midpoint bs be <= e) ->
     is_sleep b = true /\
     forall i row col before after,
       print_waffle_summary (before ++ with_grid b i row col :: after) =
         print_waffle_summary (before ++ after)).
Proof.
  split.
  - intros data z. unfold print_waffle_summary.
    rewrite summary_fold_get. reflexivity.
  - intros bs be hr sl m b H Hs.
    assert (S : is_sleep b = true).
    { destruct (calculate_dominant_zone_for_bin_inv _ _ _ _ _ _ H)
        as (_ & _ & _ & _ & E & _).
      rewrite E. now apply is_sleeping_iff. }
    split; [exact S|]. intros i row col before after.
    unfold print_waffle_summary. rewrite !fold_left_app. cbn [fold_left].
    now rewrite summary_step_sleep.
Qed.

Lemma zone_distribution_awake_only_witness :
  exists b,
    calculate_dominant_zone_for_bin 0 900 [(10, 125); (20, 130)] [(400, 460)] 173
      = Ok b /\
    hr_readings_count b = 2 /\
    is_sleep b = true /\
    forall i row col before after,
      print_waffle_summary (before ++ with_grid b i row col :: after) =
        print_waffle_summary (before ++ after).
Proof.
  destruct (calculate_dominant_zone_for_bin 0 900 [(10, 125); (20, 130)]
              [(400, 460)] 173) as [b|e] eqn:E.
  - exists b. split; [reflexivity|].
    split; [vm_compute in E; injection E as <-; reflexivity|].
    apply (proj2 zone_distribution_awake_only 0 900 [(10, 125); (20, 130)]
             [(400, 460)] 173 b E).
    exists 400, 460. split; [now left | vm_compute; split; discriminate].
  - vm_compute in E. discriminate.
Defined.

(** * The bin classifier returns *)

Lemma py_sum_bound l c :
  (forall v, In v l -> Z.abs v <= c) -> Z.abs (py_sum l) <= c * len l.
Proof.
  unfold len. induction l as [|x l IH]; intros H.
  - cbn. lia.
  - rewrite py_sum_cons. cbn [length]. rewrite Nat2Z.inj_succ.
    assert (Z.abs x <= c) by (apply H; now left).
    assert (Z.abs (py_sum l) <= c * Z.of_nat (length l))
      by (apply IH; intros v Hv; apply H; now right).
    lia.
Qed.

Lemma readings_in_bin_In bs be hr_data v :
  In v (readings_in_bin bs be hr_data) -> exists t, In (t, v) hr_data.
Proof.
  unfold readings_in_bin. intros H. apply in_map_iff in H.
  destruct H as ([t v'] & E & H). cbn in E. subst v'.
  apply filter_In in H. exists t. tauto.
Qed.

(** With a non-zero [max_hr] and readings a float can hold, the bin
    classifier returns a bin. *)
Lemma calculate_dominant_zone_for_bin_total bs be hr_data sleep_periods m :
  m <> 0 ->
  (forall t v, In (t, v) hr_data -> Z.abs v <= 2 ^ 1023) ->
  exists b,
    calculate_dominant_zone_for_bin bs be hr_data sleep_periods m = Ok b.
Proof.
  intros Hm Hv. unfold calculate_dominant_zone_for_bin.
  assert (P : 0 < 2 ^ 1023) by (apply Z.pow_pos_nonneg; lia).
  assert (R : forall v, In v (readings_in_bin bs be hr_data) ->
                Z.abs v <= 2 ^ 1023).
  { intros v H. apply readings_in_bin_In in H. destruct H as [t H]. eauto. }
  set (readings := readings_in_bin bs be hr_data) in *.
  assert (Z : exists zones,
             mapM (fun hr => calculate_hr_zones hr m) readings = Ok zones).
  { clearbody readings. induction readings as [|v l IH].
    - exists []. reflexivity.
    - destruct IH as [zs Hz]; [intros; apply R; now right|].
      destruct (calculate_hr_zones_total v m Hm) as (z & Ez & _).
      + assert (Z.abs v <= 2 ^ 1023) by (apply R; now left). nia.
      + exists (z :: zs). cbn [mapM]. rewrite Ez, Hz. reflexivity. }
  destruct Z as [zones ->]. cbn [bind].
  destruct readings as [|r rs] eqn:ER.
  - cbn [bind]. eexists. reflexivity.
  - destruct (int_true_div_in_range (py_sum (r :: rs)) (len (r :: rs))) as [a ->].
    + unfold len. cbn [length]. lia.
    + pose proof (py_sum_bound (r :: rs) (2 ^ 1023) R).
      assert (0 <= len (r :: rs)) by (unfold len; lia). lia.
    + cbn [bind]. eexists. reflexivity.
Qed.

(** * The rounding model on the machine's floats *)

(** [RN] against the processor's binary64 division and multiplication, on
    the quotients of the boundary test, a tie, and subnormal results. *)
Example RN_agrees_with_hardware :
  same_value (PrimFloat.div 104 173) (RN (104 # 173)) = true /\
  same_value (PrimFloat.mul (PrimFloat.div 104 173) 100)
    (RN (RN (104 # 173) * 100)) = true /\
  same_value (PrimFloat.mul (PrimFloat.div 58 100) 100)
    (RN (RN (58 # 100) * 100)) = true /\
  same_value (PrimFloat.div (-1) 3) (RN (-1 # 3)) = true /\
  same_value (PrimFloat.mul 0x1fffffffffffffp0 0x1fffffffffffffp0)
    (RN (inject_Z (2 ^ 53 - 1) * inject_Z (2 ^ 53 - 1))) = true /\
  same_value (PrimFloat.div 0x3p-1000 0x1p75) (RN (3 * pow2 (-1075))) = true /\
  same_value (PrimFloat.div 0x1p-1000 0x1p75) (RN (pow2 (-1075))) = true /\
  same_value (PrimFloat.div 0x7p-1000 0x1p76) (RN (7 * pow2 (-1076))) = true.
Proof. repeat split; vm_compute; reflexivity. Qed.

(** The boundary test at [max_hr = 173]: 104 bpm is 60.1 percent, zone 3;
    103 bpm is 59.5 percent, zone 2; 125 bpm is 72.3 percent, zone 4. *)
Example boundary_173 :
  calculate_hr_zones 104 173 = Ok 3 /\
  calculate_hr_zones 103 173 = Ok 2 /\
  calculate_hr_zones 125 173 = Ok 4.
Proof. repeat split; vm_compute; reflexivity. Qed.

(** * Further properties of the bin generator *)

(** X1.  For a positive width and a local midnight that is a datetime,
    the generator returns exactly on the days whose bins are all
    datetimes, and raises [OverflowError] on the others.  It returns
    [ceil(1440 / bin_minutes)] bins: the first starts at local midnight,
    each starts where the previous one ends, each is [bin_minutes] wide,
    every instant of the day lies in one of them, and the last one ends at
    the following midnight exactly when [bin_minutes] divides 1440. *)
Theorem create_time_bins_tiles base_date bin_minutes :
  0 < bin_minutes -> 0 <= base_date ->
  (day_fits base_date bin_minutes ->
   exists bins,
     (forall fuel, (1440 <= fuel)%nat ->
        create_time_bins fuel base_date bin_minutes = Some (Ok bins)) /\
     Z.of_nat (length bins) = (1440 + bin_minutes - 1) / bin_minutes /\
     (exists e, hd_error bins = Some (base_date, e)) /\
     contiguous bins /\
     (forall a b, In (a, b) bins -> b = a + minutes bin_minutes /\ a < b) /\
     (forall t, base_date <= t < base_date + days 1 ->
        exists a b, In (a, b) bins /\ a <= t < b) /\
     (snd (last bins (0, 0)) = base_date + days 1 <->
      1440 mod bin_minutes = 0)) /\
  (~ day_fits base_date bin_minutes ->
   forall fuel, (1440 <= fuel)%nat ->
     create_time_bins fuel base_date bin_minutes = Some (Raise OverflowError)).
Proof.
  intros Hb H0. split.
  - intros Hd.
    destruct (create_time_bins_partition base_date bin_minutes Hb Hd)
      as (bins & R & L & H & C & W & V & _ & D).
    exists bins. split; [exact R|]. split; [|split; [exact H|]].
    + rewrite L. unfold bin_count. apply Z2Nat.id. apply Z.div_pos; lia.
    + split; [exact C|]. split; [exact W|]. split; [exact V | exact D].
  - intros Hn fuel Hf. now apply create_time_bins_overflow.
Qed.

(** 2025-07-29 is the day of ordinal 739461, 9999-12-31 that of ordinal
    3652059. *)
Lemma create_time_bins_tiles_witness :
  (exists bins,
     (forall fuel, (1440 <= fuel)%nat ->
        create_time_bins fuel (days 739460) 20 = Some (Ok bins)) /\
     Z.of_nat (length bins) = 72) /\
  create_time_bins 1440 (days 3652058) 20 = Some (Raise OverflowError).
Proof.
  destruct (create_time_bins_tiles (days 739460) 20) as [T _];
    [lia | vm_compute; discriminate |].
  destruct T as (bins & R & L & _); [split; vm_compute; discriminate|].
  split; [exists bins; split; [exact R | exact L]|].
  destruct (create_time_bins_tiles (days 3652058) 20) as [_ T];
    [lia | vm_compute; discriminate |].
  apply T; [|lia].
  intros [_ F]. vm_compute in F. apply F. reflexivity.
Defined.

(** X2.  On a day whose bins are datetimes the bin of an instant of the
    day is found by division: the bin at index [(t - midnight) / width]
    contains [t], and no other bin does. *)
Theorem create_time_bins_locate base_date bin_minutes t :
  0 < bin_minutes -> day_fits base_date bin_minutes ->
  base_date <= t < base_date + days 1 ->
  exists bins,
    (forall fuel, (1440 <= fuel)%nat ->
       create_time_bins fuel base_date bin_minutes = Some (Ok bins)) /\
    (exists a b,
       nth_error bins (Z.to_nat ((t - base_date) / minutes bin_minutes))
         = Some (a, b) /\ a <= t < b) /\
    (forall k a b,
       nth_error bins k = Some (a, b) -> a <= t < b ->
       Z.of_nat k = (t - base_date) / minutes bin_minutes).
Proof.
  intros Hb Hfit Ht.
  pose proof (bin_count_spec bin_minutes Hb) as [Hn Hc]. cbn zeta in *.
  pose proof (create_time_bins_closed base_date bin_minutes) as Hrun.
  set (n := bin_count bin_minutes) in *.
  set (w := minutes bin_minutes) in *.
  assert (Hw : 0 < w) by (unfold w, minutes; lia).
  assert (Hd : days 1 <= Z.of_nat n * w) by (unfold w, minutes, days; lia).
  exists (bins_from n base_date w).
  split; [intros fuel Hf; now apply Hrun|].
  pose proof (Z.div_mod (t - base_date) w ltac:(lia)) as E.
  pose proof (Z.mod_pos_bound (t - base_date) w Hw) as B.
  set (q := (t - base_date) / w) in *.
  assert (Hq : 0 <= q) by (apply Z.div_pos; lia).
  split.
  - assert (Hqn : q < Z.of_nat n) by nia.
    exists (base_date + q * w), (base_date + (q + 1) * w).
    rewrite bins_from_nth by lia. rewrite Z2Nat.id by lia.
    split; [reflexivity | lia].
  - intros k a b Hk Hab.
    assert (Hkn : (k < n)%nat).
    { rewrite <- (bins_from_length n base_date w).
      apply nth_error_Some. congruence. }
    rewrite bins_from_nth in Hk by assumption.
    assert (Ea : a = base_date + Z.of_nat k * w) by congruence.
    assert (Eb : b = base_date + (Z.of_nat k + 1) * w) by congruence.
    apply (Z.div_unique_pos _ _ _ (t - base_date - w * Z.of_nat k)); lia.
Qed.

Lemma create_time_bins_locate_witness :
  exists bins,
    (forall fuel, (1440 <= fuel)%nat ->
       create_time_bins fuel (days 739460) 15 = Some (Ok bins)) /\
    (exists a b,
       nth_error bins
         (Z.to_nat ((days 739460 + minutes 605 - days 739460) / minutes 15))
         = Some (a, b) /\ a <= days 739460 + minutes 605 < b).
Proof.
  destruct (create_time_bins_locate (days 739460) 15
              (days 739460 + minutes 605)) as (bins & R & L & _);
    [lia | split; vm_compute; discriminate | unfold minutes, days; lia |].
  exists bins. split; [exact R | exact L].
Defined.

(** X3.  Nothing checks [bin_minutes], and a width of zero or less
    never yields a list of bins.  With a width of zero [current_time]
    stays at midnight and the loop does not end; with a negative width
    [current_time] walks back until it leaves the range of [datetime],
    and the loop ends in [OverflowError] after at most
    [base_date / |width|] further turns. *)
Theorem create_time_bins_needs_positive_width base_date bin_minutes :
  bin_minutes <= 0 ->
  (forall fuel bins,
     create_time_bins fuel base_date bin_minutes <> Some (Ok bins)) /\
  (bin_minutes = 0 -> 0 <= base_date -> base_date + days 1 <= datetime_max ->
   forall fuel, create_time_bins fuel base_date bin_minutes = None) /\
  (bin_minutes < 0 -> 0 <= base_date ->
   forall fuel,
     (Z.to_nat (base_date / - minutes bin_minutes) < fuel)%nat ->
     create_time_bins fuel base_date bin_minutes = Some (Raise OverflowError)).
Proof.
  intros Hb. split; [|split].
  - intros fuel bins. now apply create_time_bins_no_list.
  - intros -> H0 Hmax fuel. unfold create_time_bins.
    rewrite end_of_day_ok by (unfold days in *; lia).
    apply bins_loop_zero; unfold days, datetime_max in *; lia.
  - intros Hneg H0 fuel Hf. unfold create_time_bins.
    destruct (end_of_day_inv base_date) as [(d & -> & -> & R) | -> ];
      [|reflexivity].
    assert (Hw : 0 < - minutes bin_minutes) by (unfold minutes; lia).
    pose proof (Z.div_mod base_date (- minutes bin_minutes) ltac:(lia)) as E.
    pose proof (Z.mod_pos_bound base_date (- minutes bin_minutes) Hw) as B.
    set (q := base_date / - minutes bin_minutes) in *.
    assert (Hq : 0 <= q) by (apply Z.div_pos; lia).
    apply (bins_loop_negative bin_minutes (base_date + days 1) Hneg
             (Z.to_nat q)); [exact Hf | unfold days; lia |].
    rewrite Z2Nat.id by lia. nia.
Qed.

Lemma create_time_bins_needs_positive_width_witness :
  (forall fuel, create_time_bins fuel (days 739460) 0 = None) /\
  create_time_bins 30 (days 1) (- 60) = Some (Raise OverflowError).
Proof.
  split.
  - apply (create_time_bins_needs_positive_width (days 739460) 0);
      [lia | reflexivity | vm_compute; discriminate | vm_compute; discriminate].
  - apply (create_time_bins_needs_positive_width (days 1) (- 60));
      [lia | lia | vm_compute; discriminate |].
    apply Nat2Z.inj_lt. rewrite Z2Nat.id by (vm_compute; discriminate).
    vm_compute. reflexivity.
Defined.

(** * Further properties of the zone classifier *)

Lemma Qdiv_le_cross a a' m m' :
  0 < m -> 0 < m' -> a * m' <= a' * m ->
  (inject_Z a / inject_Z m <= inject_Z a' / inject_Z m')%Q.
Proof.
  intros Hm Hm' H.
  assert (Pm : (0 < inject_Z m)%Q) by (change 0%Q with (inject_Z 0); now rewrite <- Zlt_Qlt).
  assert (Pm' : (0 < inject_Z m')%Q) by (change 0%Q with (inject_Z 0); now rewrite <- Zlt_Qlt).
  apply Qle_shift_div_r; [exact Pm|].
  assert (E : (inject_Z a' / inject_Z m' * inject_Z m ==
               inject_Z a' * inject_Z m / inject_Z m')%Q) by (field; lra).
  rewrite E. apply Qle_shift_div_l; [exact Pm'|].
  rewrite <- !inject_Z_mult, <- Zle_Qle. exact H.
Qed.

Lemma int_true_div_le a a' m m' q' :
  0 < m -> 0 < m' -> 0 <= a -> a * m' <= a' * m ->
  int_true_div a' m' = Ok q' ->
  exists q, int_true_div a m = Ok q /\ (0 <= q <= q')%Q.
Proof.
  unfold int_true_div. intros Hm Hm' H0 Ha H.
  destruct (Z.eqb_spec m 0) as [|_]; [lia|].
  destruct (Z.eqb_spec m' 0) as [|_]; [lia|].
  destruct (overflows (RN (inject_Z a' / inject_Z m'))) eqn:O'; [discriminate|].
  injection H as <-.
  pose proof (RN_mono _ _ (Qdiv_le_cross a a' m m' Hm Hm' Ha)) as M.
  pose proof (RN_nonneg _ (Qdiv_nonneg a m H0 Hm)) as N.
  assert (O : overflows (RN (inject_Z a / inject_Z m)) = false).
  { apply overflows_false. apply overflows_false in O'.
    rewrite Qabs_nonneg_eq in * by lra. lra. }
  rewrite O. eexists. split; [reflexivity|]. split; assumption.
Qed.

Lemma calculate_hr_zones_ratio_le bpm bpm' m m' z' :
  0 < m -> 0 < m' -> bpm * m' <= bpm' * m ->
  calculate_hr_zones bpm' m' = Ok z' ->
  exists z, calculate_hr_zones bpm m = Ok z /\ z <= z'.
Proof.
  intros Hm Hm' H H'.
  pose proof (calculate_hr_zones_range _ _ _ H') as [R _].
  destruct (Z.le_gt_cases bpm 0) as [N|P].
  - exists 0. split; [now apply calculate_hr_zones_nonpos | lia].
  - assert (P' : 0 < bpm') by nia.
    rewrite calculate_hr_zones_pos in H' by assumption.
    destruct (int_true_div bpm' m') as [q'|] eqn:D'; [|discriminate].
    injection H' as <-.
    destruct (int_true_div_le bpm bpm' m m' q' Hm Hm' ltac:(lia) H D')
      as (q & D & B).
    rewrite calculate_hr_zones_pos, D by assumption. cbn.
    eexists. split; [reflexivity|].
    apply zone_of_percentage_mono, float_mul_mono, B.
Qed.

Lemma calculate_hr_zones_raises bpm m e :
  calculate_hr_zones bpm m = Raise e ->
  0 < bpm /\
  ((m = 0 /\ e = ZeroDivisionError) \/ (m <> 0 /\ e = OverflowError)).
Proof.
  intros H. destruct (Z.le_gt_cases bpm 0) as [N|P].
  - rewrite calculate_hr_zones_nonpos in H by assumption. discriminate.
  - split; [exact P|].
    rewrite calculate_hr_zones_pos in H by assumption.
    unfold int_true_div in H. destruct (Z.eqb_spec m 0) as [E|NE].
    + left. split; [exact E|]. cbn in H. congruence.
    + right. split; [exact NE|].
      destruct (overflows _); cbn in H; congruence.
Qed.

(** X4.  A reading too large for a float makes the classifier fail: for
    [max_hr > 0] and [bpm >= 2 ^ 1024 * max_hr] the division raises
    [OverflowError]. *)
Theorem calculate_hr_zones_huge_reading bpm max_hr :
  0 < max_hr -> 2 ^ 1024 * max_hr <= bpm ->
  calculate_hr_zones bpm max_hr = Raise OverflowError.
Proof. apply calculate_hr_zones_overflow. Qed.

Lemma calculate_hr_zones_huge_reading_witness :
  0 < 173 /\ calculate_hr_zones (2 ^ 1024 * 173) 173 = Raise OverflowError.
Proof.
  split; [lia|].
  apply (calculate_hr_zones_huge_reading (2 ^ 1024 * 173) 173); lia.
Defined.

(** X5.  The zone is a monotone function of the ratio [bpm / max_hr]:
    for positive maxima, a reading at a ratio no larger gets a zone no
    larger.  In particular a larger [max_hr] never raises the zone of a
    reading. *)
Theorem calculate_hr_zones_ratio_monotone bpm bpm' max_hr max_hr' :
  0 < max_hr -> 0 < max_hr' -> bpm * max_hr' <= bpm' * max_hr ->
  forall z', calculate_hr_zones bpm' max_hr' = Ok z' ->
  exists z, calculate_hr_zones bpm max_hr = Ok z /\ z <= z'.
Proof. intros Hm Hm' H z'. now apply calculate_hr_zones_ratio_le. Qed.

Lemma calculate_hr_zones_ratio_monotone_witness :
  0 < 190 /\ 0 < 173 /\ 125 * 173 <= 125 * 190 /\
  exists z, calculate_hr_zones 125 190 = Ok z /\ z <= 4.
Proof.
  split; [lia|]. split; [lia|]. split; [lia|].
  apply (calculate_hr_zones_ratio_monotone 125 125 190 173);
    [lia | lia | lia | vm_compute; reflexivity].
Defined.

(** X6.  The classifier depends on the reading and the maximum only
    through their ratio: scaling both by the same positive factor changes
    neither the zone nor the failure. *)
Theorem calculate_hr_zones_scale_invariant k bpm max_hr :
  0 < k -> 0 < max_hr ->
  calculate_hr_zones (k * bpm) (k * max_hr) = calculate_hr_zones bpm max_hr.
Proof.
  intros Hk Hm.
  assert (Hkm : 0 < k * max_hr) by nia.
  assert (U : forall z, calculate_hr_zones bpm max_hr = Ok z ->
                exists z', calculate_hr_zones (k * bpm) (k * max_hr) = Ok z' /\ z' <= z).
  { intros z. apply calculate_hr_zones_ratio_le; [exact Hkm | exact Hm | lia]. }
  assert (D : forall z', calculate_hr_zones (k * bpm) (k * max_hr) = Ok z' ->
                exists z, calculate_hr_zones bpm max_hr = Ok z /\ z <= z').
  { intros z'. apply calculate_hr_zones_ratio_le; [exact Hm | exact Hkm | lia]. }
  destruct (calculate_hr_zones bpm max_hr) as [z|e] eqn:E.
  - destruct (U z eq_refl) as (z' & E' & L).
    destruct (D z' E') as (z0 & E0 & L0).
    injection E0 as <-. rewrite E'. f_equal. lia.
  - destruct (calculate_hr_zones (k * bpm) (k * max_hr)) as [z'|e'] eqn:E'.
    + destruct (D z' eq_refl) as (z0 & E0 & _). discriminate.
    + apply calculate_hr_zones_raises in E, E'.
      destruct E as (_ & [[? ?]|[_ ->]]); [lia|].
      destruct E' as (_ & [[? ?]|[_ ->]]); [lia | reflexivity].
Qed.

Lemma calculate_hr_zones_scale_invariant_witness :
  0 < 1000 /\ 0 < 173 /\
  calculate_hr_zones (1000 * 104) (1000 * 173) = calculate_hr_zones 104 173.
Proof.
  split; [lia|]. split; [lia|].
  apply (calculate_hr_zones_scale_invariant 1000 104 173); lia.
Defined.

(** * Further properties of the sleep test and the bin classifier *)

(** X7.  The sleep test reads the periods as a set: two lists with the
    same periods, in any order and with any repetitions, give the same
    answer at every instant. *)
Theorem is_sleeping_set_semantics timestamp periods periods' :
  (forall p, In p periods <-> In p periods') ->
  is_sleeping timestamp periods = is_sleeping timestamp periods'.
Proof.
  intros H.
  destruct (is_sleeping timestamp periods) eqn:A;
    destruct (is_sleeping timestamp periods') eqn:B; try reflexivity.
  - apply is_sleeping_iff in A. destruct A as (s & e & I & R).
    apply H in I.
    assert (C : is_sleeping timestamp periods' = true)
      by (apply is_sleeping_iff; eauto).
    congruence.
  - apply is_sleeping_iff in B. destruct B as (s & e & I & R).
    apply H in I.
    assert (C : is_sleeping timestamp periods = true)
      by (apply is_sleeping_iff; eauto).
    congruence.
Qed.

Lemma is_sleeping_set_semantics_witness :
  is_sleeping 50 [(0, 10); (40, 60)] =
    is_sleeping 50 [(40, 60); (0, 10); (40, 60)].
Proof.
  apply (is_sleeping_set_semantics 50 [(0, 10); (40, 60)]
           [(40, 60); (0, 10); (40, 60)]).
  intros p. cbn. tauto.
Defined.

Lemma mapM_zones_max_hr_zero readings :
  (exists v, In v readings /\ 0 < v) ->
  mapM (fun hr => calculate_hr_zones hr 0) readings = Raise ZeroDivisionError.
Proof.
  induction readings as [|r rs IH]; intros (v & I & P); [destruct I|].
  cbn [mapM]. destruct (Z.le_gt_cases r 0) as [N|Pr].
  - rewrite calculate_hr_zones_nonpos by assumption. cbn [bind].
    rewrite IH; [reflexivity|].
    destruct I as [->|I]; [lia | eauto].
  - rewrite calculate_hr_zones_pos by assumption. reflexivity.
Qed.

Lemma in_readings_in_bin bs be hr_data v :
  In v (readings_in_bin bs be hr_data) <->
  exists t, In (t, v) hr_data /\ bs <= t < be.
Proof.
  unfold readings_in_bin. rewrite in_map_iff. split.
  - intros ([t v'] & E & H). cbn in E. subst v'.
    apply filter_In in H. destruct H as [I B]. unfold in_bin in B. cbn in B.
    exists t. split; [exact I | lia].
  - intros (t & I & B). exists (t, v). split; [reflexivity|].
    apply filter_In. split; [exact I|]. unfold in_bin. cbn. lia.
Qed.

(** X8.  With [max_hr = 0] a bin fails with [ZeroDivisionError] as soon
    as one positive reading falls in it, whatever the other readings
    are; a bin whose readings are all zero or negative, none below
    [- 2 ^ 1023], is classified normally. *)
Theorem calculate_dominant_zone_for_bin_max_hr_zero
  bs be hr_data sleep_periods :
  ((exists t v, In (t, v) hr_data /\ bs <= t < be /\ 0 < v) ->
   calculate_dominant_zone_for_bin bs be hr_data sleep_periods 0
     = Raise ZeroDivisionError) /\
  ((forall t v, In (t, v) hr_data -> bs <= t < be -> - 2 ^ 1023 <= v <= 0) ->
   exists b,
     calculate_dominant_zone_for_bin bs be hr_data sleep_periods 0 = Ok b).
Proof.
  split.
  - intros (t & v & I & B & P).
    unfold calculate_dominant_zone_for_bin.
    rewrite mapM_zones_max_hr_zero; [reflexivity|].
    exists v. split; [|exact P]. apply in_readings_in_bin. eauto.
  - intros Hn. unfold calculate_dominant_zone_for_bin.
    assert (P : 0 < 2 ^ 1023) by (apply Z.pow_pos_nonneg; lia).
    assert (R : forall v, In v (readings_in_bin bs be hr_data) ->
                  Z.abs v <= 2 ^ 1023 /\ v <= 0).
    { intros v H. apply in_readings_in_bin in H. destruct H as (t & I & B).
      specialize (Hn t v I B). lia. }
    set (readings := readings_in_bin bs be hr_data) in *.
    assert (Z : exists zones,
               mapM (fun hr => calculate_hr_zones hr 0) readings = Ok zones).
    { clearbody readings. induction readings as [|v l IH].
      - exists []. reflexivity.
      - destruct IH as [zs Hz]; [intros; apply R; now right|].
        exists (0 :: zs). cbn [mapM].
        rewrite calculate_hr_zones_nonpos by (apply R; now left).
        cbn [bind]. rewrite Hz. reflexivity. }
    destruct Z as [zones ->]. cbn [bind].
    destruct readings as [|r rs] eqn:ER.
    + cbn [bind]. eexists. reflexivity.
    + destruct (int_true_div_in_range (py_sum (r :: rs)) (len (r :: rs)))
        as [a ->].
      * unfold len. cbn [length]. lia.
      * pose proof (py_sum_bound (r :: rs) (2 ^ 1023)
                      (fun v H => proj1 (R v H))).
        assert (0 <= len (r :: rs)) by (unfold len; lia). lia.
      * cbn [bind]. eexists. reflexivity.
Qed.

Lemma calculate_dominant_zone_for_bin_max_hr_zero_witness :
  calculate_dominant_zone_for_bin 0 900 [(10, 0); (20, 65)] [] 0
    = Raise ZeroDivisionError /\
  exists b, calculate_dominant_zone_for_bin 0 900 [(10, 0); (900, 65)] [] 0
              = Ok b.
Proof.
  split.
  - apply (calculate_dominant_zone_for_bin_max_hr_zero 0 900
             [(10, 0); (20, 65)] []).
    exists 20, 65. split; [right; now left | lia].
  - apply (calculate_dominant_zone_for_bin_max_hr_zero 0 900
             [(10, 0); (900, 65)] []).
    assert (P : 0 < 2 ^ 1023) by (apply Z.pow_pos_nonneg; lia).
    intros t v [E|[E|[]]]; injection E as <- <-; lia.
Defined.

(** X9.  With a non-zero [max_hr] and readings of magnitude at most
    [2 ^ 1023] the bin classifier raises nothing: it returns a bin for any
    bounds, readings and sleep periods. *)
Theorem calculate_dominant_zone_for_bin_returns
  bs be hr_data sleep_periods m :
  m <> 0 ->
  (forall t v, In (t, v) hr_data -> Z.abs v <= 2 ^ 1023) ->
  exists b,
    calculate_dominant_zone_for_bin bs be hr_data sleep_periods m = Ok b.
Proof. apply calculate_dominant_zone_for_bin_total. Qed.

Lemma calculate_dominant_zone_for_bin_returns_witness :
  exists b,
    calculate_dominant_zone_for_bin 0 900 [(10, 65); (20, -4)] [(5, 7)] (-173)
      = Ok b.
Proof.
  apply (calculate_dominant_zone_for_bin_returns 0 900 [(10, 65); (20, -4)]
           [(5, 7)] (-173)).
  - lia.
  - intros t v [E|[E|[]]]; injection E as <- <-; vm_compute; discriminate.
Defined.

(** X10.  A returned bin has a dominant zone exactly when it has
    readings; without readings the average, minimum and maximum are
    absent and the tally is empty, with readings they are all present. *)
Theorem dominant_zone_iff_readings bs be hr_data sleep_periods m b :
  calculate_dominant_zone_for_bin bs be hr_data sleep_periods m = Ok b ->
  (dominant_zone b = None <-> hr_readings_count b = 0) /\
  (hr_readings_count b = 0 ->
     avg_hr b = None /\ min_hr b = None /\ max_hr b = None /\
     zone_counts b = [] /\ all_zones b = []) /\
  (hr_readings_count b <> 0 ->
     0 < hr_readings_count b /\
     avg_hr b <> None /\ min_hr b <> None /\ max_hr b <> None /\
     dominant_zone b <> None).
Proof.
  intros H.
  destruct (calculate_dominant_zone_for_bin_inv _ _ _ _ _ _ H)
    as (zones & Hz & _ & _ & _ & Hc & Hlo & Hhi & Hzc & Ha & Hd & _ & Havg).
  pose proof (mapM_length _ _ _ Hz) as L.
  destruct (readings_in_bin bs be hr_data) as [|r rs] eqn:ER.
  - destruct zones; [|discriminate].
    rewrite Hc, Hd, Hlo, Hhi, Hzc, Ha, Havg. cbn.
    repeat split; auto; intros; congruence.
  - destruct zones as [|z zs]; [discriminate|].
    destruct Havg as (a & Ea & _).
    assert (P : 0 < len (r :: rs)) by (unfold len; cbn [length]; lia).
    destruct (dominant_first_seen (z :: zs) ltac:(discriminate))
      as (z0 & _ & _ & Ez & _).
    rewrite Hc, Hd, Hlo, Hhi, Ea, Ez. cbn [py_min py_max].
    repeat split; intros; try congruence; try lia.
Qed.

Lemma dominant_zone_iff_readings_witness :
  exists b,
    calculate_dominant_zone_for_bin 0 900 [(900, 65)] [] 173 = Ok b /\
    (dominant_zone b = None <-> hr_readings_count b = 0).
Proof.
  destruct (calculate_dominant_zone_for_bin 0 900 [(900, 65)] [] 173)
    as [b|e] eqn:E.
  - exists b. split; [reflexivity|].
    exact (proj1 (dominant_zone_iff_readings _ _ _ _ _ _ E)).
  - vm_compute in E. discriminate.
Defined.

(** * The average of a bin *)

Lemma round_half_even_comp x y :
  (x == y)%Q -> round_half_even x = round_half_even y.
Proof.
  intros E. apply Z.le_antisymm; apply round_half_even_mono; lra.
Qed.

(** Integers of at most 53 bits are floats: rounding leaves them. *)
Lemma round_pos_inject_Z n :
  0 < n <= 2 ^ 53 -> (round_pos (inject_Z n) == inject_Z n)%Q.
Proof.
  intros [Hp Hn].
  destruct (Z.eq_dec n (2 ^ 53)) as [->|NE]; [vm_compute; reflexivity|].
  assert (Px : (0 < inject_Z n)%Q)
    by (change 0%Q with (inject_Z 0); now rewrite <- Zlt_Qlt).
  destruct (ilog2_spec (inject_Z n) Px) as [L _].
  assert (He : ilog2 (inject_Z n) < 53).
  { assert (U : (inject_Z n < pow2 53)%Q).
    { rewrite pow2_Z by lia. rewrite <- Zlt_Qlt. lia. }
    assert (H : (pow2 (ilog2 (inject_Z n)) < pow2 53)%Q) by lra.
    apply Qpower_lt_compat_l_inv in H; [lia | reflexivity]. }
  unfold round_pos.
  assert (Hu : ulp_exp (inject_Z n) <= 0) by (unfold ulp_exp; lia).
  set (u := ulp_exp (inject_Z n)) in *.
  pose proof (pow2_pos u) as Pu. pose proof (pow2_pos (- u)) as Pu'.
  assert (I : (pow2 u * pow2 (- u) == 1)%Q).
  { rewrite <- pow2_add. replace (u + - u) with 0 by lia. reflexivity. }
  assert (E : (inject_Z n / pow2 u == inject_Z (n * 2 ^ (- u)))%Q).
  { rewrite inject_Z_mult, <- pow2_Z by lia.
    apply Qmult_inj_r with (pow2 u); [lra|].
    transitivity (inject_Z n); [field; lra|].
    transitivity (inject_Z n * (pow2 u * pow2 (- u)))%Q; [rewrite I; ring | ring]. }
  rewrite (round_half_even_comp _ _ E), round_half_even_Z.
  rewrite inject_Z_mult, <- pow2_Z by lia.
  transitivity (inject_Z n * (pow2 u * pow2 (- u)))%Q; [ring | rewrite I; ring].
Qed.

Lemma RN_inject_Z n :
  Z.abs n <= 2 ^ 53 -> (RN (inject_Z n) == inject_Z n)%Q.
Proof.
  intros H. unfold RN.
  destruct (inject_Z n ?= 0)%Q eqn:C; qcmp C.
  - symmetry. exact C.
  - change 0%Q with (inject_Z 0) in C. rewrite <- Zlt_Qlt in C.
    change (- inject_Z n)%Q with (inject_Z (- n)).
    rewrite round_pos_inject_Z by lia.
    rewrite inject_Z_opp. ring.
  - change 0%Q with (inject_Z 0) in C. rewrite <- Zlt_Qlt in C.
    apply round_pos_inject_Z. lia.
Qed.

Lemma py_sum_between l lo hi :
  (forall x, In x l -> lo <= x <= hi) ->
  lo * len l <= py_sum l <= hi * len l.
Proof.
  unfold len. induction l as [|x l IH]; intros H.
  - cbn. lia.
  - rewrite py_sum_cons. cbn [length]. rewrite Nat2Z.inj_succ.
    assert (lo <= x <= hi) by (apply H; now left).
    assert (lo * Z.of_nat (length l) <= py_sum l <= hi * Z.of_nat (length l))
      by (apply IH; intros y Hy; apply H; now right).
    lia.
Qed.

(** X11.  In a returned bin whose readings have at most 53 bits the
    average lies between the minimum and the maximum: rounding the
    quotient to a float does not carry it outside the readings. *)
Theorem avg_between_min_max bs be hr_data sleep_periods m b lo hi a :
  calculate_dominant_zone_for_bin bs be hr_data sleep_periods m = Ok b ->
  (forall t v, In (t, v) hr_data -> bs <= t < be -> Z.abs v <= 2 ^ 53) ->
  min_hr b = Some lo -> max_hr b = Some hi -> avg_hr b = Some a ->
  (inject_Z lo <= a <= inject_Z hi)%Q.
Proof.
  intros H Hv Hlo Hhi Ha.
  destruct (calculate_dominant_zone_for_bin_inv _ _ _ _ _ _ H)
    as (zones & _ & _ & _ & _ & _ & Elo & Ehi & _ & _ & _ & _ & Havg).
  assert (R : forall v, In v (readings_in_bin bs be hr_data) ->
                Z.abs v <= 2 ^ 53).
  { intros v I. apply in_readings_in_bin in I. destruct I as (t & I & B). eauto. }
  destruct (readings_in_bin bs be hr_data) as [|r rs] eqn:ER;
    [rewrite Havg in Ha; discriminate|].
  destruct Havg as (a' & Ea & Da). rewrite Ea in Ha. injection Ha as ->.
  rewrite Elo in Hlo. rewrite Ehi in Hhi. cbn [py_min py_max] in Hlo, Hhi.
  injection Hlo as <-. injection Hhi as <-.
  destruct (fold_left_min rs r) as [I1 L1].
  destruct (fold_left_max rs r) as [I2 L2].
  set (lo := fold_left Z.min rs r) in *. set (hi := fold_left Z.max rs r) in *.
  pose proof (py_sum_between (r :: rs) lo hi
                (fun x Hx => conj (L1 x Hx) (L2 x Hx))) as [S1 S2].
  assert (Pn : 0 < len (r :: rs)) by (unfold len; cbn [length]; lia).
  unfold int_true_div in Da.
  destruct (Z.eqb_spec (len (r :: rs)) 0); [lia|].
  destruct (overflows _); [discriminate|]. injection Da as <-.
  assert (PQ : (0 < inject_Z (len (r :: rs)))%Q)
    by (change 0%Q with (inject_Z 0); now rewrite <- Zlt_Qlt).
  split.
  - rewrite <- (RN_inject_Z lo) by (apply R, I1).
    apply RN_mono. apply Qle_shift_div_l; [exact PQ|].
    rewrite <- inject_Z_mult, <- Zle_Qle. exact S1.
  - rewrite <- (RN_inject_Z hi) by (apply R, I2).
    apply RN_mono. apply Qle_shift_div_r; [exact PQ|].
    rewrite <- inject_Z_mult, <- Zle_Qle. exact S2.
Qed.

Lemma avg_between_min_max_witness :
  exists b lo hi a,
    calculate_dominant_zone_for_bin 0 900 [(10, 65); (20, 70); (30, 72)] [] 173
      = Ok b /\
    min_hr b = Some lo /\ max_hr b = Some hi /\ avg_hr b = Some a /\
    (inject_Z lo <= a <= inject_Z hi)%Q.
Proof.
  destruct (calculate_dominant_zone_for_bin 0 900
              [(10, 65); (20, 70); (30, 72)] [] 173) as [b|e] eqn:E.
  - pose proof (avg_between_min_max _ _ _ _ _ _ 65 72
                  (RN (inject_Z (65 + 70 + 72) / inject_Z 3)) E) as T.
    exists b, 65, 72, (RN (inject_Z (65 + 70 + 72) / inject_Z 3)).
    split; [reflexivity|].
    vm_compute in E. injection E as <-.
    split; [reflexivity|]. split; [reflexivity|]. split; [reflexivity|].
    apply T; try reflexivity.
    intros t v [X|[X|[X|[]]]] _; injection X as <- <-; vm_compute; discriminate.
  - vm_compute in E. discriminate.
Defined.

(** * The engine on arbitrary data *)

Lemma process_bins_spec int_sqrt hr_data sleep_periods m time_bins :
  forall n i cells,
    process_bins int_sqrt n i time_bins hr_data sleep_periods m = Ok cells ->
    length cells = length time_bins /\
    forall k s e,
      nth_error time_bins k = Some (s, e) ->
      exists b,
        calculate_dominant_zone_for_bin s e hr_data sleep_periods m = Ok b /\
        nth_error cells k =
          Some (with_grid b (i + Z.of_nat k)
                  (fst (grid_position int_sqrt n (i + Z.of_nat k)))
                  (snd (grid_position int_sqrt n (i + Z.of_nat k)))).
Proof.
  induction time_bins as [|[s0 e0] rest IH]; intros n i cells H.
  - cbn in H. injection H as <-. split; [reflexivity|].
    intros [|k] s e Hk; discriminate.
  - cbn [process_bins] in H.
    destruct (calculate_dominant_zone_for_bin s0 e0 hr_data sleep_periods m)
      as [b0|] eqn:E0; [|discriminate].
    cbn [bind] in H.
    destruct (grid_position int_sqrt n i) as [row col] eqn:G.
    destruct (process_bins int_sqrt n (i + 1) rest hr_data sleep_periods m)
      as [tail|] eqn:ET; [|discriminate].
    cbn [bind] in H. injection H as <-.
    destruct (IH n (i + 1) tail ET) as [L N].
    split; [cbn [length]; now rewrite L|].
    intros [|k] s e Hk; cbn [nth_error] in *.
    + injection Hk as <- <-. exists b0. split; [exact E0|].
      replace (i + Z.of_nat 0) with i by lia. now rewrite G.
    + destruct (N k s e Hk) as (b & Eb & Nk). exists b. split; [exact Eb|].
      rewrite Nk. replace (i + 1 + Z.of_nat k) with (i + Z.of_nat (S k)) by lia.
      reflexivity.
Qed.

(** X12.  What the engine returns for a positive bin width: one cell per
    time bin, in order; the cell at position [k] has the bounds of the
    [k]-th bin, the index [k], the grid position of [k], and otherwise is
    the classification of that bin over the whole day's readings and
    sleep periods. *)
Theorem engine_cells
  (int_sqrt : Z -> Z) fuel base_date bin_minutes m sleep_periods hr_data cells :
  0 < bin_minutes -> (1440 <= fuel)%nat ->
  create_chronological_waffle_data int_sqrt fuel base_date bin_minutes m
    sleep_periods hr_data = Some (Ok cells) ->
  len cells = (1440 + bin_minutes - 1) / bin_minutes /\
  forall k cell,
    nth_error cells k = Some cell ->
    let s := base_date + Z.of_nat k * minutes bin_minutes in
    let e := base_date + (Z.of_nat k + 1) * minutes bin_minutes in
    bin_start cell = s /\ bin_end cell = e /\
    bin_index cell = Some (Z.of_nat k) /\
    (grid_row cell, grid_col cell) =
      (Some (fst (grid_position int_sqrt (len cells) (Z.of_nat k))),
       Some (snd (grid_position int_sqrt (len cells) (Z.of_nat k)))) /\
    exists b,
      calculate_dominant_zone_for_bin s e hr_data sleep_periods m = Ok b /\
      is_sleep cell = is_sleep b /\
      hr_readings_count cell = hr_readings_count b /\
      avg_hr cell = avg_hr b /\ min_hr cell = min_hr b /\
      max_hr cell = max_hr b /\ dominant_zone cell = dominant_zone b /\
      zone_counts cell = zone_counts b /\ all_zones cell = all_zones b.
Proof.
  intros Hb Hf H. unfold create_chronological_waffle_data in H.
  destruct (create_time_bins fuel base_date bin_minutes) as [[bins|e]|] eqn:C;
    try discriminate.
  destruct (create_time_bins_inv _ _ _ _ Hb C) as [-> _].
  injection H as H.
  set (n := bin_count bin_minutes) in *.
  set (w := minutes bin_minutes) in *.
  destruct (process_bins_spec _ _ _ _ _ _ _ _ H) as [L N].
  rewrite bins_from_length in L.
  assert (Ln : len cells = Z.of_nat n) by (unfold len; now rewrite L).
  split.
  { rewrite Ln. unfold n, bin_count. apply Z2Nat.id. apply Z.div_pos; lia. }
  intros k cell Hk s e.
  assert (Hkn : (k < n)%nat).
  { rewrite <- L. apply nth_error_Some. congruence. }
  destruct (N k s e) as (b & Eb & Nk); [now apply bins_from_nth|].
  rewrite Nk in Hk. injection Hk as <-.
  destruct (calculate_dominant_zone_for_bin_inv _ _ _ _ _ _ Eb)
    as (_ & _ & Es & Ee & _).
  unfold len in Ln |- *. rewrite bins_from_length. rewrite <- L.
  cbn [with_grid bin_start bin_end bin_index grid_row grid_col is_sleep
       hr_readings_count avg_hr min_hr max_hr dominant_zone zone_counts
       all_zones].
  replace (0 + Z.of_nat k) with (Z.of_nat k) by lia.
  repeat split; try assumption. exists b. repeat split. exact Eb.
Qed.

Lemma engine_cells_witness :
  exists cells,
    create_chronological_waffle_data Z.sqrt 1440 0 720 173 [] [(10, 65)]
      = Some (Ok cells) /\
    len cells = (1440 + 720 - 1) / 720 /\
    forall k cell,
      nth_error cells k = Some cell -> bin_index cell = Some (Z.of_nat k).
Proof.
  destruct (create_chronological_waffle_data Z.sqrt 1440 0 720 173 []
              [(10, 65)]) as [[cells|e]|] eqn:E.
  - exists cells. split; [reflexivity|].
    destruct (engine_cells Z.sqrt 1440 0 720 173 [] [(10, 65)] cells)
      as [L N]; [lia | lia | exact E |].
    split; [exact L|]. intros k cell Hk. now apply (N k cell Hk).
  - vm_compute in E. discriminate.
  - vm_compute in E. discriminate.
Defined.


Lemma hr_readings_count_with_grid b i row col :
  hr_readings_count (with_grid b i row col) = hr_readings_count b.
Proof. reflexivity. Qed.




Lemma process_bins_total int_sqrt hr_data sleep_periods m :
  m <> 0 ->
  (forall t v, In (t, v) hr_data -> Z.abs v <= 2 ^ 1023) ->
  forall time_bins n i,
  exists cells,
    process_bins int_sqrt n i time_bins hr_data sleep_periods m = Ok cells.
Proof.
  intros Hm Hv. induction time_bins as [|[s e] rest IH]; intros n i.
  - exists []. reflexivity.
  - cbn [process_bins].
    destruct (calculate_dominant_zone_for_bin_total s e hr_data sleep_periods
                m Hm Hv) as [b ->].
    cbn [bind]. destruct (grid_position int_sqrt n i) as [row col].
    destruct (IH n (i + 1)) as [tail ->]. cbn [bind]. eexists. reflexivity.
Qed.

(** X14.  On a day whose bins are all datetimes, for a positive bin
    width, a non-zero [max_hr] and readings of magnitude at most
    [2 ^ 1023], the engine ends without an exception, and with the same
    cells for any fuel of at least 1440 iterations. *)
Theorem engine_returns
  (int_sqrt : Z -> Z) base_date bin_minutes m sleep_periods hr_data :
  0 < bin_minutes -> day_fits base_date bin_minutes -> m <> 0 ->
  (forall t v, In (t, v) hr_data -> Z.abs v <= 2 ^ 1023) ->
  exists cells,
    forall fuel, (1440 <= fuel)%nat ->
      create_chronological_waffle_data int_sqrt fuel base_date bin_minutes m
        sleep_periods hr_data = Some (Ok cells).
Proof.
  intros Hb Hd Hm Hv.
  destruct (process_bins_total int_sqrt hr_data sleep_periods m Hm Hv
              (bins_from (bin_count bin_minutes) base_date (minutes bin_minutes))
              (len (bins_from (bin_count bin_minutes) base_date
                      (minutes bin_minutes))) 0) as [cells E].
  exists cells. intros fuel Hf. unfold create_chronological_waffle_data.
  rewrite (create_time_bins_closed base_date bin_minutes fuel Hb Hd Hf).
  now rewrite E.
Qed.

Lemma engine_returns_witness :
  exists cells,
    forall fuel, (1440 <= fuel)%nat ->
      create_chronological_waffle_data Z.sqrt fuel 0 15 173 [(0, 100)]
        [(10, 65); (20, 0)] = Some (Ok cells).
Proof.
  apply (engine_returns Z.sqrt 0 15 173 [(0, 100)] [(10, 65); (20, 0)]).
  - lia.
  - split; vm_compute; discriminate.
  - lia.
  - intros t v [E|[E|[]]]; injection E as <- <-; vm_compute; discriminate.
Defined.

(** * The display grid *)

Lemma grid_position_eq int_sqrt n i :
  grid_position int_sqrt n i =
    (i / grid_cols int_sqrt n, i mod grid_cols int_sqrt n).
Proof.
  unfold grid_position, grid_cols.
  destruct (n =? 96); [reflexivity|]. destruct (n <=? 100); reflexivity.
Qed.

(** X15.  The grid position of a bin determines its index: with a
    positive number of columns (12 for 96 bins, 10 for up to 100 bins,
    [int(n ** 0.5) + 1] beyond), [index = row * columns + col] with
    [0 <= col < columns], so two bins never share a cell. *)
Theorem grid_position_injective (int_sqrt : Z -> Z) n i j :
  (100 < n -> 0 <= int_sqrt n) ->
  let cols := grid_cols int_sqrt n in
  (i = fst (grid_position int_sqrt n i) * cols
       + snd (grid_position int_sqrt n i) /\
   0 <= snd (grid_position int_sqrt n i) < cols) /\
  (grid_position int_sqrt n i = grid_position int_sqrt n j -> i = j).
Proof.
  intros Hs cols.
  assert (Hc : 0 < cols).
  { unfold cols, grid_cols. destruct (Z.eqb_spec n 96); [lia|].
    destruct (Z.leb_spec n 100); [lia|]. specialize (Hs ltac:(lia)). lia. }
  rewrite !grid_position_eq. fold cols. cbn [fst snd].
  pose proof (Z.div_mod i cols ltac:(lia)) as Ei.
  pose proof (Z.div_mod j cols ltac:(lia)) as Ej.
  pose proof (Z.mod_pos_bound i cols Hc).
  split; [split; [lia | assumption]|].
  intros E. injection E as E1 E2. rewrite E1, E2 in Ei. lia.
Qed.

Lemma grid_position_injective_witness :
  (144 = fst (grid_position Z.sqrt 1440 144) * grid_cols Z.sqrt 1440
          + snd (grid_position Z.sqrt 1440 144) /\
   0 <= snd (grid_position Z.sqrt 1440 144) < grid_cols Z.sqrt 1440) /\
  (grid_position Z.sqrt 1440 144 = grid_position Z.sqrt 1440 144 ->
   144 = 144).
Proof.
  apply (grid_position_injective Z.sqrt 1440 144 144).
  intros _. vm_compute. discriminate.
Defined.

(** X16.  The grid is as large as the code says: the bins of a 96-bin day
    fill 8 rows of 12, up to 100 bins fit 10 rows of 10, and beyond that,
    when [int(n ** 0.5)] is the integer square root of [n], the bins fit a
    square of [int(n ** 0.5) + 1] rows and columns. *)
Theorem grid_position_fits (int_sqrt : Z -> Z) n i :
  0 <= i < n ->
  (100 < n ->
   0 <= int_sqrt n /\ n < (int_sqrt n + 1) * (int_sqrt n + 1)) ->
  let row := fst (grid_position int_sqrt n i) in
  let col := snd (grid_position int_sqrt n i) in
  0 <= row /\ 0 <= col /\
  (n = 96 -> row < 8 /\ col < 12) /\
  (n <> 96 -> n <= 100 -> row < 10 /\ col < 10) /\
  (100 < n -> row < int_sqrt n + 1 /\ col < int_sqrt n + 1).
Proof.
  intros Hi Hs row col. unfold row, col, grid_position.
  destruct (Z.eqb_spec n 96) as [E|NE]; cbn [fst snd].
  - pose proof (Z.mod_pos_bound i 12 ltac:(lia)).
    assert (0 <= i / 12 < 8)
      by (split; [apply Z.div_pos | apply Z.div_lt_upper_bound]; lia).
    repeat split; try lia.
  - destruct (Z.leb_spec n 100) as [L|G]; cbn [fst snd].
    + pose proof (Z.mod_pos_bound i 10 ltac:(lia)).
      assert (0 <= i / 10 < 10)
        by (split; [apply Z.div_pos | apply Z.div_lt_upper_bound]; lia).
      repeat split; try lia.
    + destruct (Hs G) as [S0 S1].
      pose proof (Z.mod_pos_bound i (int_sqrt n + 1) ltac:(lia)).
      assert (0 <= i / (int_sqrt n + 1) < int_sqrt n + 1)
        by (split; [apply Z.div_pos | apply Z.div_lt_upper_bound]; lia).
      repeat split; try lia.
Qed.

Lemma grid_position_fits_witness :
  0 <= 1439 < 1440 /\
  fst (grid_position Z.sqrt 1440 1439) < Z.sqrt 1440 + 1 /\
  snd (grid_position Z.sqrt 1440 1439) < Z.sqrt 1440 + 1.
Proof.
  split; [lia|].
  apply (grid_position_fits Z.sqrt 1440 1439); [lia | | lia].
  intros _. vm_compute. split; [discriminate | reflexivity].
Defined.

(** * The counts of the summaries *)

Lemma count_if_length {A} (p : A -> bool) (l : list A) :
  count_if p l = len (filter p l).
Proof.
  unfold count_if, len. induction (filter p l) as [|x f IH]; [reflexivity|].
  cbn [map length]. rewrite py_sum_cons, IH. lia.
Qed.

Lemma count_if_cons {A} (p : A -> bool) x (l : list A) :
  count_if p (x :: l) = (if p x then 1 else 0) + count_if p l.
Proof.
  rewrite !count_if_length. unfold len. cbn [filter].
  destruct (p x); cbn [length]; lia.
Qed.

Lemma count_if_bounds {A} (p : A -> bool) (l : list A) :
  0 <= count_if p l <= len l.
Proof.
  induction l as [|x l IH]; [cbn; unfold count_if, len; cbn; lia|].
  rewrite count_if_cons. unfold len in *. cbn [length].
  destruct (p x); lia.
Qed.

Lemma summary_fold_total waffle_data :
  forall d,
    py_sum (values (fold_left summary_step waffle_data d)) =
      py_sum (values d) +
      count_if (fun b => negb (is_sleep b) &&
                         match dominant_zone b with
                         | Some _ => true
                         | None => false
                         end) waffle_data.
Proof.
  induction waffle_data as [|b rest IH]; intros d.
  - cbn [fold_left]. unfold count_if. cbn [filter map].
    change (py_sum []) with 0. lia.
  - cbn [fold_left]. rewrite IH, count_if_cons. unfold summary_step.
    destruct (is_sleep b); cbn [negb andb]; [lia|].
    destruct (dominant_zone b) as [z|]; [|lia].
    rewrite py_sum_dict_incr. lia.
Qed.

Lemma bins_split_three (waffle_data : list BinData) :
  sleep_bins waffle_data
  + count_if (fun b => negb (is_sleep b) &&
                       match dominant_zone b with
                       | Some _ => true
                       | None => false
                       end) waffle_data
  + count_if (fun b => negb (is_sleep b) &&
                       match dominant_zone b with
                       | Some _ => false
                       | None => true
                       end) waffle_data
  = total_bins waffle_data.
Proof.
  unfold sleep_bins, total_bins.
  induction waffle_data as [|b rest IH]; [reflexivity|].
  rewrite !count_if_cons. unfold len in *. cbn [length].
  rewrite Nat2Z.inj_succ.
  destruct (is_sleep b), (dominant_zone b); cbn [negb andb]; lia.
Qed.

(** X17.  In the printed summary the zone distribution adds up to the
    number of awake bins that have a dominant zone; together with the
    sleep bins and the awake bins without a dominant zone this is every
    bin, so the distribution never exceeds [awake_bins]. *)
Theorem zone_distribution_total (waffle_data : list BinData) :
  let with_zone :=
    count_if (fun b => negb (is_sleep b) &&
                       match dominant_zone b with
                       | Some _ => true
                       | None => false
                       end) waffle_data in
  let without_zone :=
    count_if (fun b => negb (is_sleep b) &&
                       match dominant_zone b with
                       | Some _ => false
                       | None => true
                       end) waffle_data in
  py_sum (values (print_waffle_summary waffle_data)) = with_zone /\
  with_zone + without_zone = awake_bins waffle_data /\
  sleep_bins waffle_data + with_zone + without_zone = total_bins waffle_data /\
  0 <= with_zone <= awake_bins waffle_data.
Proof.
  intros with_zone without_zone.
  assert (S : py_sum (values (print_waffle_summary waffle_data)) = with_zone).
  { unfold print_waffle_summary. rewrite summary_fold_total. reflexivity. }
  pose proof (bins_split_three waffle_data) as T.
  fold with_zone without_zone in T.
  pose proof (count_if_bounds
                (fun b => negb (is_sleep b) &&
                          match dominant_zone b with
                          | Some _ => true
                          | None => false
                          end) waffle_data) as B1.
  pose proof (count_if_bounds
                (fun b => negb (is_sleep b) &&
                          match dominant_zone b with
                          | Some _ => false
                          | None => true
                          end) waffle_data) as B2.
  fold with_zone in B1. fold without_zone in B2.
  unfold awake_bins. repeat split; try lia.
Qed.

(** X18.  The viewer's [awake_with_data] is the number of awake bins with
    readings minus the number of sleep bins without readings: such a bin
    is subtracted twice, as a sleep bin and as a bin without data, and
    the figure can fall below zero. *)
Theorem view_awake_with_data (waffle_data : list BinData) :
  awake_with_data waffle_data =
    count_if (fun row => negb (is_sleep row) &&
                         negb (hr_readings_count row =? 0)) waffle_data
    - count_if (fun row => is_sleep row && (hr_readings_count row =? 0))
        waffle_data.
Proof.
  unfold awake_with_data, sleep_bins, no_data_bins.
  induction waffle_data as [|b rest IH]; [reflexivity|].
  rewrite !count_if_cons. unfold len in *. cbn [length].
  rewrite Nat2Z.inj_succ.
  destruct (is_sleep b), (hr_readings_count b =? 0); cbn [negb andb]; lia.
Qed.

(** * The viewer *)

Lemma returned_zone_facts bs be hr_data sleep_periods m b :
  calculate_dominant_zone_for_bin bs be hr_data sleep_periods m = Ok b ->
  (dominant_zone b = None <-> hr_readings_count b = 0) /\
  (forall z, dominant_zone b = Some z -> 0 <= z <= 6).
Proof.
  intros H.
  destruct (calculate_dominant_zone_for_bin_inv _ _ _ _ _ _ H)
    as (zones & Hz & _ & _ & _ & Hc & _ & _ & _ & _ & Hd & _).
  pose proof (mapM_length _ _ _ Hz) as L.
  apply mapM_Forall2 in Hz. destruct (zones_range _ _ _ Hz) as [R _].
  split.
  - rewrite Hc, Hd. unfold len.
    destruct zones as [|z zs].
    + cbn in L. destruct (readings_in_bin bs be hr_data); [|discriminate].
      cbn. tauto.
    + destruct (dominant_first_seen (z :: zs) ltac:(discriminate))
        as (z0 & _ & _ & Ez & _).
      rewrite Ez. cbn [length] in L. rewrite <- L.
      split; [discriminate | lia].
  - intros z Ez. rewrite Ez in Hd. apply R, count_zones_keys.
    destruct (keys (count_zones zones)) as [|k ks] eqn:EK; [discriminate|].
    injection Hd as ->.
    destruct (max_from_spec (fun k => dict_get (count_zones zones) k 0)
                ks [] k []) as (k1 & k2 & E & _); [intros ? [] | intros ? [] |].
    cbn in E. rewrite E. apply in_app_iff. right. now left.
Qed.

(** X19.  The square the viewer draws for a classified bin: the sleep
    sign exactly for sleep bins; white exactly for awake bins without
    readings; the fallback black exactly for awake bins whose dominant
    zone is 0; and otherwise the colour of the dominant zone 1 to 6. *)
Theorem view_symbol_of_bin bs be hr_data sleep_periods m b :
  calculate_dominant_zone_for_bin bs be hr_data sleep_periods m = Ok b ->
  (view_symbol b = zzz <-> is_sleep b = true) /\
  (view_symbol b = white <-> is_sleep b = false /\ hr_readings_count b = 0) /\
  (view_symbol b = black <-> is_sleep b = false /\ dominant_zone b = Some 0) /\
  (forall z, is_sleep b = false -> dominant_zone b = Some z -> 1 <= z ->
     nth_error [blue; green; yellow; orange; red; purple] (Z.to_nat (z - 1))
       = Some (view_symbol b)).
Proof.
  intros H. destruct (returned_zone_facts _ _ _ _ _ _ H) as [N R].
  unfold view_symbol.
  destruct (is_sleep b).
  { repeat split; try discriminate; try tauto; intros; try discriminate;
      destruct H0; discriminate. }
  destruct (dominant_zone b) as [z|] eqn:D.
  - specialize (R z eq_refl).
    assert (C : hr_readings_count b <> 0).
    { intros C. apply N in C. discriminate. }
    assert (Z6 : z = 0 \/ z = 1 \/ z = 2 \/ z = 3 \/ z = 4 \/ z = 5 \/ z = 6)
      by lia.
    decompose [or] Z6; subst z; cbn;
      (split; [split; [discriminate | discriminate]|]);
      (split; [split; [discriminate | intros [_ ?]; contradiction]|]);
      (split; [split; [try discriminate; auto
                      | intros [_ X]; try discriminate X; reflexivity]|]);
      intros z' _ E Hz; injection E as <-; try lia; reflexivity.
  - assert (C : hr_readings_count b = 0) by now apply N.
    repeat split; try discriminate; try assumption; try tauto;
      try (intros [_ X]; discriminate); try (intros z _ X; discriminate).
Qed.

Lemma view_symbol_of_bin_witness :
  exists b,
    calculate_dominant_zone_for_bin 0 900 [(10, 0)] [] 173 = Ok b /\
    (view_symbol b = black <-> is_sleep b = false /\ dominant_zone b = Some 0).
Proof.
  destruct (calculate_dominant_zone_for_bin 0 900 [(10, 0)] [] 173)
    as [b|e] eqn:E.
  - exists b. split; [reflexivity|].
    exact (proj1 (proj2 (proj2 (view_symbol_of_bin _ _ _ _ _ _ E)))).
  - vm_compute in E. discriminate.
Defined.

Lemma nth_error_range n k :
  (k < n)%nat -> nth_error (range n) k = Some (Z.of_nat k).
Proof.
  intros H. unfold range. rewrite nth_error_map.
  rewrite nth_error_seq. destruct (Nat.ltb_spec k n); [reflexivity | lia].
Qed.

(** X20.  Without rows the viewer draws nothing; with rows it draws 8
    lines of 12 squares.  The bin at position [k < 96] of the rows is
    drawn on line [k / 12] at place [k mod 12]; a position past the end of
    the rows is drawn white, and rows from the 97th on are not drawn. *)
Theorem view_grid_layout (waffle_data : list BinData) :
  (waffle_data = [] <-> view_waffle_data waffle_data = None) /\
  (forall grid, view_waffle_data waffle_data = Some grid ->
     length grid = 8%nat /\
     (forall line, In line grid -> length line = 12%nat) /\
     (forall k, (k < 96)%nat ->
        exists line,
          nth_error grid (k / 12) = Some line /\
          nth_error line (k mod 12) =
            Some match nth_error waffle_data k with
                 | Some bin_data => view_symbol bin_data
                 | None => white
                 end)).
Proof.
  split.
  { unfold view_waffle_data.
    destruct waffle_data; split; intros; congruence. }
  intros grid H.
  assert (E : grid = view_grid waffle_data).
  { unfold view_waffle_data in H.
    destruct waffle_data; [discriminate | now injection H]. }
  subst grid. clear H.
  split; [reflexivity|]. split.
  - intros line I. unfold view_grid in I. apply in_map_iff in I.
    destruct I as (row & <- & _). reflexivity.
  - intros k Hk. unfold view_grid.
    assert (Hr : (k / 12 < 8)%nat) by (apply Nat.Div0.div_lt_upper_bound; lia).
    assert (Hc : (k mod 12 < 12)%nat) by (apply Nat.mod_upper_bound; lia).
    rewrite nth_error_map, (nth_error_range 8 (k / 12) Hr). cbn [option_map].
    eexists. split; [reflexivity|].
    rewrite nth_error_map, (nth_error_range 12 (k mod 12) Hc). cbn [option_map].
    f_equal.
    assert (E : Z.of_nat (k / 12) * 12 + Z.of_nat (k mod 12) = Z.of_nat k).
    { pose proof (Nat.div_mod_eq k 12). lia. }
    rewrite E, Nat2Z.id. unfold len.
    destruct (Z.ltb_spec (Z.of_nat k) (Z.of_nat (length waffle_data)));
      [reflexivity|].
    assert (N : nth_error waffle_data k = None) by (apply nth_error_None; lia).
    now rewrite N.
Qed.

Lemma view_grid_layout_witness :
  exists b grid,
    calculate_dominant_zone_for_bin 0 900 [(10, 65)] [] 173 = Ok b /\
    view_waffle_data [b] = Some grid /\
    length grid = 8%nat /\
    exists line,
      nth_error grid (95 / 12) = Some line /\
      nth_error line (95 mod 12) = Some white.
Proof.
  destruct (calculate_dominant_zone_for_bin 0 900 [(10, 65)] [] 173)
    as [b|e] eqn:E.
  - exists b, (view_grid [b]). split; [reflexivity|]. split; [reflexivity|].
    destruct (proj2 (view_grid_layout [b]) (view_grid [b]) eq_refl)
      as (L & _ & C).
    split; [exact L|]. apply (C 95%nat). lia.
  - vm_compute in E. discriminate.
Defined.

Lemma state_eqb_eq a b : state_eqb a b = true <-> a = b.
Proof.
  destruct a, b; cbn; try (split; [discriminate | discriminate]);
    try tauto.
  rewrite Z.eqb_eq. split; [intros ->; reflexivity | intros E; now injection E].
Qed.

Lemma timeline_fold rows final_end :
  forall current_state state_start out,
  exists cs ss,
    fst (fold_left timeline_step rows (Some (current_state, state_start), out))
      = Some (cs, ss) /\
    snd (fold_left timeline_step rows (Some (current_state, state_start), out))
      ++ [(ss, final_end, cs)]
    = out ++ timeline_from current_state state_start final_end rows.
Proof.
  induction rows as [|row rest IH]; intros cs ss out.
  - exists cs, ss. split; reflexivity.
  - cbn [fold_left timeline_from]. unfold timeline_step at 2 4. cbn [fst snd].
    destruct (state_eqb cs (state_of row)).
    + apply IH.
    + destruct (IH (state_of row) (bin_start row)
                  (out ++ [(ss, bin_start row, cs)])) as (cs' & ss' & F & S).
      exists cs', ss'. split; [exact F|]. rewrite S, <- app_assoc. reflexivity.
Qed.

Lemma view_detailed_timeline_eq row rest :
  view_detailed_timeline (row :: rest) =
    timeline_from (state_of row) (bin_start row)
      (last (map bin_end (row :: rest)) 0) rest.
Proof.
  unfold view_detailed_timeline. cbn [fold_left].
  unfold timeline_step at 2 4. cbn [fst snd].
  destruct (timeline_fold rest (last (map bin_end (row :: rest)) 0)
              (state_of row) (bin_start row) []) as (cs & ss & F & S).
  rewrite F. exact S.
Qed.

Lemma timeline_from_spec rows final_end :
  forall current_state state_start,
    let lines := timeline_from current_state state_start final_end rows in
    (exists e rest, lines = (state_start, e, current_state) :: rest) /\
    map snd lines = collapse (current_state :: map state_of rows) /\
    snd (fst (last lines (0, 0, SLEEP))) = final_end /\
    (forall k a b,
       nth_error lines k = Some a -> nth_error lines (S k) = Some b ->
       snd (fst a) = fst (fst b) /\ snd a <> snd b).
Proof.
  induction rows as [|row rest IH]; intros cs ss; cbn zeta.
  - cbn [timeline_from map]. split; [eauto|]. split; [reflexivity|].
    split; [reflexivity|]. intros [|k] a b Ha Hb; discriminate.
  - cbn [timeline_from map].
    destruct (state_eqb cs (state_of row)) eqn:E.
    + apply state_eqb_eq in E.
      destruct (IH cs ss) as (Hd & Hs & Hl & Hadj). cbn zeta in *.
      split; [exact Hd|]. split; [|split; [exact Hl | exact Hadj]].
      rewrite Hs. cbn [collapse map].
      rewrite <- E. rewrite (proj2 (state_eqb_eq cs cs) eq_refl).
      reflexivity.
    + destruct (IH (state_of row) (bin_start row)) as (Hd & Hs & Hl & Hadj).
      cbn zeta in *. destruct Hd as (e & tl & Etl).
      split; [eauto|]. split; [|split].
      * cbn [map snd]. rewrite Hs. cbn [collapse map]. now rewrite E.
      * rewrite Etl in *. exact Hl.
      * intros [|k] a b Ha Hb.
        -- cbn [nth_error] in Ha, Hb. injection Ha as <-.
           rewrite Etl in Hb. cbn [nth_error] in Hb. injection Hb as <-.
           cbn [fst snd]. split; [reflexivity|].
           intros C. apply state_eqb_eq in C. congruence.
        -- cbn [nth_error] in Ha, Hb. exact (Hadj k a b Ha Hb).
Qed.

(** X21.  The timeline is the run-length encoding of the rows' states:
    no rows, no lines; otherwise the states of the lines are the states
    of the rows with repetitions merged, the first line starts at the
    first row's start, each line ends where the next begins and has a
    different state, and the last line ends at the last row's end. *)
Theorem view_detailed_timeline_runs (waffle_data : list BinData) :
  let lines := view_detailed_timeline waffle_data in
  (waffle_data = [] -> lines = []) /\
  map snd lines = collapse (map state_of waffle_data) /\
  (forall first rest, waffle_data = first :: rest ->
     (exists e tl, lines = (bin_start first, e, state_of first) :: tl) /\
     snd (fst (last lines (0, 0, SLEEP))) = last (map bin_end waffle_data) 0) /\
  (forall k a b,
     nth_error lines k = Some a -> nth_error lines (S k) = Some b ->
     snd (fst a) = fst (fst b) /\ snd a <> snd b).
Proof.
  cbn zeta. destruct waffle_data as [|row rest].
  - repeat split; try reflexivity; try discriminate;
      destruct k; discriminate.
  - rewrite view_detailed_timeline_eq.
    destruct (timeline_from_spec rest (last (map bin_end (row :: rest)) 0)
                (state_of row) (bin_start row)) as (Hd & Hs & Hl & Hadj).
    cbn zeta in *.
    split; [discriminate|]. split; [exact Hs|]. split; [|exact Hadj].
    intros first rest' E. injection E as <- <-. split; assumption.
Qed.

(** X23.  A bin of non-negative width that lies inside one sleep period
    is a sleep bin, and a bin that no sleep period touches is awake;
    between the two, the midpoint decides. *)
Theorem bin_inside_or_outside_sleep bs be hr_data sleep_periods m b :
  calculate_dominant_zone_for_bin bs be hr_data sleep_periods m = Ok b ->
  bs <= be ->
  ((exists s e, In (s, e) sleep_periods /\ s <= bs /\ be <= e) ->
   is_sleep b = true) /\
  ((forall s e, In (s, e) sleep_periods -> e < bs \/ be < s) ->
   is_sleep b = false).
Proof.
  intros H Hw.
  destruct (calculate_dominant_zone_for_bin_inv _ _ _ _ _ _ H)
    as (_ & _ & _ & _ & Hs & _).
  pose proof (divide_and_round_half (be - bs)) as [D _].
  assert (M : bs <= bin_midpoint bs be <= be) by (unfold bin_midpoint; lia).
  rewrite Hs. split.
  - intros (s & e & I & B1 & B2). apply is_sleeping_iff.
    exists s, e. split; [exact I | lia].
  - intros Hout. destruct (is_sleeping (bin_midpoint bs be) sleep_periods) eqn:S;
      [|reflexivity].
    apply is_sleeping_iff in S. destruct S as (s & e & I & B).
    destruct (Hout s e I); lia.
Qed.

Lemma bin_inside_or_outside_sleep_witness :
  exists b,
    calculate_dominant_zone_for_bin 100 200 [(150, 65)] [(50, 300)] 173
      = Ok b /\
    is_sleep b = true.
Proof.
  destruct (calculate_dominant_zone_for_bin 100 200 [(150, 65)] [(50, 300)] 173)
    as [b|e] eqn:E.
  - exists b. split; [reflexivity|].
    apply (proj1 (bin_inside_or_outside_sleep _ _ _ _ _ _ E ltac:(lia))).
    exists 50, 300. split; [now left | lia].
  - vm_compute in E. discriminate.
Defined.

(** * The figures of the two summaries on the engine's output *)

Lemma engine_cell_facts int_sqrt hr_data sleep_periods m time_bins n i cells :
  process_bins int_sqrt n i time_bins hr_data sleep_periods m = Ok cells ->
  forall c, In c cells ->
    (dominant_zone c = None <-> hr_readings_count c = 0) /\
    0 <= hr_readings_count c.
Proof.
  intros H c I.
  destruct (process_bins_spec _ _ _ _ _ _ _ _ H) as [L N].
  apply In_nth_error in I. destruct I as [k Hk].
  destruct (nth_error time_bins k) as [[s e]|] eqn:B.
  - destruct (N k s e B) as (b & Hb & Nk). rewrite Nk in Hk.
    injection Hk as <-.
    destruct (returned_zone_facts _ _ _ _ _ _ Hb) as [Z _].
    destruct (calculate_dominant_zone_for_bin_inv _ _ _ _ _ _ Hb)
      as (zones & _ & _ & _ & _ & Hc & _).
    rewrite hr_readings_count_with_grid.
    change (dominant_zone (with_grid b _ _ _)) with (dominant_zone b).
    split; [exact Z|]. rewrite Hc. unfold len. lia.
  - apply nth_error_None in B.
    assert (k < length cells)%nat by (apply nth_error_Some; congruence). lia.
Qed.

Lemma summary_figures (waffle_data : list BinData) :
  (forall c, In c waffle_data ->
     (dominant_zone c = None <-> hr_readings_count c = 0) /\
     0 <= hr_readings_count c) ->
  bins_with_hr_data waffle_data =
    count_if (fun b => negb (is_sleep b) &&
                       match dominant_zone b with
                       | Some _ => true
                       | None => false
                       end) waffle_data
    + count_if (fun b => is_sleep b && (0 <? hr_readings_count b)) waffle_data /\
  awake_with_data waffle_data =
    count_if (fun b => negb (is_sleep b) &&
                       match dominant_zone b with
                       | Some _ => true
                       | None => false
                       end) waffle_data
    - count_if (fun b => is_sleep b && (hr_readings_count b =? 0)) waffle_data.
Proof.
  unfold bins_with_hr_data, awake_with_data, sleep_bins, no_data_bins.
  induction waffle_data as [|b rest IH]; intros F; [split; reflexivity|].
  destruct (IH (fun c I => F c (or_intror I))) as [IH1 IH2].
  destruct (F b (or_introl eq_refl)) as [Z P].
  rewrite !count_if_cons. unfold len in *. cbn [length].
  rewrite Nat2Z.inj_succ.
  destruct (dominant_zone b) as [z|].
  - assert (hr_readings_count b <> 0) by (intros C; apply Z in C; discriminate).
    assert (E1 : (0 <? hr_readings_count b) = true) by (apply Z.ltb_lt; lia).
    assert (E2 : (hr_readings_count b =? 0) = false) by (apply Z.eqb_neq; lia).
    rewrite E1, E2. destruct (is_sleep b); cbn [negb andb]; lia.
  - assert (E : hr_readings_count b = 0) by now apply Z.
    rewrite E. change (0 <? 0) with false. change (0 =? 0) with true.
    destruct (is_sleep b); cbn [negb andb]; lia.
Qed.

(** X28.  On the engine's output the printed figures fit together: the
    line [Bins with HR data] is the total of the zone distribution plus
    the sleep bins that have readings, and the viewer's
    [Awake bins with HR data] is the total of the zone distribution minus
    the sleep bins that have no readings. *)
Theorem summary_figures_of_engine
  (int_sqrt : Z -> Z) fuel base_date bin_minutes m sleep_periods hr_data cells :
  create_chronological_waffle_data int_sqrt fuel base_date bin_minutes m
    sleep_periods hr_data = Some (Ok cells) ->
  bins_with_hr_data cells =
    py_sum (values (print_waffle_summary cells))
    + count_if (fun b => is_sleep b && (0 <? hr_readings_count b)) cells /\
  awake_with_data cells =
    py_sum (values (print_waffle_summary cells))
    - count_if (fun b => is_sleep b && (hr_readings_count b =? 0)) cells.
Proof.
  intros H. unfold create_chronological_waffle_data in H.
  destruct (create_time_bins fuel base_date bin_minutes) as [[bins|e]|];
    try discriminate.
  injection H as H.
  pose proof (summary_figures cells (engine_cell_facts _ _ _ _ _ _ _ _ H))
    as [F1 F2].
  unfold print_waffle_summary. rewrite summary_fold_total.
  change (py_sum (values [])) with 0. rewrite F1, F2. split; lia.
Qed.

Lemma summary_figures_of_engine_witness :
  exists cells,
    create_chronological_waffle_data Z.sqrt 1440 0 720 173
      [(0, minutes 720)] [(10, 65); (minutes 800, 120)] = Some (Ok cells) /\
    bins_with_hr_data cells =
      py_sum (values (print_waffle_summary cells))
      + count_if (fun b => is_sleep b && (0 <? hr_readings_count b)) cells.
Proof.
  destruct (create_chronological_waffle_data Z.sqrt 1440 0 720 173
              [(0, minutes 720)] [(10, 65); (minutes 800, 120)])
    as [[cells|e]|] eqn:E.
  - exists cells. split; [reflexivity|].
    apply (summary_figures_of_engine Z.sqrt 1440 0 720 173
             [(0, minutes 720)] [(10, 65); (minutes 800, 120)] cells E).
  - vm_compute in E. discriminate.
  - vm_compute in E. discriminate.
Defined.
